(** * PixelGuard: the detection engine, embedded and verified

    A shallow embedding of the detection engine of [src/pixelguard]
    (configuration factory, the four detectors, the composite, the image
    and batch analyzers) and the properties stated about it.

    Conventions of the embedding:
    - Python [int] is [Z]. The ratio detector, whose verdict rests on the
      rounding of [W / H] and of the differences it compares, computes in
      IEEE 754 binary64 ([float64], with the operations of [SpecFloat]); a
      float of its configuration, held as the rational it is written as,
      is there the binary64 value nearest to that rational. Elsewhere a
      Python [float] that the program computes with is a rational [Q] and
      its arithmetic is exact (no rounding). A float that may be infinite
      or [nan] (the result of a NumPy scalar division) is an [npfloat].
    - A Python call that may raise returns [res A]: [Raise e] is the
      exception [e] propagating, [Return a] is a normal return.
    - A [dict] is a finite map with string keys whose values are [pyval].
    - Functions of external libraries (the built-ins [float], [int] and
      [format], OpenCV's [cvtColor], scikit-learn's [KMeans],
      [numpy.random.choice]) are interfaces (type classes): a theorem
      stated over an interface holds for every implementation of it.
    - Arrays are [uint8] arrays, the dtype [ImageLoader.load] returns, on
      which [ensure_uint8] is the identity. *)

From Stdlib Require Import SpecFloat QArith Qabs Qround Lqa Ascii String.
From stdpp Require Import gmap strings list fin_maps pretty.

Set Warnings "-register-all".

(* ===================================================================== *)
(** * Python runtime: exceptions, values, numbers *)
(* ===================================================================== *)

(** An exception object: its class name and [str(e)]. *)
Record exn := Exn { exn_type : string; exn_msg : string }.

Definition ValueError (msg : string) : exn := Exn "ValueError" msg.
Definition ZeroDivisionError (msg : string) : exn := Exn "ZeroDivisionError" msg.
Definition IndexError (msg : string) : exn := Exn "IndexError" msg.
Definition AttributeError (msg : string) : exn := Exn "AttributeError" msg.
Definition KeyError (msg : string) : exn := Exn "KeyError" msg.
Definition OverflowError (msg : string) : exn := Exn "OverflowError" msg.

(** [str(e)] *)
Definition str_exn (e : exn) : string := exn_msg e.

(** The outcome of a call: an exception propagates or a value is returned. *)
Inductive res (A : Type) : Type :=
| Raise (e : exn)
| Return (a : A).
Arguments Raise {A} e.
Arguments Return {A} a.

#[global] Instance res_ret : MRet res := λ A a, Return a.
#[global] Instance res_bind : MBind res := λ A B f m,
  match m with
  | Raise e => Raise e
  | Return a => f a
  end.

(** [try: m except Exception as e: handler(e)] *)
Definition try_except {A} (m : res A) (handler : exn → res A) : res A :=
  match m with
  | Raise e => handler e
  | Return a => Return a
  end.

(** A NumPy [float64] scalar: finite, infinite or not a number. *)
Inductive npfloat :=
| NFin (q : Q)
| NPInf
| NNInf
| NNan.

(** Values stored in a [details] dictionary. *)
Inductive pyval :=
| VNone
| VBool (b : bool)
| VInt (z : Z)
| VFloat (x : npfloat)
| VStr (s : string)
| VList (l : list pyval)
| VDict (d : gmap string pyval).

Abbreviation dict := (gmap string pyval).

(** [a / b] on Python ints (true division): the exact quotient, where the
    program only stores or reports it. *)
Definition py_truediv (a b : Z) : res Q :=
  if (b =? 0)%Z then Raise (ZeroDivisionError "division by zero")
  else Return (inject_Z a / inject_Z b)%Q.

(** A Python [float] as the IEEE 754 binary64 value it is, with the
    operations of [SpecFloat]: rounding to nearest, ties to even. *)
Abbreviation float64 := spec_float.

Module f64.

Definition prec : Z := 53.
Definition emax : Z := 1024.

(** [float("inf")] and [float("nan")] *)
Definition inf : float64 := S754_infinity false.
Definition nan : float64 := S754_nan.

(** [x - y], [x / y] (on a divisor that is not zero), [abs(x)], [x < y]
    and [x <= y]; a comparison with [nan] is false. *)
Definition sub : float64 → float64 → float64 := SFsub prec emax.
Definition div : float64 → float64 → float64 := SFdiv prec emax.
Definition abs : float64 → float64 := SFabs.
Definition ltb : float64 → float64 → bool := SFltb.
Definition leb : float64 → float64 → bool := SFleb.

(** [x == 0.0], of either sign. *)
Definition is_zero (x : float64) : bool :=
  match x with
  | S754_zero _ => true
  | _ => false
  end.

Definition is_infinite (x : float64) : bool :=
  match x with
  | S754_infinity _ => true
  | _ => false
  end.

(** [float(z)]: the float nearest to the integer [z], an infinity when [z]
    is too large. *)
Definition of_Z (z : Z) : float64 := binary_normalize prec emax z 0 false.

(** The float nearest to the quotient [n / d] of two integers, [d] not
    zero: the division rounds the exact quotient once. *)
Definition of_quotient (n d : Z) : float64 :=
  match n with
  | Z0 => S754_zero (d <? 0)%Z
  | _ => div (S754_finite (n <? 0)%Z (Z.to_pos (Z.abs n)) 0)
             (S754_finite (d <? 0)%Z (Z.to_pos (Z.abs d)) 0)
  end.

(** The float nearest to a rational: the value of a literal, or of
    [float(s)], for the number written. *)
Definition of_Q (q : Q) : float64 := of_quotient (Qnum q) (Z.pos (Qden q)).

(** The rational that a finite float is. *)
Definition to_Q (x : float64) : Q :=
  match x with
  | S754_finite s m e =>
      let v := (if (0 <=? e)%Z then inject_Z (Z.pos m * 2 ^ e)
                else inject_Z (Z.pos m) / inject_Z (2 ^ (- e)))%Q in
      if s then (- v)%Q else v
  | _ => 0%Q
  end.

End f64.

(** [a / b] on Python ints (true division), as the float that Python
    returns: the quotient rounded once, [OverflowError] when it is too
    large for a float. *)
Definition py_truediv_float (a b : Z) : res float64 :=
  if (b =? 0)%Z then Raise (ZeroDivisionError "division by zero")
  else
    let x := f64.of_quotient a b in
    if f64.is_infinite x
    then Raise (OverflowError "integer division result too large for a float")
    else Return x.

(** The NumPy scalar of a float. *)
Definition npfloat_of (x : float64) : npfloat :=
  match x with
  | S754_nan => NNan
  | S754_infinity s => if s then NNInf else NPInf
  | _ => NFin (f64.to_Q x)
  end.

(** [min(a, b)] and [max(a, b)] with two arguments: the first argument is
    kept unless the second is strictly smaller (resp. larger). *)
Definition py_min (a b : Q) : Q := if Qlt_le_dec b a then b else a.
Definition py_max (a b : Q) : Q := if Qlt_le_dec a b then b else a.

(** [int(x)] on a float: truncation towards zero. *)
Definition py_int_of_float (x : Q) : Z := Z.quot (Qnum x) (Z.pos (Qden x)).

(** [sum(xs)] *)
Definition py_sum (xs : list Z) : Z := fold_left Z.add xs 0%Z.

(** [bool] as an [int] ([True + True == 2]). *)
Definition int_of_bool (b : bool) : Z := if b then 1%Z else 0%Z.

(** [len(xs)] *)
Definition len {A} (xs : list A) : Z := Z.of_nat (length xs).

(** [needle in haystack] on strings. *)
Fixpoint str_prefix (p s : string) : bool :=
  match p, s with
  | EmptyString, _ => true
  | String a p', String b s' => if Ascii.eqb a b then str_prefix p' s' else false
  | String _ _, EmptyString => false
  end.

Fixpoint str_contains (needle hay : string) : bool :=
  if str_prefix needle hay then true
  else match hay with
       | EmptyString => false
       | String _ hay' => str_contains needle hay'
       end.

(* ===================================================================== *)
(** * Python built-ins used by the engine *)
(* ===================================================================== *)

(** The conversions and formatters of the Python runtime. [None] from a
    parser stands for the [ValueError] that [float(s)] or [int(s)] raises.
    [py_float] gives the number that the text writes; the texts of the
    infinities and of [nan], which [float] also accepts, have no value in
    [Q]. *)
Class PyBuiltins := {
  py_float : string → option Q;      (* float(s) *)
  py_int : string → option Z;        (* int(s) *)
  py_repr : string → string;         (* repr(s) *)
  py_str_float : Q → string;         (* str(x), x a float *)
  fmt_f : nat → Q → string;          (* format(x, ".<n>f") *)
  fmt_pct : nat → Q → string;        (* format(x, ".<n>%") *)
}.

(** A number that is a Python [int] or a Python [float]. A finite float
    is held as the rational it is written as, [PyFloat q], and is the
    binary64 value nearest to [q]; the other floats are the infinities,
    [nan] and the negative zero. *)
Inductive pynum :=
| PyInt (z : Z)
| PyFloat (q : Q)
| PyInf (negative : bool)
| PyNan
| PyNegZero.

(** [str(n)] *)
Definition str_num {py : PyBuiltins} (n : pynum) : string :=
  match n with
  | PyInt z => pretty z
  | PyFloat q => py_str_float q
  | PyInf negative => if negative then "-inf" else "inf"
  | PyNan => "nan"
  | PyNegZero => "-0.0"
  end.

(** The float that an operation on a float and [n] computes with; the
    conversion of an [int] too large for a float raises. *)
Definition num_float (n : pynum) : res float64 :=
  match n with
  | PyInt z =>
      let x := f64.of_Z z in
      if f64.is_infinite x
      then Raise (OverflowError "int too large to convert to float")
      else Return x
  | PyFloat q => Return (f64.of_Q q)
  | PyInf negative => Return (S754_infinity negative)
  | PyNan => Return S754_nan
  | PyNegZero => Return (S754_zero true)
  end.

(** [a / b] on numbers: the true division of two ints, else the division
    of floats, which converts both operands and raises on a zero divisor. *)
Definition num_truediv (a b : pynum) : res float64 :=
  match a, b with
  | PyInt x, PyInt y => py_truediv_float x y
  | _, _ =>
      x ← num_float a;
      y ← num_float b;
      if f64.is_zero y then Raise (ZeroDivisionError "float division by zero")
      else Return (f64.div x y)
  end.

(** [format(x, ".<n>f")] on a float. *)
Definition fmt_f64 {py : PyBuiltins} (digits : nat) (x : float64) : string :=
  match x with
  | S754_nan => "nan"
  | S754_infinity s => if s then "-inf" else "inf"
  | S754_zero true => "-" +:+ fmt_f digits 0
  | _ => fmt_f digits (f64.to_Q x)
  end.

(** [s.lower()], [s.title()], [s.strip()] and [s.split(sep)] on ASCII text. *)
Definition is_upper (a : Ascii.ascii) : bool :=
  let n := Ascii.nat_of_ascii a in (65 <=? n)%nat && (n <=? 90)%nat.
Definition is_lower (a : Ascii.ascii) : bool :=
  let n := Ascii.nat_of_ascii a in (97 <=? n)%nat && (n <=? 122)%nat.
Definition ascii_lower (a : Ascii.ascii) : Ascii.ascii :=
  if is_upper a then Ascii.ascii_of_nat (Ascii.nat_of_ascii a + 32) else a.
Definition ascii_upper (a : Ascii.ascii) : Ascii.ascii :=
  if is_lower a then Ascii.ascii_of_nat (Ascii.nat_of_ascii a - 32) else a.

Fixpoint py_lower (s : string) : string :=
  match s with
  | EmptyString => EmptyString
  | String a s' => String (ascii_lower a) (py_lower s')
  end.

(** [title]: a letter that follows a non-letter is upper-cased, every other
    letter is lower-cased. *)
Fixpoint title_from (after_letter : bool) (s : string) : string :=
  match s with
  | EmptyString => EmptyString
  | String a s' =>
      let letter := is_upper a || is_lower a in
      String (if after_letter then ascii_lower a else ascii_upper a)
             (title_from letter s')
  end.
Definition py_title (s : string) : string := title_from false s.

Definition is_space (a : Ascii.ascii) : bool :=
  let n := Ascii.nat_of_ascii a in
  (n =? 32)%nat || ((9 <=? n)%nat && (n <=? 13)%nat)
  || ((28 <=? n)%nat && (n <=? 31)%nat).

Fixpoint py_lstrip (s : string) : string :=
  match s with
  | EmptyString => EmptyString
  | String a s' => if is_space a then py_lstrip s' else s
  end.

Fixpoint py_rstrip (s : string) : string :=
  match s with
  | EmptyString => EmptyString
  | String a s' =>
      match py_rstrip s' with
      | EmptyString => if is_space a then EmptyString else String a EmptyString
      | r => String a r
      end
  end.

Definition py_strip (s : string) : string := py_rstrip (py_lstrip s).

Fixpoint py_split (sep : Ascii.ascii) (s : string) : list string :=
  match s with
  | EmptyString => [EmptyString]
  | String a s' =>
      if Ascii.eqb a sep then EmptyString :: py_split sep s'
      else match py_split sep s' with
           | h :: t => String a h :: t
           | [] => [String a EmptyString]
           end
  end.

(* ===================================================================== *)
(** * NumPy: scalars, slices, arrays *)
(* ===================================================================== *)

Definition Qlt_bool (x y : Q) : bool := negb (Qle_bool y x).

(** [a / b] where [a] is a NumPy integer: no exception, a division by
    zero yields [nan] or an infinity. *)
Definition np_divide (a b : Z) : npfloat :=
  if (b =? 0)%Z then
    (if (a =? 0)%Z then NNan else if (0 <? a)%Z then NPInf else NNInf)
  else NFin (inject_Z a / inject_Z b).

(** [x > y] and [x >= y] for a NumPy scalar [x] and a finite [y]; every
    comparison with [nan] is false. *)
Definition np_gt (x : npfloat) (y : Q) : bool :=
  match x with
  | NFin q => Qlt_bool y q
  | NPInf => true
  | NNInf | NNan => false
  end.

Definition np_ge (x : npfloat) (y : Q) : bool :=
  match x with
  | NFin q => Qle_bool y q
  | NPInf => true
  | NNInf | NNan => false
  end.

(** [x < y], [min(a, b)] and [max(a, b)] on floats that may be non-finite:
    [min] and [max] keep their first argument unless the second is strictly
    smaller (resp. larger). *)
Definition float_lt (x y : npfloat) : bool :=
  match x, y with
  | NNan, _ | _, NNan => false
  | NFin a, NFin b => Qlt_bool a b
  | NNInf, NNInf | NPInf, _ | NFin _, NNInf => false
  | NNInf, _ | NFin _, NPInf => true
  end.
Definition float_min (a b : npfloat) : npfloat := if float_lt b a then b else a.
Definition float_max (a b : npfloat) : npfloat := if float_lt a b then b else a.

(** [x * k] for a positive finite [k]. *)
Definition np_scale (x : npfloat) (k : Q) : npfloat :=
  match x with
  | NFin q => NFin (q * k)
  | other => other
  end.

(** [format(x, ".<n>f")] on a NumPy scalar. *)
Definition fmt_np {py : PyBuiltins} (digits : nat) (x : npfloat) : string :=
  match x with
  | NFin q => fmt_f digits q
  | NPInf => "inf"
  | NNInf => "-inf"
  | NNan => "nan"
  end.

(** An index of a slice, resolved against a length [n]: a negative index
    counts from the end, and the result is clipped to [0, n]. *)
Definition slice_index (n i : Z) : Z :=
  let j := if (i <? 0)%Z then (i + n)%Z else i in
  if (j <? 0)%Z then 0%Z else if (n <? j)%Z then n else j.

(** [l[start:stop]]; [None] is an omitted bound. *)
Definition py_slice {A} (start stop : option Z) (l : list A) : list A :=
  let n := len l in
  let lo := match start with Some i => slice_index n i | None => 0%Z end in
  let hi := match stop with Some i => slice_index n i | None => n end in
  take (Z.to_nat (hi - lo)) (drop (Z.to_nat lo) l).

(** [np.sum(xs < t)] and [np.sum(xs > t)] over all elements. *)
Definition count_lt (t : Z) (rows : list (list Z)) : Z :=
  len (filter (λ v, (v < t)%Z) (concat rows)).
Definition count_gt (t : Z) (rows : list (list Z)) : Z :=
  len (filter (λ v, (t < v)%Z) (concat rows)).

(** A [uint8] NumPy array of rank 1, 2 or 3. The width (and the channel
    count) are kept beside the rows so that the shape is known when there
    are no rows. *)
Inductive ndarray :=
| Arr1 (xs : list Z)
| Arr2 (w : nat) (rows : list (list Z))
| Arr3 (w c : nat) (rows : list (list (list Z))).

(** [a.shape] *)
Definition shape (a : ndarray) : list nat :=
  match a with
  | Arr1 xs => [length xs]
  | Arr2 w rows => [length rows; w]
  | Arr3 w c rows => [length rows; w; c]
  end.

(** [str(a.shape)] *)
Definition str_shape (s : list nat) : string :=
  match s with
  | [n] => "(" +:+ pretty n +:+ ",)"
  | _ => "(" +:+ String.concat ", " (map pretty s) +:+ ")"
  end.

(** [height, width = a.shape[:2]] *)
Definition shape2 (a : ndarray) : res (Z * Z) :=
  match shape a with
  | h :: w :: _ => Return (Z.of_nat h, Z.of_nat w)
  | _ => Raise (ValueError "not enough values to unpack (expected 2, got 1)")
  end.

(** All the values of an array, in C order. *)
Definition flat (a : ndarray) : list Z :=
  match a with
  | Arr1 xs => xs
  | Arr2 _ rows => concat rows
  | Arr3 _ _ rows => concat (concat rows)
  end.

(** A BGR (or Lab, HSV, RGB) pixel, and a colour with real coordinates. *)
Definition pixel : Type := Z * Z * Z.
Definition color : Type := Q * Q * Q.

Fixpoint chunks3 (xs : list Z) : option (list pixel) :=
  match xs with
  | [] => Some []
  | b :: g :: r :: rest => cons (b, g, r) <$> chunks3 rest
  | _ => None
  end.

(** [a.reshape(-1, 3)] *)
Definition reshape_m1_3 (a : ndarray) : res (list pixel) :=
  match chunks3 (flat a) with
  | Some pixels => Return pixels
  | None =>
      Raise (ValueError ("cannot reshape array of size " +:+ pretty (length (flat a))
                         +:+ " into shape (3)"))
  end.

(** [a[r0:r1, c0:c1]] *)
Definition slice2 (a : ndarray) (r0 r1 c0 c1 : option Z) : res ndarray :=
  match a with
  | Arr1 _ =>
      Raise (IndexError "too many indices for array: array is 1-dimensional, but 2 were indexed")
  | Arr2 w rows =>
      Return (Arr2 (length (py_slice c0 c1 (replicate w ())))
                (map (py_slice c0 c1) (py_slice r0 r1 rows)))
  | Arr3 w c rows =>
      Return (Arr3 (length (py_slice c0 c1 (replicate w ()))) c
                (map (py_slice c0 c1) (py_slice r0 r1 rows)))
  end.

(** [np.mean(pixels, axis=0)] on a non-empty list. *)
Definition np_mean (pixels : list pixel) : color :=
  let n := inject_Z (len pixels) in
  (inject_Z (py_sum (map (λ p : pixel, p.1.1) pixels)) / n,
   inject_Z (py_sum (map (λ p : pixel, p.1.2) pixels)) / n,
   inject_Z (py_sum (map (λ p : pixel, p.2) pixels)) / n)%Q.

(** [c.astype(int)]: truncation towards zero. *)
Definition astype_int (c : color) : pixel :=
  (py_int_of_float c.1.1, py_int_of_float c.1.2, py_int_of_float c.2).

(** [np.all(np.abs(p - c) <= tolerance)] for one pixel and a real colour. *)
Definition within_delta (tolerance : Z) (c : color) (p : pixel) : bool :=
  Qle_bool (Qabs (inject_Z p.1.1 - c.1.1)) (inject_Z tolerance)
  && Qle_bool (Qabs (inject_Z p.1.2 - c.1.2)) (inject_Z tolerance)
  && Qle_bool (Qabs (inject_Z p.2 - c.2)) (inject_Z tolerance).

(** The same for an integer colour. *)
Definition within_delta_int (tolerance : Z) (c p : pixel) : bool :=
  (Z.abs (p.1.1 - c.1.1) <=? tolerance)%Z
  && (Z.abs (p.1.2 - c.1.2) <=? tolerance)%Z
  && (Z.abs (p.2 - c.2) <=? tolerance)%Z.

(** [np.isfinite(p).all()]: every value of a [uint8] pixel is finite, and so
    is every coordinate of a colour given by rationals. *)
Definition isfinite_pixel (p : pixel) : bool := true.
Definition isfinite_color (c : color) : bool := true.

(** What a caller can pass as [image]: [None], an object without a
    [shape] attribute (a [str], say), an object whose [shape] attribute
    raises when read (a property), or an array. *)
Inductive image :=
| ImgNone
| ImgNoShape
| ImgShapeRaises (e : exn)
| ImgArray (a : ndarray).

(** [hasattr(image, "shape")]: Python 3 reads the attribute and turns an
    [AttributeError] into [False]; any other exception propagates. *)
Definition hasattr_shape (img : image) : res bool :=
  match img with
  | ImgNone | ImgNoShape => Return false
  | ImgShapeRaises e =>
      if String.eqb (exn_type e) "AttributeError" then Return false else Raise e
  | ImgArray _ => Return true
  end.

(** [image.shape] *)
Definition get_shape (img : image) : res (list nat) :=
  match img with
  | ImgNone => Raise (AttributeError "'NoneType' object has no attribute 'shape'")
  | ImgNoShape => Raise (AttributeError "object has no attribute 'shape'")
  | ImgShapeRaises e => Raise e
  | ImgArray a => Return (shape a)
  end.

(** The image as an array, where the code uses it as one. *)
Definition as_array (img : image) : res ndarray :=
  match img with
  | ImgArray a => Return a
  | _ => s ← get_shape img; Raise (AttributeError "not an array")
  end.

(* ===================================================================== *)
(** * OpenCV, scikit-learn, NumPy's random generator *)
(* ===================================================================== *)

(** [cv2.cvtColor] with the conversion codes the engine uses; a call may
    raise [cv2.error]. [cvtColor_pixels code] converts an [(n, 1, 3)] array
    of pixels, with [code] one of ["BGR2LAB"], ["BGR2HSV"], ["BGR2RGB"],
    ["LAB2BGR"]. *)
Class OpenCV := {
  cvtColor_BGR2GRAY : ndarray → res ndarray;
  cvtColor_GRAY2BGR : ndarray → res ndarray;
  cvtColor_BGRA2BGR : ndarray → res ndarray;
  cvtColor_BGR2LAB : ndarray → res ndarray;
  cvtColor_pixels : string → list pixel → res (list pixel);
}.

Definition is_cv2_error (e : exn) : bool := String.eqb (exn_type e) "cv2.error".

(** [KMeans(n_clusters, random_state=42, n_init=10).fit(pixels)]: the
    fitted [cluster_centers_] and [labels_]. *)
Class SkLearn := {
  kmeans_fit : nat → list pixel → res (list color * list nat);
}.

(** [np.random.choice(n, size, replace=False)]: the generator is process
    state, so the indices drawn are not a function of the program's
    inputs; the interface stands for one run. *)
Class NumpyRandom := {
  random_choice : Z → Z → res (list nat);
}.

(* ===================================================================== *)
(** * core/models.py *)
(* ===================================================================== *)

Module DetectionResult.
Record t := mk {
  detector_name : string;
  is_problematic : bool;
  confidence : Q;
  details : dict;
  issues : list string;
}.
End DetectionResult.
Abbreviation DetectionResult := DetectionResult.t.

Module ImageAnalysis.
Record t := mk {
  file_path : string;
  width : Z;
  height : Z;
  detection_results : list DetectionResult;
  is_problematic : bool;
}.

(** [add_detection_result]: append, and latch the flag. *)
Definition add_detection_result (self : t) (detection_result : DetectionResult) : t :=
  {| file_path := file_path self;
     width := width self;
     height := height self;
     detection_results := detection_results self ++ [detection_result];
     is_problematic :=
       if DetectionResult.is_problematic detection_result then true
       else is_problematic self |}.
End ImageAnalysis.
Abbreviation ImageAnalysis := ImageAnalysis.t.

Record BatchSummary := {
  total_images : Z;
  problematic_images : Z;
  passed_images : Z;
}.

Record BatchReport := {
  summary : BatchSummary;
  analyses : list ImageAnalysis;
}.

(* ===================================================================== *)
(** * core/config.py *)
(* ===================================================================== *)

Module Config.

Inductive DetectionMode := STRICT | DEFAULT | LENIENT | PHOTO | DOCUMENT | CUSTOM.

Record BorderFillConfig := {
  top_region_percentage : Q;
  bottom_region_percentage : Q;
  black_threshold : Z;
  white_threshold : Z;
  black_fill_threshold : Q;
  white_fill_threshold : Q;
  check_top : bool;
  check_bottom : bool;
  uniformity_required : Q;
}.

Record UniformColorConfig := {
  color_delta_threshold : Z;
  color_space : string;
  uniform_coverage_threshold : Q;
  sample_size : Z;
  ignore_edges : bool;
  edge_ignore_percentage : Q;
}.

Record BackgroundDetectionConfig := {
  detection_method : string;
  corner_sample_percentage : Q;
  edge_sample_percentage : Q;
  background_coverage_threshold : Q;
  background_color_tolerance : Z;
  histogram_bins : Z;
  dominant_color_threshold : Q;
}.

Record RatioConfig := {
  enabled : bool;
  target_ratios : list (pynum * pynum);
  tolerance : Q;
  check_minimum_dimensions : bool;
  minimum_width : Z;
  minimum_height : Z;
  check_maximum_dimensions : bool;
  maximum_width : Z;
  maximum_height : Z;
}.

Record DetectionConfig := {
  border_fill : BorderFillConfig;
  uniform_color : UniformColorConfig;
  background : BackgroundDetectionConfig;
  ratio : RatioConfig;
  enabled_detectors : list string;
}.

(** The dataclass defaults. *)
Definition BorderFillConfig_default : BorderFillConfig :=
  {| top_region_percentage := 0.1; bottom_region_percentage := 0.1;
     black_threshold := 1; white_threshold := 255;
     black_fill_threshold := 0.05; white_fill_threshold := 0.05;
     check_top := false; check_bottom := true;
     uniformity_required := 0.90 |}.

Definition UniformColorConfig_default : UniformColorConfig :=
  {| color_delta_threshold := 15; color_space := "LAB";
     uniform_coverage_threshold := 0.85; sample_size := 1000;
     ignore_edges := true; edge_ignore_percentage := 0.02 |}.

Definition BackgroundDetectionConfig_default : BackgroundDetectionConfig :=
  {| detection_method := "edge_based";
     corner_sample_percentage := 0.08; edge_sample_percentage := 0.05;
     background_coverage_threshold := 0.65; background_color_tolerance := 25;
     histogram_bins := 64; dominant_color_threshold := 0.60 |}.

(** A list of pairs of [int] literals. *)
Definition ints (l : list (Z * Z)) : list (pynum * pynum) :=
  map (λ p, (PyInt p.1, PyInt p.2)) l.

Definition default_target_ratios : list (pynum * pynum) :=
  ints [(16, 9); (4, 3); (1, 1); (3, 4); (9, 16)]%Z.

Definition RatioConfig_default : RatioConfig :=
  {| enabled := true; target_ratios := default_target_ratios;
     tolerance := 0.1;
     check_minimum_dimensions := true; minimum_width := 100; minimum_height := 100;
     check_maximum_dimensions := false; maximum_width := 10000; maximum_height := 10000 |}.

Definition default_enabled_detectors : list string :=
  ["border_fill"; "uniform_color"; "background"; "ratio"].

Definition DetectionConfig_default : DetectionConfig :=
  {| border_fill := BorderFillConfig_default;
     uniform_color := UniformColorConfig_default;
     background := BackgroundDetectionConfig_default;
     ratio := RatioConfig_default;
     enabled_detectors := default_enabled_detectors |}.

(** Keyword overrides of the dataclass defaults, as the mode tables write them. *)
Definition border_with (black_fill white_fill uniformity : Q) (c : BorderFillConfig) :=
  {| top_region_percentage := top_region_percentage c;
     bottom_region_percentage := bottom_region_percentage c;
     black_threshold := black_threshold c; white_threshold := white_threshold c;
     black_fill_threshold := black_fill; white_fill_threshold := white_fill;
     check_top := check_top c; check_bottom := check_bottom c;
     uniformity_required := uniformity |}.

Definition border_regions (top bottom : Q) (c : BorderFillConfig) :=
  {| top_region_percentage := top; bottom_region_percentage := bottom;
     black_threshold := black_threshold c; white_threshold := white_threshold c;
     black_fill_threshold := black_fill_threshold c;
     white_fill_threshold := white_fill_threshold c;
     check_top := check_top c; check_bottom := check_bottom c;
     uniformity_required := uniformity_required c |}.

Definition uniform_with (space : string) (delta : Z) (coverage : Q) (edges : bool) :=
  {| color_delta_threshold := delta; color_space := space;
     uniform_coverage_threshold := coverage;
     sample_size := sample_size UniformColorConfig_default;
     ignore_edges := edges;
     edge_ignore_percentage := edge_ignore_percentage UniformColorConfig_default |}.

Definition background_with (method : string) (coverage : Q) (tol : Z) :=
  {| detection_method := method;
     corner_sample_percentage := corner_sample_percentage BackgroundDetectionConfig_default;
     edge_sample_percentage := edge_sample_percentage BackgroundDetectionConfig_default;
     background_coverage_threshold := coverage; background_color_tolerance := tol;
     histogram_bins := histogram_bins BackgroundDetectionConfig_default;
     dominant_color_threshold := dominant_color_threshold BackgroundDetectionConfig_default |}.

Definition ratio_with (tol : Q) (targets : list (pynum * pynum)) (min_w min_h : Z) :=
  {| enabled := true; target_ratios := targets; tolerance := tol;
     check_minimum_dimensions := true; minimum_width := min_w; minimum_height := min_h;
     check_maximum_dimensions := false;
     maximum_width := maximum_width RatioConfig_default;
     maximum_height := maximum_height RatioConfig_default |}.

Definition detection_config (b : BorderFillConfig) (u : UniformColorConfig)
    (g : BackgroundDetectionConfig) (r : RatioConfig) : DetectionConfig :=
  {| border_fill := b; uniform_color := u; background := g; ratio := r;
     enabled_detectors := default_enabled_detectors |}.

Definition _create_strict_config : DetectionConfig :=
  detection_config
    (border_with 0.03 0.03 0.95 BorderFillConfig_default)
    (uniform_with "LAB" 10 0.80 true)
    (background_with "edge_based" 0.65 15)
    (ratio_with 0.05 (ints [(16, 9); (4, 3); (1, 1)]%Z) 200 200).

Definition _create_lenient_config : DetectionConfig :=
  detection_config
    (border_with 0.15 0.15 0.80 BorderFillConfig_default)
    (uniform_with "LAB" 30 0.95 true)
    (background_with "edge_based" 0.85 35)
    (ratio_with 0.2 (ints [(16, 9); (4, 3); (1, 1); (3, 4); (9, 16); (21, 9)]%Z) 50 50).

Definition _create_photo_config : DetectionConfig :=
  detection_config
    (border_with 0.08 0.12 0.85 (border_regions 0.05 0.05 BorderFillConfig_default))
    (uniform_with "LAB" 20 0.90 true)
    (background_with "edge_based" 0.75 25)
    (ratio_with 0.1 (ints [(16, 9); (4, 3); (1, 1); (3, 4); (9, 16)]%Z) 300 300).

Definition _create_document_config : DetectionConfig :=
  detection_config
    (border_with 0.02 0.30 0.95 BorderFillConfig_default)
    (uniform_with "RGB" 25 0.95 false)
    (background_with "histogram" 0.80 30)
    (ratio_with 0.05
       [(PyInt 4, PyInt 3); (PyInt 1, PyInt 1); (PyInt 3, PyInt 4);
        (PyFloat 1.414, PyInt 1)] 500 500).

Section Environment.
Context {py : PyBuiltins}.

(** The process environment, [os.environ], as a snapshot. *)
Variable env : gmap string string.

Definition getenv (key : string) : option string := env !! key.

(** [_get_environment_value(key, default, converter)] with [float] and
    with [int] as the converter: the converter is applied to the variable's
    text, or to the text of the default when the variable is unset. *)
Definition _get_environment_value {A} (key default : string)
    (converter : string → res A) : res A :=
  match getenv key with
  | Some value => converter value
  | None => converter default
  end.

Definition float_converter (s : string) : res Q :=
  match py_float s with
  | Some x => Return x
  | None => Raise (ValueError ("could not convert string to float: " +:+ py_repr s))
  end.

Definition int_converter (s : string) : res Z :=
  match py_int s with
  | Some x => Return x
  | None =>
      Raise (ValueError ("invalid literal for int() with base 10: " +:+ py_repr s))
  end.

Definition _get_environment_float (key : string) (default : Q) : res Q :=
  _get_environment_value key (py_str_float default) float_converter.

Definition _get_environment_int (key : string) (default : Z) : res Z :=
  _get_environment_value key (pretty default) int_converter.

Definition _get_environment_bool (key : string) (default : bool) : bool :=
  match getenv key with
  | None => default
  | Some value => bool_decide (py_lower value ∈ ["true"; "1"; "yes"; "on"])
  end.

Definition _get_environment_string (key default : string) : string :=
  match getenv key with
  | Some value => value
  | None => default
  end.

(** One entry of the ratio list: [width, height = map(float, entry.strip().split(":"))];
    every failure (a wrong number of parts, a part [float] rejects) is a
    [ValueError], which the loop catches to skip the entry. *)
Definition parse_ratio_entry (ratio_str : string) : option (pynum * pynum) :=
  match py_split ":"%char (py_strip ratio_str) with
  | [w; h] =>
      match py_float w, py_float h with
      | Some width, Some height => Some (PyFloat width, PyFloat height)
      | _, _ => None
      end
  | _ => None
  end.

Definition _get_environment_ratios (key : string)
    (default : list (pynum * pynum)) : list (pynum * pynum) :=
  match getenv key with
  | None => default
  | Some value =>
      let ratios :=
        fold_left (λ ratios ratio_str,
                     match parse_ratio_entry ratio_str with
                     | Some r => ratios ++ [r]
                     | None => ratios
                     end)
                  (py_split ","%char value) [] in
      match ratios with
      | [] => default
      | _ => ratios
      end
  end.

Definition _get_custom_enabled_detectors : list string :=
  let detector_enable_flags :=
    [("border_fill", "PXG_DETECTOR_BORDER_FILL_ENABLED");
     ("uniform_color", "PXG_DETECTOR_UNIFORM_COLOR_ENABLED");
     ("background", "PXG_DETECTOR_BACKGROUND_ENABLED");
     ("ratio", "PXG_DETECTOR_RATIO_ENABLED")] in
  fold_left (λ enabled_detectors '(detector_name, env_key),
               if _get_environment_bool env_key true
               then enabled_detectors ++ [detector_name]
               else enabled_detectors)
            detector_enable_flags [].

Definition _create_border_fill_config_from_env : res BorderFillConfig :=
  top ← _get_environment_float "PXG_BORDER_FILL_TOP_REGION_PERCENTAGE" 0.1;
  bottom ← _get_environment_float "PXG_BORDER_FILL_BOTTOM_REGION_PERCENTAGE" 0.1;
  black ← _get_environment_int "PXG_BORDER_FILL_BLACK_THRESHOLD" 30;
  white ← _get_environment_int "PXG_BORDER_FILL_WHITE_THRESHOLD" 225;
  black_fill ← _get_environment_float "PXG_BORDER_FILL_BLACK_FILL_THRESHOLD" 0.05;
  white_fill ← _get_environment_float "PXG_BORDER_FILL_WHITE_FILL_THRESHOLD" 0.05;
  let top_on := _get_environment_bool "PXG_BORDER_FILL_CHECK_TOP" false in
  let bottom_on := _get_environment_bool "PXG_BORDER_FILL_CHECK_BOTTOM" true in
  uniformity ← _get_environment_float "PXG_BORDER_FILL_UNIFORMITY_REQUIRED" 0.90;
  Return {| top_region_percentage := top; bottom_region_percentage := bottom;
            black_threshold := black; white_threshold := white;
            black_fill_threshold := black_fill; white_fill_threshold := white_fill;
            check_top := top_on; check_bottom := bottom_on;
            uniformity_required := uniformity |}.

Definition _create_uniform_color_config_from_env : res UniformColorConfig :=
  delta ← _get_environment_int "PXG_UNIFORM_COLOR_DELTA_THRESHOLD" 15;
  let space := _get_environment_string "PXG_UNIFORM_COLOR_SPACE" "LAB" in
  coverage ← _get_environment_float "PXG_UNIFORM_COLOR_COVERAGE_THRESHOLD" 0.85;
  size ← _get_environment_int "PXG_UNIFORM_COLOR_SAMPLE_SIZE" 1000;
  let edges := _get_environment_bool "PXG_UNIFORM_COLOR_IGNORE_EDGES" true in
  edge_pct ← _get_environment_float "PXG_UNIFORM_COLOR_EDGE_IGNORE_PERCENTAGE" 0.02;
  Return {| color_delta_threshold := delta; color_space := space;
            uniform_coverage_threshold := coverage; sample_size := size;
            ignore_edges := edges; edge_ignore_percentage := edge_pct |}.

Definition _create_background_config_from_env : res BackgroundDetectionConfig :=
  let method := _get_environment_string "PXG_BACKGROUND_DETECTION_METHOD" "edge_based" in
  corner ← _get_environment_float "PXG_BACKGROUND_CORNER_SAMPLE_PERCENTAGE" 0.08;
  edge ← _get_environment_float "PXG_BACKGROUND_EDGE_SAMPLE_PERCENTAGE" 0.05;
  coverage ← _get_environment_float "PXG_BACKGROUND_COVERAGE_THRESHOLD" 0.65;
  tol ← _get_environment_int "PXG_BACKGROUND_COLOR_TOLERANCE" 25;
  bins ← _get_environment_int "PXG_BACKGROUND_HISTOGRAM_BINS" 64;
  dominant ← _get_environment_float "PXG_BACKGROUND_DOMINANT_COLOR_THRESHOLD" 0.60;
  Return {| detection_method := method;
            corner_sample_percentage := corner; edge_sample_percentage := edge;
            background_coverage_threshold := coverage;
            background_color_tolerance := tol; histogram_bins := bins;
            dominant_color_threshold := dominant |}.

Definition _create_ratio_config_from_env : res RatioConfig :=
  let on := _get_environment_bool "PXG_RATIO_ENABLED" true in
  let targets := _get_environment_ratios "PXG_RATIO_TARGET_RATIOS" default_target_ratios in
  tol ← _get_environment_float "PXG_RATIO_TOLERANCE" 0.1;
  let check_min := _get_environment_bool "PXG_RATIO_CHECK_MINIMUM_DIMENSIONS" true in
  min_w ← _get_environment_int "PXG_RATIO_MINIMUM_WIDTH" 100;
  min_h ← _get_environment_int "PXG_RATIO_MINIMUM_HEIGHT" 100;
  let check_max := _get_environment_bool "PXG_RATIO_CHECK_MAXIMUM_DIMENSIONS" false in
  max_w ← _get_environment_int "PXG_RATIO_MAXIMUM_WIDTH" 10000;
  max_h ← _get_environment_int "PXG_RATIO_MAXIMUM_HEIGHT" 10000;
  Return {| enabled := on; target_ratios := targets; tolerance := tol;
            check_minimum_dimensions := check_min;
            minimum_width := min_w; minimum_height := min_h;
            check_maximum_dimensions := check_max;
            maximum_width := max_w; maximum_height := max_h |}.

Definition _create_custom_config : res DetectionConfig :=
  b ← _create_border_fill_config_from_env;
  u ← _create_uniform_color_config_from_env;
  g ← _create_background_config_from_env;
  r ← _create_ratio_config_from_env;
  Return {| border_fill := b; uniform_color := u; background := g; ratio := r;
            enabled_detectors := _get_custom_enabled_detectors |}.

(** [ConfigFactory.from_mode]: [DEFAULT] has no entry in the table of
    creators and falls to [DetectionConfig()]. *)
Definition from_mode (mode : DetectionMode) : res DetectionConfig :=
  match mode with
  | STRICT => Return _create_strict_config
  | LENIENT => Return _create_lenient_config
  | PHOTO => Return _create_photo_config
  | DOCUMENT => Return _create_document_config
  | CUSTOM => _create_custom_config
  | DEFAULT => Return DetectionConfig_default
  end.

End Environment.
End Config.

(* ===================================================================== *)
(** * utils/image_utils.py *)
(* ===================================================================== *)

Module image_utils.

Definition validate_image (img : image) : res bool :=
  match img with
  | ImgNone => Return false
  | _ =>
      has ← hasattr_shape img;
      if negb has then Return false
      else
        s ← get_shape img;
        if (length s <? 2)%nat then Return false else Return true
  end.

(** On a [uint8] array. *)
Definition ensure_uint8 (a : ndarray) : ndarray := a.

(** [ensure_uint8] on an [int64] vector: [np.clip(v, 0, 255).astype(np.uint8)]. *)
Definition clip_uint8 (v : Z) : Z := Z.min 255 (Z.max 0 v).
Definition ensure_uint8_int (p : pixel) : pixel :=
  (clip_uint8 p.1.1, clip_uint8 p.1.2, clip_uint8 p.2).

(** [calculate_pixel_coverage]: a NumPy count divided by [len(pixels)]. *)
Definition calculate_pixel_coverage (pixels : list pixel) (target_color : pixel)
    (color_tolerance : Z) : npfloat :=
  let matching_pixel_count :=
    py_sum (map (λ p, int_of_bool (within_delta_int color_tolerance target_color p))
                pixels) in
  np_divide matching_pixel_count (len pixels).

Definition extract_edge_samples (a : ndarray) (height width : Z)
    (sample_percentage : Q) : res (list pixel) :=
  let edge_sample_height := py_int_of_float (inject_Z height * sample_percentage) in
  let edge_sample_width := py_int_of_float (inject_Z width * sample_percentage) in
  top_edge_pixels ←
    slice2 a None (Some edge_sample_height) None None ≫= reshape_m1_3;
  bottom_edge_pixels ←
    slice2 a (Some (- edge_sample_height)%Z) None None None ≫= reshape_m1_3;
  left_edge_pixels ←
    slice2 a None None None (Some edge_sample_width) ≫= reshape_m1_3;
  right_edge_pixels ←
    slice2 a None None (Some (- edge_sample_width)%Z) None ≫= reshape_m1_3;
  Return (top_edge_pixels ++ bottom_edge_pixels ++ left_edge_pixels
          ++ right_edge_pixels).

Definition extract_corner_samples (a : ndarray) (height width : Z)
    (sample_percentage : Q) : res (list pixel) :=
  let corner_region_height := py_int_of_float (inject_Z height * sample_percentage) in
  let corner_region_width := py_int_of_float (inject_Z width * sample_percentage) in
  top_left_pixels ←
    slice2 a None (Some corner_region_height) None (Some corner_region_width)
    ≫= reshape_m1_3;
  top_right_pixels ←
    slice2 a None (Some corner_region_height) (Some (- corner_region_width)%Z) None
    ≫= reshape_m1_3;
  bottom_left_pixels ←
    slice2 a (Some (- corner_region_height)%Z) None None (Some corner_region_width)
    ≫= reshape_m1_3;
  bottom_right_pixels ←
    slice2 a (Some (- corner_region_height)%Z) None (Some (- corner_region_width)%Z) None
    ≫= reshape_m1_3;
  Return (top_left_pixels ++ top_right_pixels ++ bottom_left_pixels
          ++ bottom_right_pixels).

Section WithOpenCV.
Context {cv : OpenCV}.

Definition convert_to_grayscale (a : ndarray) : res ndarray :=
  let normalized_image := ensure_uint8 a in
  if (length (shape normalized_image) =? 3)%nat
  then cvtColor_BGR2GRAY normalized_image
  else Return normalized_image.

(** The [None] test of the source precedes; the argument is an array. *)
Definition ensure_3channel_bgr (a : ndarray) : res ndarray :=
  let normalized_image := ensure_uint8 a in
  match shape normalized_image with
  | [_; _] => cvtColor_GRAY2BGR normalized_image
  | [_; _; c] =>
      if (c =? 3)%nat then Return normalized_image
      else if (c =? 4)%nat then cvtColor_BGRA2BGR normalized_image
      else Raise (ValueError ("Unsupported image shape: "
                              +:+ str_shape (shape normalized_image)))
  | _ => Raise (ValueError ("Unsupported image shape: "
                            +:+ str_shape (shape normalized_image)))
  end.

(** The pixels are triples, so the test [shape[-1] != 3] never fires. The
    [ValueError] for an unknown colour space is raised inside the [try]
    and is not a [cv2.error]: it propagates. *)
Definition convert_color_space (pixels : list pixel) (target_color_space : string)
    : res (list pixel) :=
  match pixels with
  | [] => Return pixels
  | _ =>
      let normalized_pixels := pixels in
      try_except
        (if String.eqb target_color_space "LAB"
         then cvtColor_pixels "BGR2LAB" normalized_pixels
         else if String.eqb target_color_space "HSV"
         then cvtColor_pixels "BGR2HSV" normalized_pixels
         else if String.eqb target_color_space "RGB"
         then cvtColor_pixels "BGR2RGB" normalized_pixels
         else Raise (ValueError ("Unsupported color space: " +:+ target_color_space)))
        (λ e, if is_cv2_error e then Return normalized_pixels else Raise e)
  end.

End WithOpenCV.
End image_utils.

(* ===================================================================== *)
(** * detectors/base.py *)
(* ===================================================================== *)

Module BaseDetector.

(** [max(0.0, min(1.0, confidence))], which is finite: [min(1.0, x)] keeps
    [1.0] unless [x < 1.0], so [nan] and [+inf] give [1.0]; [max(0.0, y)]
    keeps [0.0] unless [y > 0.0], so [-inf] gives [0.0]
    ([clamp01_is_max_of_min] below). *)
Definition clamp01 (confidence : npfloat) : Q :=
  match confidence with
  | NFin q => py_max 0 (py_min 1 q)
  | NPInf | NNan => 1
  | NNInf => 0
  end.

(** [details or {}] and [issues or []] are the arguments themselves. *)
Definition _create_result (name : string) (is_problematic : bool)
    (confidence : npfloat) (details : dict) (issues : list string) : DetectionResult :=
  DetectionResult.mk name is_problematic (clamp01 confidence) details issues.

Definition _create_error_result (name : string) (error : exn)
    (error_type : string) : DetectionResult :=
  _create_result name true (NFin 1)
    (<["error_type" := VStr error_type]>
       (<["error_message" := VStr (str_exn error)]> ∅))
    [name +:+ " detection failed: " +:+ str_exn error].

Definition _validate_image (img : image) : res bool := image_utils.validate_image img.

Definition _ensure_3channel_bgr {cv : OpenCV} (a : ndarray) : res ndarray :=
  image_utils.ensure_3channel_bgr a.

End BaseDetector.

(** A detector object as the composite sees it: a name and [detect]. *)
Record Detector := {
  name : string;
  detect : image → res DetectionResult;
}.

(* ===================================================================== *)
(** * detectors/border_fill.py *)
(* ===================================================================== *)

Module BorderFillDetector.
Import Config BaseDetector.

Section Detector.
Context {py : PyBuiltins} {cv : OpenCV}.
Variable config : BorderFillConfig.

Definition name : string := "border_fill".

(** The result of [_analyze_border_region], a dict with four keys. *)
Record region_analysis := {
  region : string;
  black_percentage : npfloat;
  region_is_problematic : bool;
  region_issues : list string;
}.

Definition region_dict (r : region_analysis) : dict :=
  <["region" := VStr (region r)]>
    (<["black_percentage" := VFloat (black_percentage r)]>
       (<["is_problematic" := VBool (region_is_problematic r)]>
          (<["issues" := VList (map VStr (region_issues r))]> ∅))).

(** A 2-D array, as [height, width = grayscale_image.shape] requires. *)
Definition unpack_gray (a : ndarray) : res (Z * Z * list (list Z)) :=
  match a with
  | Arr2 w rows => Return (len rows, Z.of_nat w, rows)
  | Arr1 _ => Raise (ValueError "not enough values to unpack (expected 2, got 1)")
  | Arr3 _ _ _ => Raise (ValueError "too many values to unpack (expected 2)")
  end.

Definition _extract_region_pixels (grayscale_image : list (list Z))
    (region_name : string) (height : Z) : list (list Z) :=
  if String.eqb region_name "top" then
    let region_height := py_int_of_float (inject_Z height * top_region_percentage config) in
    py_slice None (Some region_height) grayscale_image
  else
    let region_height := py_int_of_float (inject_Z height * bottom_region_percentage config) in
    py_slice (Some (- region_height)%Z) None grayscale_image.

Definition _calculate_black_pixel_percentage (region_pixels : list (list Z))
    (total_pixel_count : Z) : npfloat :=
  let black_pixel_count := count_lt (black_threshold config) region_pixels in
  np_divide black_pixel_count total_pixel_count.

(** Defined by the class, called from nowhere. *)
Definition _calculate_white_pixel_percentage (region_pixels : list (list Z))
    (total_pixel_count : Z) : npfloat :=
  let white_pixel_count := count_gt (white_threshold config) region_pixels in
  np_divide white_pixel_count total_pixel_count.

Definition _has_uniform_color_fill (region_pixels : list (list Z)) (size : Z)
    (color_type : string) : bool :=
  let threshold :=
    if String.eqb color_type "black" then black_threshold config
    else white_threshold config in
  let matching_pixel_count :=
    if String.eqb color_type "black" then count_lt threshold region_pixels
    else count_gt threshold region_pixels in
  let uniformity_percentage := np_divide matching_pixel_count size in
  np_ge uniformity_percentage (uniformity_required config).

Definition _analyze_border_region (grayscale_image : list (list Z))
    (region_name : string) (height width : Z) : region_analysis :=
  let region_pixels := _extract_region_pixels grayscale_image region_name height in
  let total_pixel_count := (len region_pixels * width)%Z in
  let black_fill_percentage :=
    _calculate_black_pixel_percentage region_pixels total_pixel_count in
  let flagged :=
    np_gt black_fill_percentage (black_fill_threshold config)
    && _has_uniform_color_fill region_pixels total_pixel_count "black" in
  {| region := region_name;
     black_percentage := black_fill_percentage;
     region_is_problematic := flagged;
     region_issues :=
       if flagged
       then [py_title region_name +:+ " border has black fill: "
             +:+ fmt_np 1 (np_scale black_fill_percentage 100) +:+ "%"]
       else [] |}.

Definition _calculate_confidence_score (problematic_region_count : Z) : res Q :=
  let total_region_count :=
    (int_of_bool (check_top config) + int_of_bool (check_bottom config))%Z in
  if (0 <? total_region_count)%Z
  then py_truediv problematic_region_count total_region_count
  else Return 0%Q.

(** The state of [detect]'s body: issues, details, flagged regions. *)
Definition check_region (on : bool) (key region_name : string)
    (grayscale_image : list (list Z)) (height width : Z)
    (st : list string * dict * Z) : list string * dict * Z :=
  let '(detected_issues, analysis_details, problematic_region_count) := st in
  if on then
    let analysis := _analyze_border_region grayscale_image region_name height width in
    let analysis_details := <[key := VDict (region_dict analysis)]> analysis_details in
    if region_is_problematic analysis
    then (detected_issues ++ region_issues analysis, analysis_details,
          (problematic_region_count + 1)%Z)
    else (detected_issues, analysis_details, problematic_region_count)
  else st.

Definition detect_body (img : image) : res DetectionResult :=
  a ← as_array img;
  grayscale_image ← image_utils.convert_to_grayscale a;
  '(height, width, rows) ← unpack_gray grayscale_image;
  let st := ([], ∅, 0%Z) in
  let st := check_region (check_top config) "top_border" "top" rows height width st in
  let st := check_region (check_bottom config) "bottom_border" "bottom" rows height width st in
  let '(detected_issues, analysis_details, problematic_region_count) := st in
  let has_border_issues := (0 <? len detected_issues)%Z in
  detection_confidence ← _calculate_confidence_score problematic_region_count;
  Return (_create_result name has_border_issues (NFin detection_confidence)
            analysis_details detected_issues).

Definition detect (img : image) : res DetectionResult :=
  valid ← _validate_image img;
  if negb valid
  then Return (_create_error_result name (ValueError "Invalid image provided")
                 "invalid_image")
  else try_except (detect_body img)
         (λ e, Return (_create_error_result name e "border_fill_error")).

End Detector.
End BorderFillDetector.

(* ===================================================================== *)
(** * detectors/uniform_color.py *)
(* ===================================================================== *)

Module UniformColorDetector.
Import Config BaseDetector.

Section Detector.
Context {py : PyBuiltins} {cv : OpenCV} {sk : SkLearn} {rng : NumpyRandom}.
Variable config : UniformColorConfig.

Definition name : string := "uniform_color".

(** [pixels[random_indices]] *)
Fixpoint take_indices (pixels : list pixel) (indices : list nat) : res (list pixel) :=
  match indices with
  | [] => Return []
  | i :: rest =>
      match pixels !! i with
      | Some p => ps ← take_indices pixels rest; Return (p :: ps)
      | None => Raise (IndexError "index out of bounds")
      end
  end.

Definition _limit_sample_size_if_needed (pixels : list pixel) : res (list pixel) :=
  if (sample_size config <? len pixels)%Z then
    random_indices ← random_choice (len pixels) (sample_size config);
    take_indices pixels random_indices
  else Return pixels.

Definition _extract_representative_pixels (a : ndarray) : res (list pixel) :=
  '(height, width) ← shape2 a;
  all_pixels ←
    (if ignore_edges config then
       let vertical_margin :=
         py_int_of_float (inject_Z height * edge_ignore_percentage config) in
       let horizontal_margin :=
         py_int_of_float (inject_Z width * edge_ignore_percentage config) in
       interior_region ←
         slice2 a (Some vertical_margin) (Some (- vertical_margin)%Z)
                  (Some horizontal_margin) (Some (- horizontal_margin)%Z);
       reshape_m1_3 interior_region
     else reshape_m1_3 a);
  _limit_sample_size_if_needed all_pixels.

Definition _convert_to_target_color_space (pixels : list pixel) : res (list pixel) :=
  image_utils.convert_color_space pixels (color_space config).

Definition _find_dominant_color_with_kmeans (color_space_pixels : list pixel) : color :=
  match color_space_pixels with
  | [] => (0, 0, 0)%Q
  | _ =>
      let valid_pixels := filter (λ p, isfinite_pixel p = true) color_space_pixels in
      if (len valid_pixels =? 0)%Z then (0, 0, 0)%Q
      else if (len valid_pixels <? 2)%Z then np_mean valid_pixels
      else
        match kmeans_fit 1 valid_pixels with
        | Return (center :: _, _) => center
        | _ => np_mean valid_pixels
        end
  end.

Definition _calculate_color_uniformity_coverage (color_space_pixels : list pixel)
    (most_common_color : color) : Q :=
  match color_space_pixels with
  | [] => 0
  | _ =>
      let valid_pixel_mask :=
        map (λ p, isfinite_pixel p && isfinite_color most_common_color)
            color_space_pixels in
      if negb (existsb id valid_pixel_mask) then 0
      else
        let valid_pixels :=
          map fst (filter (λ pm : pixel * bool, pm.2 = true)
                          (zip color_space_pixels valid_pixel_mask)) in
        if (len valid_pixels =? 0)%Z then 0
        else
          let color_tolerance := color_delta_threshold config in
          let matching_pixels_count :=
            py_sum (map (λ p, int_of_bool (within_delta color_tolerance most_common_color p))
                        valid_pixels) in
          (inject_Z matching_pixels_count / inject_Z (len valid_pixels))%Q
  end.

Definition val_color (c : color) : pyval :=
  VList [VFloat (NFin c.1.1); VFloat (NFin c.1.2); VFloat (NFin c.2)].

Definition _build_uniformity_analysis_details (uniformity_percentage : Q)
    (most_common_color : color) (sample_count total_pixel_count : Z) : dict :=
  <["uniformity_percentage" := VFloat (NFin uniformity_percentage)]>
    (<["most_common_color" := val_color most_common_color]>
       (<["color_space" := VStr (color_space config)]>
          (<["sample_count" := VInt sample_count]>
             (<["total_pixel_count" := VInt total_pixel_count]>
                (<["color_tolerance" := VInt (color_delta_threshold config)]>
                   (<["threshold" := VFloat (NFin (uniform_coverage_threshold config))]>
                      ∅)))))).

(** The first half of [detect]'s body: normalise, sample, convert, and
    estimate the dominant colour. *)
Record sampling := {
  total_pixel_count : Z;
  sampled_pixels : list pixel;
  color_space_pixels : list pixel;
  most_common_color : color;
}.

Definition sample_image (img : image) : res sampling :=
  a ← as_array img;
  normalized_image ← _ensure_3channel_bgr a;
  '(height, width) ← shape2 normalized_image;
  sampled ← _extract_representative_pixels normalized_image;
  converted ← _convert_to_target_color_space sampled;
  Return {| total_pixel_count := (height * width)%Z;
            sampled_pixels := sampled;
            color_space_pixels := converted;
            most_common_color := _find_dominant_color_with_kmeans converted |}.

(** The second half: coverage, verdict, details, issue. *)
Definition report (s : sampling) : DetectionResult :=
  let uniformity_percentage :=
    _calculate_color_uniformity_coverage (color_space_pixels s) (most_common_color s) in
  let exceeds_threshold :=
    Qle_bool (uniform_coverage_threshold config) uniformity_percentage in
  let detection_confidence := uniformity_percentage in
  let analysis_details :=
    _build_uniformity_analysis_details uniformity_percentage (most_common_color s)
      (len (sampled_pixels s)) (total_pixel_count s) in
  let detected_issues :=
    if exceeds_threshold
    then ["Image is " +:+ fmt_pct 1 uniformity_percentage +:+ " uniform color "
          +:+ "(threshold: " +:+ fmt_pct 1 (uniform_coverage_threshold config) +:+ ")"]
    else [] in
  _create_result name exceeds_threshold (NFin detection_confidence) analysis_details
    detected_issues.

Definition detect_body (img : image) : res DetectionResult :=
  s ← sample_image img;
  Return (report s).

Definition detect (img : image) : res DetectionResult :=
  valid ← _validate_image img;
  if negb valid
  then Return (_create_error_result name (ValueError "Invalid image provided")
                 "invalid_image")
  else try_except (detect_body img)
         (λ e, Return (_create_error_result name e "uniform_color_detection_error")).

End Detector.
End UniformColorDetector.

(* ===================================================================== *)
(** * detectors/background.py *)
(* ===================================================================== *)

Module BackgroundDetector.
Import Config BaseDetector.

Section Detector.
Context {py : PyBuiltins} {cv : OpenCV} {sk : SkLearn}.
Variable config : BackgroundDetectionConfig.

Definition name : string := "background".

(** The dict an analysis returns, by the keys [detect] reads and writes.
    The fallback dict has no ["dominant_color"] key. *)
Record background_analysis := {
  dominant_color : option pixel;
  sample_coverage : npfloat;
  analysis_method : string;
  analysis_error : option string;
}.

Definition _create_fallback_background_result (method error : string)
    : background_analysis :=
  {| dominant_color := None;
     sample_coverage := NFin 0;
     analysis_method := method;
     analysis_error := Some error |}.

(** The dominant colour as an [int] array. *)
Definition _find_dominant_color_with_kmeans (pixels : list pixel) (n_clusters : nat)
    : pixel :=
  match pixels with
  | [] => (0, 0, 0)%Z
  | _ =>
      let valid_pixels := filter (λ p, isfinite_pixel p = true) pixels in
      if (len valid_pixels =? 0)%Z then (0, 0, 0)%Z
      else if (len valid_pixels <? Z.of_nat n_clusters)%Z
      then astype_int (np_mean valid_pixels)
      else
        match kmeans_fit n_clusters valid_pixels with
        | Return (center :: _, _) => astype_int center
        | _ => astype_int (np_mean valid_pixels)
        end
  end.

Definition _analyze_background_from_edges (a : ndarray) : background_analysis :=
  match
    '(height, width) ← shape2 a;
    edge_pixel_samples ←
      image_utils.extract_edge_samples a height width (edge_sample_percentage config);
    let most_common_color := _find_dominant_color_with_kmeans edge_pixel_samples 1 in
    let edge_coverage_percentage :=
      image_utils.calculate_pixel_coverage edge_pixel_samples most_common_color
        (background_color_tolerance config) in
    Return {| dominant_color := Some most_common_color;
              sample_coverage := edge_coverage_percentage;
              analysis_method := "edge_based";
              analysis_error := None |}
  with
  | Return analysis => analysis
  | Raise e => _create_fallback_background_result "edge_based" (str_exn e)
  end.

Definition _analyze_background_from_corners (a : ndarray) : background_analysis :=
  match
    '(height, width) ← shape2 a;
    corner_pixel_samples ←
      image_utils.extract_corner_samples a height width
        (corner_sample_percentage config);
    let most_common_color := _find_dominant_color_with_kmeans corner_pixel_samples 1 in
    let corner_coverage_percentage :=
      image_utils.calculate_pixel_coverage corner_pixel_samples most_common_color
        (background_color_tolerance config) in
    Return {| dominant_color := Some most_common_color;
              sample_coverage := corner_coverage_percentage;
              analysis_method := "corner_based";
              analysis_error := None |}
  with
  | Return analysis => analysis
  | Raise e => _create_fallback_background_result "corner_based" (str_exn e)
  end.

(** [np.unique(labels, return_counts=True)]: the labels that occur, in
    increasing order, each with its count. *)
Definition unique_counts (labels : list nat) : list (nat * Z) :=
  filter (λ kc : nat * Z, (0 < kc.2)%Z)
    (map (λ k, (k, len (filter (λ l, l = k) labels)))
         (seq 0 (S (foldr Nat.max 0%nat labels)))).

(** [np.argmax(counts)]: the first index of the largest count. *)
Fixpoint argmax_from (counts : list Z) (i best : nat) (best_count : Z) : nat :=
  match counts with
  | [] => best
  | c :: rest =>
      if (best_count <? c)%Z then argmax_from rest (S i) i c
      else argmax_from rest (S i) best best_count
  end.

Definition np_argmax (counts : list Z) : res nat :=
  match counts with
  | [] => Raise (ValueError "attempt to get argmax of an empty sequence")
  | c :: rest => Return (argmax_from rest 1 0 c)
  end.

Definition _find_dominant_color_from_histogram (lab_pixels : list pixel)
    : color * npfloat :=
  match lab_pixels with
  | [] => ((50, 0, 0)%Q, NFin 0)
  | _ =>
      let valid_pixels := filter (λ p, isfinite_pixel p = true) lab_pixels in
      if (len valid_pixels =? 0)%Z then ((50, 0, 0)%Q, NFin 0)
      else
        let cluster_count := Z.min 3 (len valid_pixels) in
        if (cluster_count <? 1)%Z then (np_mean valid_pixels, NFin 1)
        else
          match
            '(centers, cluster_labels) ← kmeans_fit (Z.to_nat cluster_count) valid_pixels;
            let counts := map snd (unique_counts cluster_labels) in
            most_frequent_cluster_index ← np_argmax counts;
            match centers !! most_frequent_cluster_index,
                  counts !! most_frequent_cluster_index with
            | Some most_frequent_color_lab, Some n =>
                Return (most_frequent_color_lab, np_divide n (len valid_pixels))
            | _, _ => Raise (IndexError "index out of bounds")
            end
          with
          | Return found => found
          | Raise _ => (np_mean valid_pixels, NFin 1)
          end
  end.

(** [np.uint8(x)] on a float: truncation, then wrap-around. *)
Definition np_uint8 (x : Q) : Z := (py_int_of_float x mod 256)%Z.

Definition _convert_lab_to_bgr (lab_color : color) : res pixel :=
  converted ←
    cvtColor_pixels "LAB2BGR"
      [(np_uint8 lab_color.1.1, np_uint8 lab_color.1.2, np_uint8 lab_color.2)];
  match converted with
  | p :: _ => Return p
  | [] => Raise (IndexError "index 0 is out of bounds for axis 0 with size 0")
  end.

Definition _analyze_background_from_histogram (a : ndarray) : background_analysis :=
  match
    let normalized_image := image_utils.ensure_uint8 a in
    lab_color_space_image ← cvtColor_BGR2LAB normalized_image;
    all_pixels ← reshape_m1_3 normalized_image;
    lab_pixels ← reshape_m1_3 lab_color_space_image;
    let '(most_frequent_color_lab, frequency_percentage) :=
      _find_dominant_color_from_histogram lab_pixels in
    most_frequent_color_bgr ← _convert_lab_to_bgr most_frequent_color_lab;
    Return {| dominant_color := Some most_frequent_color_bgr;
              sample_coverage := frequency_percentage;
              analysis_method := "histogram_based";
              analysis_error := None |}
  with
  | Return analysis => analysis
  | Raise e => _create_fallback_background_result "histogram_based" (str_exn e)
  end.

Definition _analyze_background_dominance (a : ndarray) : background_analysis :=
  if String.eqb (detection_method config) "edge_based"
  then _analyze_background_from_edges a
  else if String.eqb (detection_method config) "corner_based"
  then _analyze_background_from_corners a
  else _analyze_background_from_histogram a.

(** [np.linalg.norm(lab_pixel - lab_dominant) <= tolerance] for one pixel:
    the difference of two [uint8] values wraps around, the norm is taken
    on floats, and [sqrt(s) <= t] for integers is [0 <= t] and [s <= t*t]. *)
Definition wrap_sub (x y : Z) : Z := ((x - y) mod 256)%Z.

Definition lab_distance_within (tolerance : Z) (d p : pixel) : bool :=
  let s :=
    (wrap_sub p.1.1 d.1.1 * wrap_sub p.1.1 d.1.1
     + wrap_sub p.1.2 d.1.2 * wrap_sub p.1.2 d.1.2
     + wrap_sub p.2 d.2 * wrap_sub p.2 d.2)%Z in
  (0 <=? tolerance)%Z && (s <=? tolerance * tolerance)%Z.

Definition _calculate_total_background_coverage (a : ndarray) (dominant : pixel)
    : res npfloat :=
  let normalized_image := image_utils.ensure_uint8 a in
  all_pixels ← reshape_m1_3 normalized_image;
  lab_color_space_image ← cvtColor_BGR2LAB normalized_image;
  let dominant_color_uint8 := image_utils.ensure_uint8_int dominant in
  converted ← cvtColor_pixels "BGR2LAB" [dominant_color_uint8];
  lab_dominant_color ←
    match converted with
    | [p] => Return p
    | _ => Raise (ValueError "cannot reshape array into shape (3,)")
    end;
  lab_pixels ← reshape_m1_3 lab_color_space_image;
  let matching_pixels_count :=
    py_sum (map (λ p, int_of_bool
                        (lab_distance_within (background_color_tolerance config)
                           lab_dominant_color p))
                lab_pixels) in
  Return (np_divide matching_pixels_count (len all_pixels)).

Definition val_pixel (p : pixel) : pyval := VList [VInt p.1.1; VInt p.1.2; VInt p.2].

Definition detect_body (img : image) : res DetectionResult :=
  a ← as_array img;
  normalized_image ← _ensure_3channel_bgr a;
  let background_analysis := _analyze_background_dominance normalized_image in
  dominant ←
    match dominant_color background_analysis with
    | Some c => Return c
    | None => Raise (KeyError "'dominant_color'")
    end;
  actual_coverage ← _calculate_total_background_coverage normalized_image dominant;
  let exceeds_threshold :=
    np_gt actual_coverage (background_coverage_threshold config) in
  let detected_issues :=
    if exceeds_threshold
    then ["Background dominates " +:+ fmt_np 1 (np_scale actual_coverage 100)
          +:+ "% of image"]
    else [] in
  let analysis_details : dict :=
    <["dominant_color" := val_pixel dominant]>
      (<["coverage_percentage" := VFloat actual_coverage]>
         (<["detection_method" := VStr (analysis_method background_analysis)]> ∅)) in
  let detection_confidence := actual_coverage in
  Return (_create_result name exceeds_threshold detection_confidence
            analysis_details detected_issues).

Definition detect (img : image) : res DetectionResult :=
  valid ← _validate_image img;
  if negb valid
  then Return (_create_error_result name (ValueError "Invalid image provided")
                 "invalid_image")
  else try_except (detect_body img)
         (λ e, Return (_create_error_result name e "background_detection_error")).

End Detector.
End BackgroundDetector.

(* ===================================================================== *)
(** * detectors/ratio.py *)
(* ===================================================================== *)

Definition val_num (n : pynum) : pyval :=
  match n with
  | PyInt z => VInt z
  | PyFloat q => VFloat (NFin q)
  | PyInf negative => VFloat (if negative then NNInf else NPInf)
  | PyNan => VFloat NNan
  | PyNegZero => VFloat (NFin 0)
  end.

Module RatioDetector.
Import Config BaseDetector.

Section Detector.
Context {py : PyBuiltins}.
Variable config : RatioConfig.

Definition name : string := "ratio".

Definition _build_ratio_analysis_details (width height : Z)
    (actual_aspect_ratio : float64) : dict :=
  <["width" := VInt width]>
    (<["height" := VInt height]>
       (<["actual_aspect_ratio" := VFloat (npfloat_of actual_aspect_ratio)]>
          (<["target_ratios" :=
               VList (map (λ t : pynum * pynum, VList [val_num t.1; val_num t.2])
                          (target_ratios config))]>
             (<["tolerance" := VFloat (NFin (tolerance config))]> ∅)))).

Definition _validate_minimum_dimensions (width height : Z) : list string :=
  (if (width <? minimum_width config)%Z
   then ["Width " +:+ pretty width +:+ " is below minimum "
         +:+ pretty (minimum_width config)]
   else [])
  ++
  (if (height <? minimum_height config)%Z
   then ["Height " +:+ pretty height +:+ " is below minimum "
         +:+ pretty (minimum_height config)]
   else []).

Definition _validate_maximum_dimensions (width height : Z) : list string :=
  (if (maximum_width config <? width)%Z
   then ["Width " +:+ pretty width +:+ " exceeds maximum "
         +:+ pretty (maximum_width config)]
   else [])
  ++
  (if (maximum_height config <? height)%Z
   then ["Height " +:+ pretty height +:+ " exceeds maximum "
         +:+ pretty (maximum_height config)]
   else []).

Definition _validate_dimension_constraints (width height : Z) : list string :=
  (if check_minimum_dimensions config
   then _validate_minimum_dimensions width height else [])
  ++
  (if check_maximum_dimensions config
   then _validate_maximum_dimensions width height else []).

Definition _is_ratio_within_tolerance (actual_ratio target_ratio_value : float64) : bool :=
  f64.leb (f64.abs (f64.sub actual_ratio target_ratio_value))
    (f64.of_Q (tolerance config)).

(** The loop of [_find_closest_target_ratio]; [smallest_difference] starts
    at [float("inf")]. *)
Fixpoint closest_loop (targets : list (pynum * pynum)) (actual_ratio : float64)
    (closest_ratio_tuple : option (pynum * pynum))
    (smallest_difference : float64) : res (option (pynum * pynum)) :=
  match targets with
  | [] => Return closest_ratio_tuple
  | (target_width, target_height) :: rest =>
      target_ratio_value ← num_truediv target_width target_height;
      let difference := f64.abs (f64.sub actual_ratio target_ratio_value) in
      if f64.leb difference (f64.of_Q (tolerance config))
      then Return (Some (target_width, target_height))
      else
        if f64.ltb difference smallest_difference
        then closest_loop rest actual_ratio
               (Some (target_width, target_height)) difference
        else closest_loop rest actual_ratio closest_ratio_tuple smallest_difference
  end.

Definition _find_closest_target_ratio (actual_ratio : float64)
    : res (option (pynum * pynum)) :=
  match target_ratios config with
  | [] => Return None
  | targets => closest_loop targets actual_ratio None f64.inf
  end.

Definition mismatch_message (actual_ratio : float64) : string :=
  "Ratio " +:+ fmt_f64 3 actual_ratio +:+ " doesn't match any target ratios".

Definition closest_message (actual_ratio : float64) (closest : pynum * pynum)
    (target_ratio_value : float64) : string :=
  "Ratio " +:+ fmt_f64 3 actual_ratio +:+ " doesn't match any target ratios. "
  +:+ "Closest: " +:+ fmt_f64 3 target_ratio_value
  +:+ " (" +:+ str_num closest.1 +:+ ":" +:+ str_num closest.2 +:+ ")".

Definition _validate_aspect_ratio_compliance (actual_ratio : float64)
    : res (list string) :=
  closest_target_ratio ← _find_closest_target_ratio actual_ratio;
  match closest_target_ratio with
  | None => Return [mismatch_message actual_ratio]
  | Some closest =>
      v ← num_truediv closest.1 closest.2;
      if negb (_is_ratio_within_tolerance actual_ratio v)
      then
        target_ratio_value ← num_truediv closest.1 closest.2;
        Return [closest_message actual_ratio closest target_ratio_value]
      else Return []
  end.

Definition _calculate_confidence_score (detected_issues : list string) : res Q :=
  let max_possible_issue_count := (len (target_ratios config) + 2)%Z in
  py_truediv (len detected_issues) (Z.max max_possible_issue_count 1).

Definition detect_body (img : image) : res DetectionResult :=
  a ← as_array img;
  '(height, width) ← shape2 a;
  actual_aspect_ratio ← py_truediv_float width height;
  let analysis_details := _build_ratio_analysis_details width height actual_aspect_ratio in
  let dimension_violations := _validate_dimension_constraints width height in
  aspect_ratio_violations ← _validate_aspect_ratio_compliance actual_aspect_ratio;
  let detected_issues := dimension_violations ++ aspect_ratio_violations in
  let has_ratio_issues := (0 <? len detected_issues)%Z in
  detection_confidence ← _calculate_confidence_score detected_issues;
  let analysis_details :=
    <["dimension_violations" := VList (map VStr dimension_violations)]>
      (<["aspect_ratio_violations" := VList (map VStr aspect_ratio_violations)]>
         analysis_details) in
  Return (_create_result name has_ratio_issues (NFin detection_confidence)
            analysis_details detected_issues).

Definition detect (img : image) : res DetectionResult :=
  valid ← _validate_image img;
  if negb valid
  then Return (_create_error_result name (ValueError "Invalid image provided")
                 "invalid_image")
  else try_except (detect_body img)
         (λ e, Return (_create_error_result name e "ratio_detection_error")).

End Detector.
End RatioDetector.

(* ===================================================================== *)
(** * detectors/composite.py *)
(* ===================================================================== *)

Module CompositeDetector.
Import BaseDetector.

(** One turn of the first loop: run the detector, append its result (or
    the error result built from the exception it raised) and count. *)
Definition run_step (img : image) (st : list DetectionResult * Z)
    (detector : Detector) : list DetectionResult * Z :=
  let '(results, problematic_count) := st in
  match detect detector img with
  | Return result =>
      (results ++ [result],
       if DetectionResult.is_problematic result
       then (problematic_count + 1)%Z else problematic_count)
  | Raise e =>
      (results ++ [_create_error_result (name detector) e "detector_error"],
       (problematic_count + 1)%Z)
  end.

(** One turn of the second loop, over [zip(self.detectors, results)]. *)
Definition merge_step (st : dict * list string)
    (dr : Detector * DetectionResult) : dict * list string :=
  let '(details, all_issues) := st in
  let '(detector, result) := dr in
  (<[name detector := VDict (DetectionResult.details result)]> details,
   match DetectionResult.issues result with
   | [] => all_issues
   | _ => all_issues ++ DetectionResult.issues result
   end).

Definition detect (detectors : list Detector) (img : image) : res DetectionResult :=
  match detectors with
  | [] => Return (_create_result "composite" false (NFin 0) ∅ [])
  | _ =>
      let '(results, problematic_count) :=
        fold_left (run_step img) detectors ([], 0%Z) in
      let is_problematic := (0 <? problematic_count)%Z in
      confidence ← py_truediv problematic_count (len detectors);
      let '(details, all_issues) :=
        fold_left merge_step (zip detectors results) (∅, []) in
      Return (_create_result "composite" is_problematic (NFin confidence) details all_issues)
  end.

Definition add_detector (detectors : list Detector) (detector : Detector) :=
  detectors ++ [detector].

Definition remove_detector (detectors : list Detector) (n : string) :=
  filter (λ d, name d ≠ n) detectors.

Definition get_detector (detectors : list Detector) (n : string) : option Detector :=
  find (λ d, String.eqb (name d) n) detectors.

End CompositeDetector.

(* ===================================================================== *)
(** * analyzers/image.py and analyzers/batch.py *)
(* ===================================================================== *)

(** The collaborators of the analyzers: [ImageLoader.load] (which decodes
    a file with [cv2.imread]) and [FileFinder.find_images]. *)
Class FileSystem := {
  load : string → res ndarray;
  find_images : string → res (list string);
}.

Module ImageAnalyzer.
Import Config.

Section Analyzer.
Context {py : PyBuiltins} {cv : OpenCV} {sk : SkLearn} {rng : NumpyRandom}
        {fs : FileSystem}.
Variable config : DetectionConfig.

Definition detector_factory_map (detector_name : string) : option Detector :=
  if String.eqb detector_name "border_fill" then
    Some {| name := BorderFillDetector.name;
            detect := BorderFillDetector.detect (border_fill config) |}
  else if String.eqb detector_name "uniform_color" then
    Some {| name := UniformColorDetector.name;
            detect := UniformColorDetector.detect (uniform_color config) |}
  else if String.eqb detector_name "background" then
    Some {| name := BackgroundDetector.name;
            detect := BackgroundDetector.detect (background config) |}
  else if String.eqb detector_name "ratio" then
    Some {| name := RatioDetector.name;
            detect := RatioDetector.detect (ratio config) |}
  else None.

(** The detectors of the composite that [_build_detector] creates. *)
Definition _build_detector : list Detector :=
  omap detector_factory_map (enabled_detectors config).

Definition _create_initial_analysis (image_path : string) (width height : Z)
    : ImageAnalysis :=
  ImageAnalysis.mk image_path width height [] false.

Definition analyze (image_path : string) : res ImageAnalysis :=
  loaded_image ← load image_path;
  '(height, width) ← shape2 loaded_image;
  let image_analysis := _create_initial_analysis image_path width height in
  composite_detection_result ←
    CompositeDetector.detect _build_detector (ImgArray loaded_image);
  Return (ImageAnalysis.add_detection_result image_analysis composite_detection_result).

End Analyzer.
End ImageAnalyzer.

Module BatchAnalyzer.

Definition _create_batch_summary (image_analyses : list ImageAnalysis) : BatchSummary :=
  let problematic_image_count :=
    py_sum (map (λ _, 1%Z)
              (filter (λ a, ImageAnalysis.is_problematic a = true) image_analyses)) in
  let total_image_count := len image_analyses in
  {| total_images := total_image_count;
     problematic_images := problematic_image_count;
     passed_images := (total_image_count - problematic_image_count)%Z |}.

Section Analyzer.
Context {py : PyBuiltins} {cv : OpenCV} {sk : SkLearn} {rng : NumpyRandom}
        {fs : FileSystem}.
Variable config : Config.DetectionConfig.

Definition _analyze_single_image (image_path : string) : res ImageAnalysis :=
  ImageAnalyzer.analyze config image_path.

Fixpoint _analyze_all_images (image_paths : list string) : res (list ImageAnalysis) :=
  match image_paths with
  | [] => Return []
  | image_path :: rest =>
      single_analysis ← _analyze_single_image image_path;
      completed_analyses ← _analyze_all_images rest;
      Return (single_analysis :: completed_analyses)
  end.

Definition process (folder_path : string) : res BatchReport :=
  discovered_image_paths ← find_images folder_path;
  image_analyses ← _analyze_all_images discovered_image_paths;
  let batch_summary := _create_batch_summary image_analyses in
  Return {| summary := batch_summary; analyses := image_analyses |}.

End Analyzer.
End BatchAnalyzer.

(* ===================================================================== *)
(** * utils/file_finder.py and utils/image_loader.py *)
(* ===================================================================== *)

(** [pathlib]: the entries below a folder, [folder.rglob("*")] and
    [folder.glob("*")], in the order the file system lists them (listing
    may raise), [Path.is_file] and [Path.suffix]. *)
Class PathLib := {
  path_rglob : string → res (list string);
  path_glob : string → res (list string);
  path_is_file : string → bool;
  path_suffix : string → string;
}.

(** [cv2.imread(path, cv2.IMREAD_UNCHANGED)]: the decoded array, or [None]
    when the file cannot be read. *)
Class ImageIO := {
  imread : string → option ndarray;
}.

Module FileFinder.

Definition DEFAULT_EXTENSIONS : gset string :=
  {[ ".jpg"; ".jpeg"; ".png"; ".bmp"; ".tiff"; ".webp" ]}.

(** [self.extensions = extensions or self.DEFAULT_EXTENSIONS]: [None] and
    the empty set both give the default. *)
Definition __init__ (extensions : option (gset string)) : gset string :=
  match extensions with
  | Some given => if decide (given = ∅) then DEFAULT_EXTENSIONS else given
  | None => DEFAULT_EXTENSIONS
  end.

Section Finder.
Context {pl : PathLib}.
Variable extensions : gset string.

Definition find_images (folder_path : string) (recursive : bool) : res (list string) :=
  files ← (if recursive then path_rglob folder_path else path_glob folder_path);
  Return (filter (λ file, py_lower (path_suffix file) ∈ extensions
                          ∧ path_is_file file = true) files).

Definition count_images (folder_path : string) (recursive : bool) : res Z :=
  files ← find_images folder_path recursive;
  Return (len files).

Definition get_extension_statistics (folder_path : string) : res (gmap string Z) :=
  files ← find_images folder_path true;
  Return (fold_left (λ stats file,
                       let ext := py_lower (path_suffix file) in
                       <[ext := (default 0%Z (stats !! ext) + 1)%Z]> stats)
                    files ∅).

End Finder.
End FileFinder.

Module ImageLoader.

Definition SUPPORTED_EXTENSIONS : gset string :=
  {[ ".jpg"; ".jpeg"; ".png"; ".bmp"; ".tiff"; ".webp" ]}.

Section Loader.
Context {pl : PathLib} {io : ImageIO}.

(** [load] also stores the path in the attribute [last_loaded_path], which
    no code reads. *)
Definition load (image_path : string) : res ndarray :=
  match imread image_path with
  | None => Raise (ValueError ("Failed to load image: " +:+ image_path))
  | Some image => Return (image_utils.ensure_uint8 image)
  end.

Definition is_supported_format (path : string) : bool :=
  bool_decide (py_lower (path_suffix path) ∈ SUPPORTED_EXTENSIONS).

End Loader.
End ImageLoader.

(** The collaborators that [ImageAnalyzer] and [BatchAnalyzer] create when
    none is passed: [ImageLoader()] and [FileFinder()]. *)
Definition default_collaborators {pl : PathLib} {io : ImageIO} : FileSystem :=
  {| load := ImageLoader.load;
     find_images := λ folder_path,
       FileFinder.find_images (FileFinder.__init__ None) folder_path true |}.

(* ===================================================================== *)
(** * __init__.py, server.py and cli/commands.py *)
(* ===================================================================== *)

(** [DetectionMode(value)]: the member with that value, or [ValueError]. *)
Definition DetectionMode_values : list (string * Config.DetectionMode) :=
  [("strict", Config.STRICT); ("default", Config.DEFAULT); ("lenient", Config.LENIENT);
   ("photo", Config.PHOTO); ("document", Config.DOCUMENT); ("custom", Config.CUSTOM)].

Definition DetectionMode_of_value {py : PyBuiltins} (value : string)
    : res Config.DetectionMode :=
  match find (λ vm : string * Config.DetectionMode, String.eqb vm.1 value)
             DetectionMode_values with
  | Some vm => Return vm.2
  | None => Raise (ValueError (py_repr value +:+ " is not a valid DetectionMode"))
  end.

Module PixelGuard.
Import Config.

Section Facade.
Context {py : PyBuiltins} {cv : OpenCV} {sk : SkLearn} {rng : NumpyRandom}
        {fs : FileSystem}.
Variable env : gmap string string.

Definition _initialize_config (config : option DetectionConfig) (mode : option string)
    : res DetectionConfig :=
  match config with
  | Some config => Return config
  | None =>
      match mode with
      | Some mode => m ← DetectionMode_of_value mode; from_mode env m
      | None => from_mode env DEFAULT
      end
  end.

(** [PixelGuard(config, mode)]: the configuration of the analyzers. *)
Definition __init__ (config : option DetectionConfig) (mode : option string)
    : res DetectionConfig :=
  _initialize_config config mode.

Definition analyze_image (self : DetectionConfig) (image_path : string)
    : res ImageAnalysis :=
  ImageAnalyzer.analyze self image_path.

Definition analyze_batch (self : DetectionConfig) (folder_path : string)
    : res BatchReport :=
  BatchAnalyzer.process self folder_path.

End Facade.
End PixelGuard.

(** [str.upper] and [sep.join] on ASCII text. *)
Fixpoint py_upper (s : string) : string :=
  match s with
  | EmptyString => EmptyString
  | String a s' => String (ascii_upper a) (py_upper s')
  end.

Definition py_join (sep : string) (parts : list string) : string :=
  String.concat sep parts.

Module Server.

(** The dict that [build_analysis_result] returns. *)
Record analysis_result := {
  file_name : string;
  url : option string;
  state : string;
  detail : string;
}.

(** The argument [error]: [None], a text, or an exception object. A text is
    true when it is not empty; an exception object is true. *)
Inductive error_value :=
| NoError
| ErrorText (s : string)
| ErrorObject (e : exn).

Definition error_is_true (error : error_value) : bool :=
  match error with
  | NoError => false
  | ErrorText s => negb (String.eqb s EmptyString)
  | ErrorObject _ => true
  end.

Definition str_error (error : error_value) : string :=
  match error with
  | NoError => "None"
  | ErrorText s => s
  | ErrorObject e => str_exn e
  end.

(** On an [ImageAnalysis], which has the attribute [detection_results] and
    no attribute [issues]. *)
Definition _extract_detection_details (analysis : ImageAnalysis) : string :=
  let issue_descriptions :=
    fold_left
      (λ issue_descriptions detection_result,
         if DetectionResult.is_problematic detection_result
            && negb (bool_decide (DetectionResult.issues detection_result = []))
         then
           let detector_name := DetectionResult.detector_name detection_result in
           fold_left (λ issue_descriptions issue,
                        issue_descriptions ++ [detector_name +:+ ": " +:+ issue])
                     (DetectionResult.issues detection_result) issue_descriptions
         else issue_descriptions)
      (ImageAnalysis.detection_results analysis) [] in
  match issue_descriptions with
  | [] => "failed by detector(s)"
  | _ => py_join "; " issue_descriptions
  end.

(** [analysis] is an [ImageAnalysis] or [None]. *)
Definition build_analysis_result (file_name : string) (url : option string)
    (analysis : option ImageAnalysis) (error : error_value) : analysis_result :=
  if error_is_true error then
    {| file_name := file_name; url := url; state := "failed";
       detail := "internal error: " +:+ str_error error |}
  else
    let has_issues :=
      match analysis with
      | Some a => ImageAnalysis.is_problematic a
      | None => false
      end in
    let result_state := if has_issues then "failed" else "pass" in
    let issue_details :=
      match analysis with
      | Some a => if has_issues then _extract_detection_details a else EmptyString
      | None => EmptyString
      end in
    {| file_name := file_name; url := url; state := result_state;
       detail := issue_details |}.



Section Handlers.
Context {py : PyBuiltins} {cv : OpenCV} {sk : SkLearn} {rng : NumpyRandom}
        {fs : FileSystem}.
Variable env : gmap string string.

(** [PixelGuard(mode=...)] is built before the [try]; the removal of the
    temporary file in [finally] does not change the result. *)
Definition analyze_image_file (file_path file_name : string) (url : option string)
    (detection_mode : string) : res analysis_result :=
  pixelguard_analyzer ← PixelGuard.__init__ env None (Some detection_mode);
  Return (match PixelGuard.analyze_image pixelguard_analyzer file_path with
          | Return analysis_result =>
              build_analysis_result file_name url (Some analysis_result) NoError
          | Raise e => build_analysis_result file_name url None (ErrorObject e)
          end).

End Handlers.
End Server.

Module Cli.
Import Config.

Section Commands.
Context {py : PyBuiltins}.

(** [click.echo] appends a line to the output; a command returns its value
    and the lines it has written. *)
Definition _parse_target_ratios (ratio_string : string)
    : list (pynum * pynum) * list string :=
  fold_left
    (λ '(parsed_ratio_pairs, out) individual_ratio,
       match parse_ratio_entry individual_ratio with
       | Some ratio => (parsed_ratio_pairs ++ [ratio], out)
       | None =>
           (parsed_ratio_pairs,
            out ++ ["Warning: Invalid ratio format '" +:+ individual_ratio
                    +:+ "', skipping..."])
       end)
    (py_split "," ratio_string) ([], []).

Definition _build_detection_config_from_cli_options
    (border_fill_threshold uniform_threshold background_threshold : Q)
    (color_tolerance : Z) (ratio_tolerance : Q) (min_width min_height : Z)
    (target_ratios : string) : DetectionConfig * list string :=
  let '(parsed_ratio_pairs, out) := _parse_target_ratios target_ratios in
  (detection_config
     (border_with border_fill_threshold border_fill_threshold
        (uniformity_required BorderFillConfig_default) BorderFillConfig_default)
     (uniform_with (color_space UniformColorConfig_default) color_tolerance
        uniform_threshold (ignore_edges UniformColorConfig_default))
     (background_with (detection_method BackgroundDetectionConfig_default)
        background_threshold color_tolerance)
     (ratio_with ratio_tolerance parsed_ratio_pairs min_width min_height),
   out).

Definition _display_available_modes : list string :=
  ["Available modes: strict, default, lenient, photo, document, custom";
   String "010" "For custom mode, set environment variables with PXG_ prefix:";
   "Example: PXG_BORDER_FILL_BLACK_FILL_THRESHOLD=0.03"].

Variable env : gmap string string.
(** [str(config)], the text of the dataclass. *)
Variable str_config : DetectionConfig → string.

(** [show_config]: the lines written. *)
Definition show_config (mode : option string) : list string :=
  match mode with
  | None => _display_available_modes
  | Some mode =>
      if String.eqb mode EmptyString then _display_available_modes
      else
        match m ← DetectionMode_of_value (py_upper mode); from_mode env m with
        | Return mode_config => [str_config mode_config]
        | Raise _ => ["Invalid mode: " +:+ mode]
        end
  end.

End Commands.
End Cli.

(* ===================================================================== *)
(** * Reference implementations of the external interfaces

    Executable instances of the interfaces above, used to run the engine
    on concrete inputs. The built-ins cover plain decimal literals; the
    OpenCV instance covers the conversions that are exact on integers
    (grey, BGR, BGRA, RGB) and answers [cv2.error] for the others. *)
(* ===================================================================== *)

Module Reference.

Definition digit_of (a : ascii) : option Z :=
  let n := nat_of_ascii a in
  if (48 <=? n)%nat && (n <=? 57)%nat then Some (Z.of_nat (n - 48)) else None.

Fixpoint parse_digits (s : string) (acc : Z) : option Z :=
  match s with
  | EmptyString => Some acc
  | String a s' => d ← digit_of a; parse_digits s' (acc * 10 + d)%Z
  end.

Definition parse_unsigned (s : string) : option Z :=
  match s with
  | EmptyString => None
  | _ => parse_digits s 0%Z
  end.

(** Splits a sign off: [(negative, rest)]. *)
Definition split_sign (s : string) : bool * string :=
  match s with
  | String "-" r => (true, r)
  | String "+" r => (false, r)
  | _ => (false, s)
  end.

Definition parse_int (s : string) : option Z :=
  let '(neg, r) := split_sign (py_strip s) in
  n ← parse_unsigned r;
  Some (if neg then (- n)%Z else n).

Definition parse_float (s : string) : option Q :=
  let '(neg, r) := split_sign (py_strip s) in
  q ← match py_split "." r with
      | [i] => inject_Z <$> parse_unsigned i
      | [i; f] =>
          match i, f with
          | EmptyString, EmptyString => None
          | _, _ =>
              a ← parse_digits i 0%Z;
              b ← parse_digits f 0%Z;
              Some (inject_Z a + inject_Z b / inject_Z (10 ^ Z.of_nat (String.length f)))%Q
          end
      | _ => None
      end;
  Some (if neg then (- q)%Q else q).

(** Rounding to the nearest integer, ties to even. *)
Definition round_half_even (q : Q) : Z :=
  let lo := Qfloor q in
  let r := (q - inject_Z lo)%Q in
  if Qlt_bool r (1 # 2) then lo
  else if Qlt_bool (1 # 2) r then (lo + 1)%Z
  else if Z.even lo then lo else (lo + 1)%Z.

Fixpoint zeros (n : nat) : string :=
  match n with
  | O => EmptyString
  | S n' => String "0" (zeros n')
  end.

Definition format_fixed (digits : nat) (q : Q) : string :=
  let scale := (10 ^ Z.of_nat digits)%Z in
  let n := round_half_even (Qabs q * inject_Z scale) in
  let int_part := pretty (n / scale)%Z in
  let frac := pretty (n mod scale)%Z in
  (if Qlt_bool q 0 then "-" else EmptyString)
  +:+ int_part
  +:+ match digits with
      | O => EmptyString
      | _ => "." +:+ zeros (digits - String.length frac) +:+ frac
      end.

Definition format_percent (digits : nat) (q : Q) : string :=
  format_fixed digits (q * 100) +:+ "%".

(** The least number of decimals, from 1 to 17, that print [q] exactly;
    17 when there is none. *)
Fixpoint decimals_from (fuel k : nat) (q : Q) : nat :=
  match fuel with
  | O => k
  | S fuel' =>
      let scaled := (q * inject_Z (10 ^ Z.of_nat k))%Q in
      if Qeq_bool scaled (inject_Z (Qfloor scaled)) then k
      else decimals_from fuel' (S k) q
  end.

Definition str_float (q : Q) : string := format_fixed (decimals_from 16 1 q) q.

#[export] Instance builtins : PyBuiltins := {|
  py_float := parse_float;
  py_int := parse_int;
  py_repr := λ s, "'" +:+ s +:+ "'";
  py_str_float := str_float;
  fmt_f := format_fixed;
  fmt_pct := format_percent;
|}.

Definition cv2_error (msg : string) : exn := Exn "cv2.error" msg.

(** The 8-bit grey value of a BGR pixel, in 15-bit fixed point. *)
Definition gray_of (px : list Z) : Z :=
  match px with
  | b :: g :: r :: _ => Z.shiftr (b * 3735 + g * 19235 + r * 9798 + 16384) 15
  | _ => 0%Z
  end.

Definition bgr2gray (a : ndarray) : res ndarray :=
  match a with
  | Arr3 w c (row :: rows) =>
      if ((c =? 3)%nat || (c =? 4)%nat) && negb (w =? 0)%nat
      then Return (Arr2 w (map (map gray_of) (row :: rows)))
      else Raise (cv2_error "Invalid number of channels in input image")
  | _ => Raise (cv2_error "Invalid input image")
  end.

Definition gray2bgr (a : ndarray) : res ndarray :=
  match a with
  | Arr2 w (row :: rows) =>
      if negb (w =? 0)%nat
      then Return (Arr3 w 3 (map (map (λ v, [v; v; v])) (row :: rows)))
      else Raise (cv2_error "Invalid input image")
  | _ => Raise (cv2_error "Invalid input image")
  end.

Definition bgra2bgr (a : ndarray) : res ndarray :=
  match a with
  | Arr3 w 4 (row :: rows) =>
      if negb (w =? 0)%nat
      then Return (Arr3 w 3 (map (map (take 3)) (row :: rows)))
      else Raise (cv2_error "Invalid input image")
  | _ => Raise (cv2_error "Invalid input image")
  end.

Definition convert_pixels (code : string) (pixels : list pixel) : res (list pixel) :=
  if String.eqb code "BGR2RGB"
  then Return (map (λ p : pixel, (p.2, p.1.2, p.1.1)) pixels)
  else Raise (cv2_error "conversion not available").

#[export] Instance opencv : OpenCV := {|
  cvtColor_BGR2GRAY := bgr2gray;
  cvtColor_GRAY2BGR := gray2bgr;
  cvtColor_BGRA2BGR := bgra2bgr;
  cvtColor_BGR2LAB := λ _, Raise (cv2_error "conversion not available");
  cvtColor_pixels := convert_pixels;
|}.

(** With one cluster the centre k-means converges to is the mean. *)
#[export] Instance sklearn : SkLearn := {|
  kmeans_fit := λ n pixels,
    match n, pixels with
    | 1%nat, _ :: _ => Return ([np_mean pixels], map (λ _, 0%nat) pixels)
    | _, _ => Raise (ValueError "clustering not available")
    end;
|}.

(** A generator that draws the first [size] indices. *)
#[export] Instance numpy_random : NumpyRandom := {|
  random_choice := λ n size,
    if (size <? 0)%Z || (n <? size)%Z
    then Raise (ValueError "Cannot take a larger sample than population when 'replace=False'")
    else Return (seq 0 (Z.to_nat size));
|}.

End Reference.

(* ===================================================================== *)
(** * The vocabulary of the statements *)
(* ===================================================================== *)

Import BaseDetector Config.

(** ** Results *)

Definition clamped (r : DetectionResult) : Prop :=
  (0 <= DetectionResult.confidence r <= 1)%Q.

Definition returns_clamped (m : res DetectionResult) : Prop :=
  match m with
  | Return r => clamped r
  | Raise _ => True
  end.

(** The result that stands for the exception [e] of the detector [name]. *)
Definition is_error_result (name : string) (e : exn) (r : DetectionResult) : Prop :=
  DetectionResult.is_problematic r = true
  ∧ DetectionResult.confidence r = 1%Q
  ∧ (∃ t, DetectionResult.details r !! "error_type" = Some (VStr t))
  ∧ DetectionResult.details r !! "error_message" = Some (VStr (str_exn e))
  ∧ DetectionResult.issues r = [name +:+ " detection failed: " +:+ str_exn e].

(** ** Images *)

(** The object of [tests/test_ratio_detector.py::test_error_handling]:
    its [shape] property raises [Exception("Mock error")]. *)
Definition mock_image : image := ImgShapeRaises (Exn "Exception" "Mock error").

(** Reading [shape] does not raise: [None], an object without the
    attribute, or an array. *)
Definition shape_readable (img : image) : Prop :=
  match img with
  | ImgShapeRaises e => exn_type e = "AttributeError"
  | _ => True
  end.

(** The 100x100 mid-grey image whose top 10 rows are black, as a 2-D grey
    array and as a 3-channel BGR array. *)
Definition top_black_rows : list (list Z) :=
  replicate 10 (replicate 100 0%Z) ++ replicate 90 (replicate 100 128%Z).
Definition top_black_gray : ndarray := Arr2 100 top_black_rows.
Definition top_black_bgr : ndarray :=
  Arr3 100 3 (map (map (λ v, [v; v; v])) top_black_rows).

(** Constant mid-grey BGR images, 10x10 and 100x100. *)
Definition small_gray_image : ndarray :=
  Arr3 10 3 (replicate 10 (replicate 10 [128; 128; 128]%Z)).
Definition large_gray_image : ndarray :=
  Arr3 100 3 (replicate 100 (replicate 100 [128; 128; 128]%Z)).

(** ** The composite *)

(** What the composite keeps of a sub-detector: its result, or the error
    result built from the exception it raised. *)
Definition sub_result (img : image) (d : Detector) : DetectionResult :=
  match detect d img with
  | Return r => r
  | Raise e => _create_error_result (name d) e "detector_error"
  end.

Definition problematic_count (rs : list DetectionResult) : Z :=
  len (filter (λ r, DetectionResult.is_problematic r = true) rs).

(** ** Configurations *)

(** Building a configuration returns, or raises a [ValueError]. *)
Definition value_error_or_return {A} (m : res A) : Prop :=
  match m with
  | Return _ => True
  | Raise e => exn_type e = "ValueError"
  end.

Definition env_abc : gmap string string := {[ "PXG_RATIO_TOLERANCE" := "abc" ]}.

(** The border-fill configuration of the test suite's fixture. *)
Definition stated_border_config : BorderFillConfig :=
  {| top_region_percentage := 0.1; bottom_region_percentage := 0.1;
     black_threshold := 30; white_threshold := 225;
     black_fill_threshold := 0.05; white_fill_threshold := 0.05;
     check_top := true; check_bottom := true;
     uniformity_required := 0.90 |}.

(** The same with other white thresholds. *)
Definition other_white_config : BorderFillConfig :=
  {| top_region_percentage := 0.1; bottom_region_percentage := 0.1;
     black_threshold := 30; white_threshold := 200;
     black_fill_threshold := 0.05; white_fill_threshold := 0.5;
     check_top := true; check_bottom := true;
     uniformity_required := 0.90 |}.

(** Two border-fill configurations that agree on every field but
    [white_threshold] and [white_fill_threshold]. *)
Definition differ_only_in_white (c1 c2 : BorderFillConfig) : Prop :=
  top_region_percentage c1 = top_region_percentage c2
  ∧ bottom_region_percentage c1 = bottom_region_percentage c2
  ∧ black_threshold c1 = black_threshold c2
  ∧ black_fill_threshold c1 = black_fill_threshold c2
  ∧ check_top c1 = check_top c2
  ∧ check_bottom c1 = check_bottom c2
  ∧ uniformity_required c1 = uniformity_required c2.

Definition strict_three_targets : RatioConfig :=
  ratio_with 0.05 (ints [(16, 9); (4, 3); (1, 1)]%Z) 100 100.

(** ** Border fill *)

(** An issue of the border-fill detector reports black fill of a region. *)
Definition black_fill_issue (s : string) : Prop :=
  ∃ region_name x, s = py_title region_name +:+ " border has black fill: " +:+ x +:+ "%".

(** The result flags the top border, and only it. *)
Definition flags_black_top {py : PyBuiltins} (m : res DetectionResult) : Prop :=
  ∃ r q, m = Return r
    ∧ DetectionResult.is_problematic r = true
    ∧ (q == 100)%Q
    ∧ DetectionResult.issues r = ["Top border has black fill: " +:+ fmt_f 1 q +:+ "%"]
    ∧ Forall (λ s, str_contains "Top border has black fill" s = true)
        (DetectionResult.issues r).

(** ** Aspect ratios *)

(** The quotient [W / H] of a target is computed: the division raises
    neither [ZeroDivisionError] (a height of zero) nor [OverflowError]. *)
Definition ratio_defined (t : pynum * pynum) : Prop :=
  ∃ v, num_truediv t.1 t.2 = Return v.

(** The height of a target is zero, of either sign, and its width is a
    float, or an int that converts to one: the division of the width by
    the height is the division by zero. *)
Definition zero_height (t : pynum * pynum) : Prop :=
  match t.2 with
  | PyInt z => z = 0%Z
  | PyFloat q => f64.is_zero (f64.of_Q q) = true
  | PyNegZero => True
  | PyInf _ | PyNan => False
  end
  ∧ ∃ x, num_float t.1 = Return x.

(** The value [W / H] of a target, its difference from the actual ratio as
    the code computes it, and whether that difference is within the
    tolerance. *)
Definition ratio_value (t : pynum * pynum) : float64 :=
  match num_truediv t.1 t.2 with
  | Return v => v
  | Raise _ => f64.nan
  end.
Definition difference (actual : float64) (t : pynum * pynum) : float64 :=
  f64.abs (f64.sub actual (ratio_value t)).
Definition within_tolerance (cfg : RatioConfig) (actual : float64)
    (t : pynum * pynum) : bool :=
  f64.leb (difference actual t) (f64.of_Q (tolerance cfg)).

(** The difference of a target is finite: it is below [float("inf")]. *)
Definition finite_difference (actual : float64) (t : pynum * pynum) : bool :=
  f64.ltb (difference actual t) f64.inf.

(** [t] is the closest target of [targets]: its difference is finite, no
    target before it has a difference that is less than or equal to its
    own, and no target after it has a difference that is less. *)
Definition first_closest (actual : float64) (targets : list (pynum * pynum))
    (t : pynum * pynum) : Prop :=
  ∃ before after,
    targets = before ++ t :: after
    ∧ finite_difference actual t = true
    ∧ Forall (λ u, f64.leb (difference actual u) (difference actual t) = false) before
    ∧ Forall (λ u, f64.ltb (difference actual u) (difference actual t) = false) after.

(** The state of the loop of [_find_closest_target_ratio] after the
    targets [seen]: no target yet, none of [seen] having a finite
    difference; or the closest target of [seen] and its difference. *)
Definition loop_state (actual : float64) (seen : list (pynum * pynum))
    (closest : option (pynum * pynum)) (smallest : float64) : Prop :=
  match closest with
  | None =>
      smallest = f64.inf ∧ Forall (λ u, finite_difference actual u = false) seen
  | Some t => smallest = difference actual t ∧ first_closest actual seen t
  end.

(** ** Uniform colour *)

(** The absolute differences of a pixel from a colour, channel by channel. *)
Definition channel_differences (c : color) (p : pixel) : list Q :=
  [Qabs (inject_Z p.1.1 - c.1.1); Qabs (inject_Z p.1.2 - c.1.2);
   Qabs (inject_Z p.2 - c.2)].

(** A pixel matches when the difference is within the threshold on every
    channel. *)
Definition matches_dominant (cfg : UniformColorConfig) (c : color) (p : pixel) : Prop :=
  Forall (λ d, (d <= inject_Z (color_delta_threshold cfg))%Q) (channel_differences c p).

#[global] Instance Qle_decision (x y : Q) : Decision (x <= y)%Q.
Proof.
  destruct (Qlt_le_dec y x) as [Hlt|Hle]; [right|left; exact Hle].
  intros Hle. exact (Qlt_not_le _ _ Hlt Hle).
Defined.

(** The fraction of the valid pixels that match. *)
Definition matching_fraction (cfg : UniformColorConfig) (c : color)
    (valid : list pixel) : Q :=
  (inject_Z (len (filter (matches_dominant cfg c) valid)) / inject_Z (len valid))%Q.

(** The margins [_extract_representative_pixels] crops. *)
Definition vertical_margin (cfg : UniformColorConfig) (height : Z) : Z :=
  py_int_of_float (inject_Z height * edge_ignore_percentage cfg).
Definition horizontal_margin (cfg : UniformColorConfig) (width : Z) : Z :=
  py_int_of_float (inject_Z width * edge_ignore_percentage cfg).

(** ** Detector lists and the environment *)

(** The names [_build_detector] knows. *)
Definition known_detectors : list string :=
  ["border_fill"; "uniform_color"; "background"; "ratio"].

(** The detectors of a list that carry the name [n], in list order. *)
Definition named (n : string) (detectors : list Detector) : list Detector :=
  filter (λ d, name d = n) detectors.

(** The table of [_get_custom_enabled_detectors]. *)
Definition detector_enable_flags : list (string * string) :=
  [("border_fill", "PXG_DETECTOR_BORDER_FILL_ENABLED");
   ("uniform_color", "PXG_DETECTOR_UNIFORM_COLOR_ENABLED");
   ("background", "PXG_DETECTOR_BACKGROUND_ENABLED");
   ("ratio", "PXG_DETECTOR_RATIO_ENABLED")].

(** A flag variable leaves its detector enabled: it is not set, or it is
    set to one of the four spellings of true, in any letter case. *)
Definition flag_enables (env : gmap string string) (key : string) : bool :=
  match env !! key with
  | None => true
  | Some value => bool_decide (py_lower value ∈ ["true"; "1"; "yes"; "on"])
  end.

(** Two environments that agree on every variable whose name starts with
    [PXG_]. *)
Definition agree_on_pxg (env1 env2 : gmap string string) : Prop :=
  ∀ key, str_prefix "PXG_" key = true → env1 !! key = env2 !! key.

(** ** Border regions and dimension bounds *)

(** The analyses of the border regions that a configuration checks on a
    grey image, the top region first; and the ones among them that are
    flagged. *)
Definition checked_regions {py : PyBuiltins} (cfg : BorderFillConfig)
    (w : nat) (rows : list (list Z)) : list BorderFillDetector.region_analysis :=
  (if check_top cfg
   then [BorderFillDetector._analyze_border_region cfg rows "top" (len rows) (Z.of_nat w)]
   else [])
  ++ (if check_bottom cfg
      then [BorderFillDetector._analyze_border_region cfg rows "bottom" (len rows)
              (Z.of_nat w)]
      else []).

Definition flagged_regions {py : PyBuiltins} (cfg : BorderFillConfig)
    (w : nat) (rows : list (list Z)) : list BorderFillDetector.region_analysis :=
  filter (λ r, BorderFillDetector.region_is_problematic r = true)
    (checked_regions cfg w rows).

(** The number of rows of the top and of the bottom region. *)
Definition top_region_height (cfg : BorderFillConfig) (height : Z) : Z :=
  py_int_of_float (inject_Z height * top_region_percentage cfg).
Definition bottom_region_height (cfg : BorderFillConfig) (height : Z) : Z :=
  py_int_of_float (inject_Z height * bottom_region_percentage cfg).

(** The dimensions are within the bounds that the configuration checks. *)
Definition within_dimension_bounds (cfg : RatioConfig) (width height : Z) : Prop :=
  (check_minimum_dimensions cfg = true →
   (minimum_width cfg <= width)%Z ∧ (minimum_height cfg <= height)%Z)
  ∧ (check_maximum_dimensions cfg = true →
     (width <= maximum_width cfg)%Z ∧ (height <= maximum_height cfg)%Z).

(** A ratio configuration whose only target has height zero, as the
    variable [PXG_RATIO_TARGET_RATIOS=16:0] gives it. *)
Definition zero_height_target : RatioConfig :=
  ratio_with 0.1 [(PyFloat 16, PyFloat 0)] 100 100.

(** ** Colour spaces, samples and tolerances *)

(** The colour spaces [convert_color_space] knows, each with the code of
    its conversion. *)
Definition color_space_codes : list (string * string) :=
  [("LAB", "BGR2LAB"); ("HSV", "BGR2HSV"); ("RGB", "BGR2RGB")].

(** The numbers of rows and of columns that [extract_edge_samples] and
    [extract_corner_samples] take at each side. *)
Definition sample_rows (height : Z) (sample_percentage : Q) : Z :=
  py_int_of_float (inject_Z height * sample_percentage).
Definition sample_columns (width : Z) (sample_percentage : Q) : Z :=
  py_int_of_float (inject_Z width * sample_percentage).

(** A pixel is within the tolerance of a colour on every channel. *)
Definition matches_target (tolerance : Z) (target p : pixel) : Prop :=
  (Z.abs (p.1.1 - target.1.1) <= tolerance)%Z
  ∧ (Z.abs (p.1.2 - target.1.2) <= tolerance)%Z
  ∧ (Z.abs (p.2 - target.2) <= tolerance)%Z.

#[global] Instance matches_target_decision (tolerance : Z) (target p : pixel) :
  Decision (matches_target tolerance target p).
Proof. unfold matches_target. apply _. Defined.

(** The grey 10x10 image with two channels, and a configuration of the
    background detector that analyses by histogram. *)
Definition two_channel_image : ndarray :=
  Arr3 10 2 (replicate 10 (replicate 10 [128; 128]%Z)).
Definition histogram_config : BackgroundDetectionConfig :=
  background_with "histogram" 0.80 30.

(** ** Files and the details of the server *)

(** The extension of a file as the finder and the loader compare it: the
    suffix in lower case. *)
Definition extension {pl : PathLib} (file : string) : string :=
  py_lower (path_suffix file).

(** The number of files with an extension, and the sum of the counts of a
    table of statistics. *)
Definition files_with_extension {pl : PathLib} (ext : string) (files : list string) : Z :=
  len (filter (λ file, extension file = ext) files).

Definition sum_of_counts (stats : gmap string Z) : Z :=
  map_fold (λ _ count total, (count + total)%Z) 0%Z stats.

(** The descriptions that the server derives from a detection result: its
    issues, each after the name of the detector, when it is problematic. *)
Definition issue_descriptions_of (r : DetectionResult) : list string :=
  if DetectionResult.is_problematic r
  then map (λ issue, DetectionResult.detector_name r +:+ ": " +:+ issue)
           (DetectionResult.issues r)
  else [].

(** ** The command line *)


(** The detail of a failed analysis: the descriptions joined, or the stock
    text when there is none. *)
Definition detail_of (descriptions : list string) : string :=
  match descriptions with
  | [] => "failed by detector(s)"
  | _ => py_join "; " descriptions
  end.

(* ===================================================================== *)
(** * Properties *)
(* ===================================================================== *)

(** ** Arithmetic of the runtime *)

Lemma py_sum_acc (xs : list Z) (a : Z) : fold_left Z.add xs a = (a + py_sum xs)%Z.
Proof.
  unfold py_sum. revert a. induction xs as [|x xs IH]; intros a; simpl.
  - lia.
  - rewrite (IH (a + x)%Z), (IH (0 + x)%Z). lia.
Qed.

Lemma py_sum_cons (x : Z) (xs : list Z) : py_sum (x :: xs) = (x + py_sum xs)%Z.
Proof. unfold py_sum at 1. simpl. apply py_sum_acc. Qed.

Lemma py_sum_ones {A} (l : list A) : py_sum (map (λ _, 1%Z) l) = len l.
Proof.
  unfold len. induction l as [|x l IH]; [done|].
  cbn [map]. rewrite py_sum_cons, IH. simpl length. lia.
Qed.

Lemma py_sum_indicator {A} (f : A → bool) (l : list A) :
  py_sum (map (λ x, int_of_bool (f x)) l) = len (filter (λ x, f x = true) l).
Proof.
  unfold len. induction l as [|x l IH]; [done|].
  cbn [map]. rewrite py_sum_cons, IH, filter_cons.
  destruct (f x) eqn:E.
  - case_decide; [|done]. cbn [length int_of_bool]. lia.
  - case_decide; [done|]. cbn [int_of_bool]. lia.
Qed.

Lemma len_filter_le {A} (P : A → Prop) `{∀ x, Decision (P x)} (l : list A) :
  (0 <= len (filter P l) <= len l)%Z.
Proof. unfold len. pose proof (length_filter P l). lia. Qed.

Lemma clamp_bounds (c : Q) : (0 <= py_max 0 (py_min 1 c) <= 1)%Q.
Proof.
  unfold py_max, py_min.
  destruct (Qlt_le_dec c 1); destruct (Qlt_le_dec 0 _); lra.
Qed.

Lemma clamp_id (c : Q) : (0 <= c <= 1)%Q → (py_max 0 (py_min 1 c) == c)%Q.
Proof.
  intros [H0 H1]. unfold py_max, py_min.
  destruct (Qlt_le_dec c 1); destruct (Qlt_le_dec 0 _); lra.
Qed.

Lemma fraction_bounds (a b : Z) :
  (0 <= a <= b)%Z → (0 < b)%Z → (0 <= inject_Z a / inject_Z b <= 1)%Q.
Proof.
  intros [Ha Hab] Hb.
  assert (0 < inject_Z b)%Q as Hb' by (unfold Qlt; simpl; lia).
  split.
  - apply Qle_shift_div_l; [exact Hb'|]. rewrite Qmult_0_l.
    unfold Qle; simpl; lia.
  - apply Qle_shift_div_r; [exact Hb'|]. rewrite Qmult_1_l.
    unfold Qle; simpl; lia.
Qed.

Lemma py_truediv_pos (a b : Z) :
  (0 < b)%Z → py_truediv a b = Return (inject_Z a / inject_Z b)%Q.
Proof. intros Hb. unfold py_truediv. destruct (Z.eqb_spec b 0); [lia|done]. Qed.

Lemma Qlt_bool_true (x y : Q) : Qlt_bool x y = true → (x < y)%Q.
Proof.
  unfold Qlt_bool. intros Hb. apply Qnot_le_lt. intros Hle.
  apply Qle_bool_iff in Hle. rewrite Hle in Hb. discriminate.
Qed.

Lemma Qlt_bool_false (x y : Q) : Qlt_bool x y = false → (y <= x)%Q.
Proof.
  unfold Qlt_bool. intros Hb. apply Qle_bool_iff.
  destruct (Qle_bool y x); [done|discriminate].
Qed.

(** ** The result constructor: clamping *)

Lemma Qlt_bool_dec (x y : Q) :
  Qlt_bool x y = if Qlt_le_dec x y then true else false.
Proof.
  destruct (Qlt_le_dec x y) as [Hlt|Hle].
  - destruct (Qlt_bool x y) eqn:E; [done|]. apply Qlt_bool_false in E. lra.
  - destruct (Qlt_bool x y) eqn:E; [|done]. apply Qlt_bool_true in E. lra.
Qed.

Lemma clamp01_is_max_of_min (c : npfloat) :
  float_max (NFin 0) (float_min (NFin 1) c) = NFin (clamp01 c).
Proof.
  destruct c as [q| | |]; try reflexivity.
  unfold float_max, float_min, float_lt, clamp01, py_max, py_min.
  rewrite (Qlt_bool_dec q 1). destruct (Qlt_le_dec q 1);
    rewrite Qlt_bool_dec; destruct (Qlt_le_dec 0 _); reflexivity.
Qed.

Lemma create_result_clamped name p c d i : clamped (_create_result name p c d i).
Proof.
  unfold clamped, _create_result. cbn [DetectionResult.confidence].
  destruct c; cbn [clamp01]; [apply clamp_bounds|lra|lra|lra].
Qed.

Lemma create_error_result_clamped name e t : clamped (_create_error_result name e t).
Proof. apply create_result_clamped. Qed.

Lemma returns_clamped_bind {A} (m : res A) (f : A → res DetectionResult) :
  (∀ a, returns_clamped (f a)) → returns_clamped (m ≫= f).
Proof. intros Hf. destruct m; [exact I|apply Hf]. Qed.

Lemma returns_clamped_try (m : res DetectionResult) (h : exn → res DetectionResult) :
  returns_clamped m → (∀ e, returns_clamped (h e)) → returns_clamped (try_except m h).
Proof. intros Hm Hh. destruct m; [apply Hh|exact Hm]. Qed.

(** The shape every concrete [detect] has: validate, then run the body
    under [try]. *)
Lemma guarded_detect_clamped (name error_type : string) (img : image)
    (body : res DetectionResult) :
  returns_clamped body →
  returns_clamped
    (valid ← _validate_image img;
     if negb valid
     then Return (_create_error_result name (ValueError "Invalid image provided")
                    "invalid_image")
     else try_except body (λ e, Return (_create_error_result name e error_type))).
Proof.
  intros Hb. apply returns_clamped_bind. intros [|]; cbn [negb].
  - apply returns_clamped_try; [exact Hb|]. intros e. apply create_error_result_clamped.
  - apply create_error_result_clamped.
Qed.

Section DetectorsClamped.
Context {py : PyBuiltins} {cv : OpenCV} {sk : SkLearn} {rng : NumpyRandom}.

Lemma border_fill_detect_clamped cfg img :
  returns_clamped (BorderFillDetector.detect cfg img).
Proof.
  apply guarded_detect_clamped. unfold BorderFillDetector.detect_body.
  apply returns_clamped_bind; intros a.
  apply returns_clamped_bind; intros g.
  apply returns_clamped_bind; intros [[h w] rows].
  destruct (BorderFillDetector.check_region _ _ _ _ _ _ _ _) as [[issues det] n].
  apply returns_clamped_bind; intros c. apply create_result_clamped.
Qed.

Lemma ratio_detect_clamped cfg img :
  returns_clamped (RatioDetector.detect cfg img).
Proof.
  apply guarded_detect_clamped. unfold RatioDetector.detect_body.
  apply returns_clamped_bind; intros a.
  apply returns_clamped_bind; intros [h w].
  apply returns_clamped_bind; intros actual.
  apply returns_clamped_bind; intros v.
  apply returns_clamped_bind; intros c. apply create_result_clamped.
Qed.

Lemma uniform_color_detect_clamped cfg img :
  returns_clamped (UniformColorDetector.detect cfg img).
Proof.
  apply guarded_detect_clamped. unfold UniformColorDetector.detect_body.
  apply returns_clamped_bind; intros s. apply create_result_clamped.
Qed.

Lemma background_detect_clamped cfg img :
  returns_clamped (BackgroundDetector.detect cfg img).
Proof.
  apply guarded_detect_clamped. unfold BackgroundDetector.detect_body.
  apply returns_clamped_bind; intros a.
  apply returns_clamped_bind; intros normalized.
  apply returns_clamped_bind; intros dominant.
  apply returns_clamped_bind; intros coverage. apply create_result_clamped.
Qed.

Lemma composite_detect_clamped detectors img :
  returns_clamped (CompositeDetector.detect detectors img).
Proof.
  unfold CompositeDetector.detect. destruct detectors as [|d ds].
  - apply create_result_clamped.
  - destruct (fold_left _ _ _) as [results n].
    apply returns_clamped_bind; intros c.
    destruct (fold_left _ _ _) as [details all_issues].
    apply create_result_clamped.
Qed.

End DetectorsClamped.

(** C3. A result built by [_create_result] has its confidence in [0, 1]
    whatever float is passed (an infinity or [nan] included): 1.5 becomes
    1.0 and -0.5 becomes 0.0. Every result that [detect] returns, for the
    four detectors and for the composite, is built by this constructor and
    so has its confidence in [0, 1]. *)
Theorem confidence_clamped_at_construction :
  (∀ name p c d i, clamped (_create_result name p c d i))
  ∧ (∀ name p d i,
       DetectionResult.confidence (_create_result name p (NFin 1.5) d i) = 1%Q)
  ∧ (∀ name p d i,
       DetectionResult.confidence (_create_result name p (NFin (-0.5)) d i) = 0%Q)
  ∧ (∀ {py : PyBuiltins} {cv : OpenCV} {sk : SkLearn} {rng : NumpyRandom}
       bcfg ucfg gcfg rcfg detectors img,
       returns_clamped (BorderFillDetector.detect bcfg img)
       ∧ returns_clamped (UniformColorDetector.detect ucfg img)
       ∧ returns_clamped (BackgroundDetector.detect gcfg img)
       ∧ returns_clamped (RatioDetector.detect rcfg img)
       ∧ returns_clamped (CompositeDetector.detect detectors img)).
Proof.
  split; [exact create_result_clamped|].
  split; [reflexivity|]. split; [reflexivity|].
  intros. split; [apply border_fill_detect_clamped|].
  split; [apply uniform_color_detect_clamped|].
  split; [apply background_detect_clamped|].
  split; [apply ratio_detect_clamped|apply composite_detect_clamped].
Qed.

(** ** The batch summary *)

Lemma create_batch_summary_counts (image_analyses : list ImageAnalysis) :
  let s := BatchAnalyzer._create_batch_summary image_analyses in
  total_images s = len image_analyses
  ∧ problematic_images s
    = len (filter (λ a, ImageAnalysis.is_problematic a = true) image_analyses)
  ∧ passed_images s = (total_images s - problematic_images s)%Z.
Proof. cbn. rewrite py_sum_ones. repeat split. Qed.

(** The report of [process] carries the summary of its own analyses. *)
Lemma process_summary
    {py : PyBuiltins} {cv : OpenCV} {sk : SkLearn} {rng : NumpyRandom}
    {fs : FileSystem} (config : DetectionConfig) (folder_path : string) :
  match BatchAnalyzer.process config folder_path with
  | Return report =>
      summary report = BatchAnalyzer._create_batch_summary (analyses report)
      ∧ passed_images (summary report)
        = (total_images (summary report) - problematic_images (summary report))%Z
  | Raise _ => True
  end.
Proof.
  unfold BatchAnalyzer.process.
  destruct (find_images folder_path) as [e|paths]; [exact I|]. cbn [mbind res_bind].
  destruct (BatchAnalyzer._analyze_all_images config paths) as [e|image_analyses];
    [exact I|]. cbn [mbind res_bind summary analyses]. split; [reflexivity|].
  apply create_batch_summary_counts.
Qed.

(** C4. For every list of image analyses, the summary the batch analyzer
    builds has [total_images] equal to the length of the list,
    [problematic_images] equal to the number of analyses whose
    [is_problematic] flag is true, and
    [passed_images = total_images - problematic_images], which is never
    negative. *)
Theorem batch_summary_passed_is_total_minus_problematic
    (image_analyses : list ImageAnalysis) :
  let s := BatchAnalyzer._create_batch_summary image_analyses in
  total_images s = len image_analyses
  ∧ problematic_images s
    = len (filter (λ a, ImageAnalysis.is_problematic a = true) image_analyses)
  ∧ passed_images s = (total_images s - problematic_images s)%Z
  ∧ (0 <= passed_images s)%Z.
Proof.
  destruct (create_batch_summary_counts image_analyses) as (Ht & Hp & Hd).
  cbv zeta. split; [exact Ht|]. split; [exact Hp|]. split; [exact Hd|].
  rewrite Hd, Ht, Hp.
  pose proof (len_filter_le (λ a, ImageAnalysis.is_problematic a = true) image_analyses).
  lia.
Qed.

(** ** The composite *)

Lemma problematic_count_cons (r : DetectionResult) (rs : list DetectionResult) :
  problematic_count (r :: rs)
  = (int_of_bool (DetectionResult.is_problematic r) + problematic_count rs)%Z.
Proof.
  unfold problematic_count, len. rewrite filter_cons.
  destruct (DetectionResult.is_problematic r); case_decide; try done;
    cbn [length int_of_bool]; lia.
Qed.

Lemma run_step_eq (img : image) (acc : list DetectionResult) (n : Z) (d : Detector) :
  CompositeDetector.run_step img (acc, n) d
  = (acc ++ [sub_result img d],
     (n + int_of_bool (DetectionResult.is_problematic (sub_result img d)))%Z).
Proof.
  unfold CompositeDetector.run_step, sub_result.
  destruct (detect d img) as [e|r]; [reflexivity|].
  destruct (DetectionResult.is_problematic r); cbn [int_of_bool]; f_equal; lia.
Qed.

Lemma run_step_fold (img : image) (ds : list Detector)
    (acc : list DetectionResult) (n : Z) :
  fold_left (CompositeDetector.run_step img) ds (acc, n)
  = (acc ++ map (sub_result img) ds,
     (n + problematic_count (map (sub_result img) ds))%Z).
Proof.
  revert acc n. induction ds as [|d ds IH]; intros acc n.
  - cbn. rewrite app_nil_r. f_equal. unfold problematic_count, len. cbn. lia.
  - cbn [fold_left map]. rewrite run_step_eq, IH, <- app_assoc, problematic_count_cons.
    cbn [app]. f_equal. lia.
Qed.

Lemma merge_step_fold (drs : list (Detector * DetectionResult)) (d0 : dict)
    (acc : list string) :
  (fold_left CompositeDetector.merge_step drs (d0, acc)).2
  = acc ++ concat (map (λ dr, DetectionResult.issues dr.2) drs).
Proof.
  revert d0 acc. induction drs as [|[d r] drs IH]; intros d0 acc.
  - cbn. by rewrite app_nil_r.
  - cbn [fold_left map concat]. unfold CompositeDetector.merge_step at 2.
    cbn [snd]. destruct (DetectionResult.issues r) as [|i rest] eqn:E.
    + rewrite IH. done.
    + rewrite IH, <- app_assoc. done.
Qed.

Lemma map_snd_zip_map {A B} (f : A → B) (l : list A) :
  map snd (zip l (map f l)) = map f l.
Proof. induction l; cbn; congruence. Qed.

Lemma problematic_count_pos (rs : list DetectionResult) :
  (0 <? problematic_count rs)%Z = existsb DetectionResult.is_problematic rs.
Proof.
  induction rs as [|r rs IH]; [done|].
  rewrite problematic_count_cons. cbn [existsb]. rewrite <- IH.
  assert (0 <= problematic_count rs)%Z by (unfold problematic_count, len; lia).
  destruct (DetectionResult.is_problematic r); cbn [int_of_bool orb].
  - apply Z.ltb_lt. lia.
  - done.
Qed.

(** What [detect] returns for a non-empty list. *)
Lemma composite_detect_nonempty (d : Detector) (ds : list Detector) (img : image) :
  let subs := map (sub_result img) (d :: ds) in
  ∃ details,
    CompositeDetector.detect (d :: ds) img
    = Return (_create_result "composite" (0 <? problematic_count subs)%Z
                (NFin (inject_Z (problematic_count subs) / inject_Z (len (d :: ds))))
                details (concat (map DetectionResult.issues subs))).
Proof.
  intros subs. unfold CompositeDetector.detect. rewrite run_step_fold. fold subs.
  assert (0 < len (d :: ds))%Z as Hlen by (unfold len; cbn [length]; lia).
  rewrite py_truediv_pos by exact Hlen. cbn [mbind res_bind app].
  pose proof (merge_step_fold (zip (d :: ds) subs) ∅ []) as Hm.
  destruct (fold_left CompositeDetector.merge_step (zip (d :: ds) subs) (∅, []))
    as [details all_issues].
  cbn [snd app] in Hm. rewrite Hm, Z.add_0_l.
  rewrite <- (map_map snd DetectionResult.issues).
  unfold subs at 3. rewrite map_snd_zip_map. by exists details.
Qed.

(** Whatever its detectors do, the composite returns. *)
Lemma composite_never_raises (detectors : list Detector) (img : image) :
  ∃ r, CompositeDetector.detect detectors img = Return r.
Proof.
  destruct detectors as [|d ds]; [by eexists|].
  destruct (composite_detect_nonempty d ds img) as [details Hd]. by eexists.
Qed.

(** C2. For every list of sub-detectors and every image, the composite
    returns a result that is problematic exactly when some sub-result is,
    whose issues are the sub-results' issues concatenated in detector
    order, and whose confidence is the number of problematic sub-results
    divided by the number of sub-detectors; for the empty list the result
    is not problematic, with confidence 0 and empty details and issues. A
    sub-result is what the sub-detector returned, or the error result
    built from the exception it raised. *)
Theorem composite_detect_aggregates (detectors : list Detector) (img : image) :
  let subs := map (sub_result img) detectors in
  ∃ r, CompositeDetector.detect detectors img = Return r
    ∧ DetectionResult.is_problematic r = existsb DetectionResult.is_problematic subs
    ∧ DetectionResult.issues r = concat (map DetectionResult.issues subs)
    ∧ match detectors with
      | [] =>
          DetectionResult.is_problematic r = false
          ∧ DetectionResult.confidence r = 0%Q
          ∧ DetectionResult.details r = ∅
          ∧ DetectionResult.issues r = []
      | _ =>
          (DetectionResult.confidence r
           == inject_Z (problematic_count subs) / inject_Z (len detectors))%Q
      end.
Proof.
  intros subs. destruct detectors as [|d ds].
  - eexists. split; [reflexivity|]. cbn. done.
  - destruct (composite_detect_nonempty d ds img) as [details Hd]. fold subs in Hd.
    eexists. split; [exact Hd|].
    cbn [_create_result DetectionResult.is_problematic DetectionResult.issues
         DetectionResult.confidence clamp01].
    split; [apply problematic_count_pos|]. split; [reflexivity|].
    apply clamp_id. apply fraction_bounds; [|unfold len; cbn [length]; lia].
    pose proof (len_filter_le (λ r, DetectionResult.is_problematic r = true) subs) as Hc.
    unfold problematic_count. replace (len (d :: ds)) with (len subs); [exact Hc|].
    unfold subs, len. by rewrite length_map.
Qed.

(** ** Exceptions and the detectors *)

Lemma create_error_result_spec name e t :
  is_error_result name e (_create_error_result name e t).
Proof.
  unfold is_error_result, _create_error_result, _create_result.
  cbn [DetectionResult.is_problematic DetectionResult.confidence
       DetectionResult.details DetectionResult.issues].
  split; [done|]. split; [done|]. split; [|split; [|done]].
  - exists t. by rewrite lookup_insert_eq.
  - rewrite lookup_insert_ne by done. by rewrite lookup_insert_eq.
Qed.

Lemma validate_image_readable img :
  shape_readable img → ∃ b, image_utils.validate_image img = Return b.
Proof.
  destruct img as [| |e|a]; cbn; intros Hr.
  - by exists false.
  - by exists false.
  - rewrite Hr. by exists false.
  - match goal with |- context [if ?c then _ else _] => destruct c end;
      [by exists false|by exists true].
Qed.

Lemma guarded_detect_total (name error_type : string) (img : image)
    (body : res DetectionResult) :
  shape_readable img →
  ∃ r,
    (valid ← _validate_image img;
     if negb valid
     then Return (_create_error_result name (ValueError "Invalid image provided")
                    "invalid_image")
     else try_except body (λ e, Return (_create_error_result name e error_type)))
    = Return r
    ∧ ((∃ e, is_error_result name e r) ∨ body = Return r).
Proof.
  intros Hr. destruct (validate_image_readable img Hr) as [b Hb].
  unfold _validate_image. rewrite Hb. cbn [mbind res_bind].
  destruct b; cbn [negb].
  - destruct body as [e|r]; cbn [try_except]; eexists; (split; [reflexivity|]).
    + left. eexists. apply create_error_result_spec.
    + by right.
  - eexists. split; [reflexivity|]. left. eexists. apply create_error_result_spec.
Qed.

(** Away from the defect below: on an image whose [shape] can be read, the
    four detectors return, and an exception inside the body becomes the
    error result. *)
Lemma detectors_never_raise_on_readable_images
    {py : PyBuiltins} {cv : OpenCV} {sk : SkLearn} {rng : NumpyRandom}
    (bcfg : BorderFillConfig) (ucfg : UniformColorConfig)
    (gcfg : BackgroundDetectionConfig) (rcfg : RatioConfig) (img : image) :
  shape_readable img →
  (∃ r, BorderFillDetector.detect bcfg img = Return r
        ∧ ((∃ e, is_error_result "border_fill" e r)
           ∨ BorderFillDetector.detect_body bcfg img = Return r))
  ∧ (∃ r, UniformColorDetector.detect ucfg img = Return r
          ∧ ((∃ e, is_error_result "uniform_color" e r)
             ∨ UniformColorDetector.detect_body ucfg img = Return r))
  ∧ (∃ r, BackgroundDetector.detect gcfg img = Return r
          ∧ ((∃ e, is_error_result "background" e r)
             ∨ BackgroundDetector.detect_body gcfg img = Return r))
  ∧ (∃ r, RatioDetector.detect rcfg img = Return r
          ∧ ((∃ e, is_error_result "ratio" e r)
             ∨ RatioDetector.detect_body rcfg img = Return r)).
Proof.
  intros Hr. repeat split; apply guarded_detect_total; exact Hr.
Qed.

(** C1. The code at the input of [test_error_handling]: an image object
    whose [shape] property raises [Exception("Mock error")]. [detect] of the
    ratio, border-fill, uniform-colour and background detectors lets the
    exception reach the caller: [validate_image] runs before the [try]
    block, and [hasattr] only absorbs [AttributeError]. No error result is
    returned. *)
Theorem detect_propagates_exception_of_shape_property
    {py : PyBuiltins} {cv : OpenCV} {sk : SkLearn} {rng : NumpyRandom}
    (bcfg : BorderFillConfig) (ucfg : UniformColorConfig)
    (gcfg : BackgroundDetectionConfig) (rcfg : RatioConfig) :
  RatioDetector.detect rcfg mock_image = Raise (Exn "Exception" "Mock error")
  ∧ BorderFillDetector.detect bcfg mock_image = Raise (Exn "Exception" "Mock error")
  ∧ UniformColorDetector.detect ucfg mock_image = Raise (Exn "Exception" "Mock error")
  ∧ BackgroundDetector.detect gcfg mock_image = Raise (Exn "Exception" "Mock error").
Proof. repeat split. Qed.

(** ** The custom configuration *)

Lemma value_error_or_return_bind {A B} (m : res A) (f : A → res B) :
  value_error_or_return m → (∀ a, value_error_or_return (f a)) →
  value_error_or_return (m ≫= f).
Proof. intros Hm Hf. destruct m; [exact Hm|apply Hf]. Qed.

Section CustomConfig.
Context {py : PyBuiltins}.
Variable env : gmap string string.

Lemma get_environment_float_cases key default :
  value_error_or_return (_get_environment_float env key default).
Proof.
  unfold _get_environment_float, _get_environment_value, float_converter.
  destruct (getenv env key); destruct (py_float _); done.
Qed.

Lemma get_environment_int_cases key default :
  value_error_or_return (_get_environment_int env key default).
Proof.
  unfold _get_environment_int, _get_environment_value, int_converter.
  destruct (getenv env key); destruct (py_int _); done.
Qed.

Ltac config_cases :=
  repeat first
    [ apply value_error_or_return_bind;
      [first [apply get_environment_float_cases | apply get_environment_int_cases]
      |intros ?]
    | exact I ].

Lemma border_fill_config_cases :
  value_error_or_return (_create_border_fill_config_from_env env).
Proof. unfold _create_border_fill_config_from_env. config_cases. Qed.

Lemma uniform_color_config_cases :
  value_error_or_return (_create_uniform_color_config_from_env env).
Proof. unfold _create_uniform_color_config_from_env. config_cases. Qed.

Lemma background_config_cases :
  value_error_or_return (_create_background_config_from_env env).
Proof. unfold _create_background_config_from_env. config_cases. Qed.

Lemma get_environment_float_unparseable key default v :
  env !! key = Some v → py_float v = None →
  _get_environment_float env key default
  = Raise (ValueError ("could not convert string to float: " +:+ py_repr v)).
Proof.
  intros Hk Hv.
  unfold _get_environment_float, _get_environment_value, float_converter, getenv.
  by rewrite Hk, Hv.
Qed.

Lemma ratio_config_unparseable_tolerance v :
  env !! "PXG_RATIO_TOLERANCE" = Some v → py_float v = None →
  _create_ratio_config_from_env env
  = Raise (ValueError ("could not convert string to float: " +:+ py_repr v)).
Proof.
  intros Hk Hv. unfold _create_ratio_config_from_env.
  by rewrite (get_environment_float_unparseable _ _ v Hk Hv).
Qed.

(** A variable that is not set yields the converter applied to the text of
    the documented default. *)
Lemma get_environment_float_missing key default :
  env !! key = None →
  _get_environment_float env key default = float_converter (py_str_float default).
Proof.
  intros Hk. unfold _get_environment_float, _get_environment_value, getenv.
  by rewrite Hk.
Qed.

(** A boolean variable never raises, and when it is set it does not fall
    back: it is true exactly on the four accepted spellings. *)
Lemma get_environment_bool_set key default v :
  env !! key = Some v →
  _get_environment_bool env key default
  = bool_decide (py_lower v ∈ ["true"; "1"; "yes"; "on"]).
Proof. intros Hk. unfold _get_environment_bool, getenv. by rewrite Hk. Qed.

End CustomConfig.

(** C5. The code where the claim has it fall back: whenever
    [PXG_RATIO_TOLERANCE] is set to a text that [float] rejects, building
    the custom configuration raises a [ValueError]. The numeric getters
    apply the converter to the variable's text without catching its
    error; only the ratio list has the fallback. *)
Theorem custom_config_raises_on_unparseable_float {py : PyBuiltins}
    (env : gmap string string) (v : string) :
  env !! "PXG_RATIO_TOLERANCE" = Some v →
  py_float v = None →
  ∃ e, _create_custom_config env = Raise e ∧ exn_type e = "ValueError".
Proof.
  intros Hk Hv. unfold _create_custom_config.
  pose proof (border_fill_config_cases env) as Hb.
  destruct (_create_border_fill_config_from_env env) as [e|b]; [by exists e|].
  pose proof (uniform_color_config_cases env) as Hu.
  destruct (_create_uniform_color_config_from_env env) as [e|u]; [by exists e|].
  pose proof (background_config_cases env) as Hg.
  destruct (_create_background_config_from_env env) as [e|g]; [by exists e|].
  cbn [mbind res_bind].
  rewrite (ratio_config_unparseable_tolerance env v Hk Hv). cbn [mbind res_bind].
  eexists. split; reflexivity.
Qed.

(** The environment [PXG_RATIO_TOLERANCE=abc]. *)
Lemma custom_config_raises_on_abc :
  env_abc !! "PXG_RATIO_TOLERANCE" = Some "abc"
  ∧ Reference.parse_float "abc" = None
  ∧ ∃ e, _create_custom_config (py := Reference.builtins) env_abc = Raise e
         ∧ exn_type e = "ValueError".
Proof.
  split; [reflexivity|]. split; [reflexivity|].
  apply (custom_config_raises_on_unparseable_float (py := Reference.builtins)
           env_abc "abc"); reflexivity.
Defined.

(** With the reference built-ins: the exception raised on ["abc"], the
    fallback of the ratio list, and the configuration built from an empty
    environment. *)
Example custom_config_abc_exception :
  _create_custom_config (py := Reference.builtins) env_abc
  = Raise (ValueError "could not convert string to float: 'abc'").
Proof. vm_compute. reflexivity. Qed.

Example ratio_list_falls_back :
  _get_environment_ratios (py := Reference.builtins)
    {[ "PXG_RATIO_TARGET_RATIOS" := "invalid_format" ]}
    "PXG_RATIO_TARGET_RATIOS" default_target_ratios
  = default_target_ratios.
Proof. vm_compute. reflexivity. Qed.

Example custom_config_empty_environment :
  _create_custom_config (py := Reference.builtins) ∅
  = Return
      {| border_fill :=
           {| top_region_percentage := 0.1; bottom_region_percentage := 0.1;
              black_threshold := 30; white_threshold := 225;
              black_fill_threshold := 0.05; white_fill_threshold := 0.05;
              check_top := false; check_bottom := true;
              uniformity_required := 0.9 |};
         uniform_color := UniformColorConfig_default;
         background :=
           {| detection_method := "edge_based";
              corner_sample_percentage := 0.08; edge_sample_percentage := 0.05;
              background_coverage_threshold := 0.65;
              background_color_tolerance := 25;
              histogram_bins := 64; dominant_color_threshold := 0.6 |};
         ratio := RatioConfig_default;
         enabled_detectors := default_enabled_detectors |}.
Proof. vm_compute. reflexivity. Qed.

(** ** Border fill: the white thresholds *)

Section WhiteThresholds.
Context {py : PyBuiltins} {cv : OpenCV}.

Lemma analyze_border_region_white c1 c2 rows region_name height width :
  differ_only_in_white c1 c2 →
  BorderFillDetector._analyze_border_region c1 rows region_name height width
  = BorderFillDetector._analyze_border_region c2 rows region_name height width.
Proof.
  intros (Ht & Hb & Hk & Hf & _ & _ & Hu).
  unfold BorderFillDetector._analyze_border_region,
    BorderFillDetector._extract_region_pixels,
    BorderFillDetector._calculate_black_pixel_percentage,
    BorderFillDetector._has_uniform_color_fill.
  cbn [String.eqb Ascii.eqb Bool.eqb].
  rewrite Ht, Hb, Hk, Hf, Hu. reflexivity.
Qed.

Lemma check_region_white c1 c2 on key region_name rows height width st :
  differ_only_in_white c1 c2 →
  BorderFillDetector.check_region c1 on key region_name rows height width st
  = BorderFillDetector.check_region c2 on key region_name rows height width st.
Proof.
  intros Hd. unfold BorderFillDetector.check_region.
  by rewrite (analyze_border_region_white c1 c2).
Qed.

Lemma region_issues_black cfg rows region_name height width :
  Forall black_fill_issue
    (BorderFillDetector.region_issues
       (BorderFillDetector._analyze_border_region cfg rows region_name height width)).
Proof.
  unfold BorderFillDetector._analyze_border_region.
  cbn [BorderFillDetector.region_issues].
  destruct (_ && _); repeat constructor. by eexists _, _.
Qed.

Lemma check_region_issues_black cfg on key region_name rows height width st :
  Forall black_fill_issue st.1.1 →
  Forall black_fill_issue
    (BorderFillDetector.check_region cfg on key region_name rows height width st).1.1.
Proof.
  destruct st as [[issues details] n]. cbn [fst]. intros Hst.
  unfold BorderFillDetector.check_region. destruct on; [|exact Hst].
  destruct (BorderFillDetector.region_is_problematic _); cbn [fst]; [|exact Hst].
  apply Forall_app. split; [exact Hst|apply region_issues_black].
Qed.

Lemma detect_body_issues_black cfg img :
  match BorderFillDetector.detect_body cfg img with
  | Return r => Forall black_fill_issue (DetectionResult.issues r)
  | Raise _ => True
  end.
Proof.
  unfold BorderFillDetector.detect_body.
  destruct (as_array img) as [e|a]; [exact I|]. cbn [mbind res_bind].
  destruct (image_utils.convert_to_grayscale a) as [e|g]; [exact I|].
  cbn [mbind res_bind].
  destruct (BorderFillDetector.unpack_gray g) as [e|[[height width] rows]]; [exact I|].
  cbn [mbind res_bind].
  pose proof (check_region_issues_black cfg (check_bottom cfg) "bottom_border" "bottom"
                rows height width
                (BorderFillDetector.check_region cfg (check_top cfg) "top_border" "top"
                   rows height width ([], ∅, 0%Z))
                (check_region_issues_black cfg (check_top cfg) "top_border" "top"
                   rows height width ([], ∅, 0%Z) (Forall_nil_2 _))) as Hissues.
  destruct (BorderFillDetector.check_region cfg (check_bottom cfg) _ _ _ _ _ _)
    as [[issues details] n].
  destruct (BorderFillDetector._calculate_confidence_score cfg n) as [e|c]; [exact I|].
  exact Hissues.
Qed.

End WhiteThresholds.

(** C9. For every image and every two border-fill configurations that
    differ only in [white_threshold] and [white_fill_threshold], [detect]
    returns the same result (or raises the same exception); and every issue
    that the body of the detector records is a black-fill issue of a
    region: no white fill is ever reported. *)
Theorem border_fill_independent_of_white_thresholds
    {py : PyBuiltins} {cv : OpenCV} (c1 c2 : BorderFillConfig) (img : image) :
  differ_only_in_white c1 c2 →
  BorderFillDetector.detect c1 img = BorderFillDetector.detect c2 img
  ∧ match BorderFillDetector.detect_body c1 img with
    | Return r => Forall black_fill_issue (DetectionResult.issues r)
    | Raise _ => True
    end.
Proof.
  intros Hd. split; [|apply detect_body_issues_black].
  pose proof Hd as (_ & _ & _ & _ & Htop & Hbot & _).
  unfold BorderFillDetector.detect, BorderFillDetector.detect_body,
    BorderFillDetector._calculate_confidence_score.
  rewrite Htop, Hbot.
  destruct (_validate_image img) as [e|valid]; [reflexivity|].
  cbn [mbind res_bind]. destruct (negb valid); [reflexivity|]. f_equal.
  destruct (as_array img) as [e|a]; [reflexivity|]. cbn [mbind res_bind].
  destruct (image_utils.convert_to_grayscale a) as [e|g]; [reflexivity|].
  cbn [mbind res_bind].
  destruct (BorderFillDetector.unpack_gray g) as [e|[[height width] rows]];
    [reflexivity|]. cbn [mbind res_bind].
  rewrite !(check_region_white c1 c2) by exact Hd. reflexivity.
Qed.

(** Two configurations with different white thresholds, on the image with
    the black top border. *)
Lemma border_fill_same_under_other_white_thresholds :
  differ_only_in_white stated_border_config other_white_config
  ∧ BorderFillDetector.detect (py := Reference.builtins) (cv := Reference.opencv)
      stated_border_config (ImgArray top_black_bgr)
    = BorderFillDetector.detect (py := Reference.builtins) (cv := Reference.opencv)
        other_white_config (ImgArray top_black_bgr)
  ∧ match BorderFillDetector.detect_body (py := Reference.builtins)
            (cv := Reference.opencv) stated_border_config (ImgArray top_black_bgr) with
    | Return r => Forall black_fill_issue (DetectionResult.issues r)
    | Raise _ => True
    end.
Proof.
  split; [repeat split|].
  apply (border_fill_independent_of_white_thresholds
           (py := Reference.builtins) (cv := Reference.opencv)).
  repeat split.
Defined.

(** A white bottom border is not reported, whatever the white thresholds. *)
Example white_bottom_border_passes :
  ∃ r,
    BorderFillDetector.detect (py := Reference.builtins) (cv := Reference.opencv)
      stated_border_config
      (ImgArray (Arr2 100 (replicate 90 (replicate 100 128%Z)
                           ++ replicate 10 (replicate 100 255%Z))))
    = Return r
    ∧ DetectionResult.is_problematic r = false
    ∧ DetectionResult.issues r = [].
Proof. eexists. split; [vm_compute; reflexivity|]. split; reflexivity. Qed.

(** ** Border fill: the black top border *)

Lemma border_fill_gray_flags_black_top {py : PyBuiltins} {cv : OpenCV} :
  flags_black_top
    (BorderFillDetector.detect stated_border_config (ImgArray top_black_gray)).
Proof.
  destruct (BorderFillDetector.detect _ _) as [e|r] eqn:E; vm_compute in E;
    [discriminate|].
  injection E as <-.
  eexists. exists (Qmake 100000 1000). split; [reflexivity|].
  split; [reflexivity|]. split; [reflexivity|]. split; [reflexivity|].
  repeat constructor.
Qed.

(** C6, amended. With the border-fill configuration [black_threshold = 30],
    [black_fill_threshold = 0.05], [uniformity_required = 0.90], region
    fractions 0.1 and the top and bottom checks enabled (the configuration
    of the test fixture, not the one of the default mode), the detector on
    the 100x100 mid-grey image whose top 10 rows are 0 returns a problematic
    result whose one issue is "Top border has black fill: P%", P the
    formatting of 100: on the 2-D grey image, and on the 3-channel image
    when [cvtColor] maps it to that grey image. *)
Theorem border_fill_flags_black_top_under_stated_config
    {py : PyBuiltins} {cv : OpenCV} :
  cvtColor_BGR2GRAY top_black_bgr = Return top_black_gray →
  flags_black_top
    (BorderFillDetector.detect stated_border_config (ImgArray top_black_bgr))
  ∧ flags_black_top
      (BorderFillDetector.detect stated_border_config (ImgArray top_black_gray)).
Proof.
  intros Hgray. split; [|apply border_fill_gray_flags_black_top].
  destruct (border_fill_gray_flags_black_top) as (r & q & Hr & Hrest).
  exists r, q. split; [|exact Hrest]. rewrite <- Hr.
  unfold BorderFillDetector.detect, BorderFillDetector.detect_body,
    image_utils.convert_to_grayscale, image_utils.ensure_uint8.
  cbn [_validate_image image_utils.validate_image hasattr_shape get_shape as_array
       shape length mbind res_bind negb Nat.ltb Nat.leb Nat.eqb].
  rewrite Hgray. reflexivity.
Qed.

(** With the reference OpenCV, whose grey conversion maps the image to its
    grey image. *)
Lemma border_fill_flags_black_top_reference :
  cvtColor_BGR2GRAY (OpenCV := Reference.opencv) top_black_bgr = Return top_black_gray
  ∧ flags_black_top (py := Reference.builtins)
      (BorderFillDetector.detect (py := Reference.builtins) (cv := Reference.opencv)
         stated_border_config (ImgArray top_black_bgr))
  ∧ flags_black_top (py := Reference.builtins)
      (BorderFillDetector.detect (py := Reference.builtins) (cv := Reference.opencv)
         stated_border_config (ImgArray top_black_gray)).
Proof.
  split; [vm_compute; reflexivity|].
  apply (border_fill_flags_black_top_under_stated_config
           (py := Reference.builtins) (cv := Reference.opencv)).
  vm_compute; reflexivity.
Defined.

(** The configuration of the default mode has [black_threshold = 1] and
    leaves the top border unchecked: the image with the black top border
    passes. *)
Lemma default_mode_passes_black_top_border :
  ∃ cfg r,
    from_mode (py := Reference.builtins) ∅ DEFAULT = Return cfg
    ∧ black_threshold (border_fill cfg) = 1%Z
    ∧ check_top (border_fill cfg) = false
    ∧ BorderFillDetector.detect (py := Reference.builtins) (cv := Reference.opencv)
        (border_fill cfg) (ImgArray top_black_bgr) = Return r
    ∧ DetectionResult.is_problematic r = false
    ∧ DetectionResult.issues r = [].
Proof.
  eexists. eexists. split; [reflexivity|]. split; [reflexivity|]. split; [reflexivity|].
  split; [vm_compute; reflexivity|]. split; reflexivity.
Qed.

(** So do the defaults of the custom mode, whose [black_threshold] is 30. *)
Example custom_mode_defaults_pass_black_top_border :
  ∃ cfg r,
    from_mode (py := Reference.builtins) ∅ CUSTOM = Return cfg
    ∧ black_threshold (border_fill cfg) = 30%Z
    ∧ check_top (border_fill cfg) = false
    ∧ BorderFillDetector.detect (py := Reference.builtins) (cv := Reference.opencv)
        (border_fill cfg) (ImgArray top_black_bgr) = Return r
    ∧ DetectionResult.is_problematic r = false
    ∧ DetectionResult.issues r = [].
Proof.
  eexists. eexists. split; [vm_compute; reflexivity|].
  split; [reflexivity|]. split; [reflexivity|].
  split; [vm_compute; reflexivity|]. split; reflexivity.
Qed.

(** ** Aspect ratios: the order of floats *)

Ltac order_cases :=
  repeat match goal with
    | H : context [(?x ?= ?y)%Z] |- _ => destruct (Z.compare_spec x y); subst
    | |- context [(?x ?= ?y)%Z] => destruct (Z.compare_spec x y); subst
    | H : context [(?x ?= ?y)%positive] |- _ => destruct (Pos.compare_spec x y); subst
    | |- context [(?x ?= ?y)%positive] => destruct (Pos.compare_spec x y); subst
    end.

Lemma leb_ltb_trans (a b c : float64) :
  f64.leb a b = true → f64.ltb b c = true → f64.ltb a c = true.
Proof.
  unfold f64.leb, f64.ltb, SFleb, SFltb.
  destruct a as [[]|[]| |[] ma ea], b as [[]|[]| |[] mb eb], c as [[]|[]| |[] mc ec];
    cbn [SFcompare]; try done;
    change (Pos.compare_cont Eq ?x ?y) with (x ?= y)%positive;
    order_cases; cbn [CompOpp]; try done; try lia.
Qed.

Lemma ltb_leb_false (a b : float64) : f64.ltb a b = true → f64.leb b a = false.
Proof.
  unfold f64.leb, f64.ltb, SFleb, SFltb.
  destruct a as [[]|[]| |[] ma ea], b as [[]|[]| |[] mb eb];
    cbn [SFcompare]; try done;
    change (Pos.compare_cont Eq ?x ?y) with (x ?= y)%positive;
    order_cases; cbn [CompOpp]; try done; try lia.
Qed.

Lemma ltb_leb (a b : float64) : f64.ltb a b = true → f64.leb a b = true.
Proof. unfold f64.leb, f64.ltb, SFleb, SFltb. by destruct (SFcompare a b) as [[]|]. Qed.

(** A difference that is not below [d] is not within [d] of a value below
    [d]: what a smaller difference beats, it beats strictly. *)
Lemma not_ltb_not_leb (x u d : float64) :
  f64.ltb x d = false → f64.ltb u d = true → f64.leb x u = false.
Proof.
  intros Hx Hu. destruct (f64.leb x u) eqn:Hle; [|done].
  by rewrite (leb_ltb_trans x u d Hle Hu) in Hx.
Qed.

Lemma not_leb_not_leb (x u d : float64) :
  f64.leb x d = false → f64.ltb u d = true → f64.leb x u = false.
Proof.
  intros Hx Hu. destruct (f64.leb x u) eqn:Hle; [|done].
  by rewrite (ltb_leb x d (leb_ltb_trans x u d Hle Hu)) in Hx.
Qed.

(** The float model at the values of the defaults: [0.1], [110 / 100] and
    the difference [|110 / 100 - 1 / 1|], which exceeds [0.1]. *)
Example float_of_one_tenth :
  f64.of_Q 0.1 = S754_finite false 7205759403792794 (-56).
Proof. vm_compute. reflexivity. Qed.

Example float_of_eleven_tenths :
  py_truediv_float 110 100 = Return (S754_finite false 4953959590107546 (-52)).
Proof. vm_compute. reflexivity. Qed.

Example difference_of_eleven_tenths_and_one :
  f64.abs (f64.sub (f64.of_quotient 110 100) (f64.of_quotient 1 1))
  = S754_finite false 7205759403792800 (-56).
Proof. vm_compute. reflexivity. Qed.

(** ** Aspect ratios: first match, else closest *)

Section RatioMatching.
Context {py : PyBuiltins}.
Variable cfg : RatioConfig.
Variable actual : float64.

Lemma num_truediv_defined (w h : pynum) :
  ratio_defined (w, h) → num_truediv w h = Return (ratio_value (w, h)).
Proof. intros [v Hv]. unfold ratio_value. cbn [fst snd] in *. by rewrite Hv. Qed.

(** The loop stops at the first target within tolerance. *)
Lemma closest_loop_first_match targets t closest smallest :
  Forall ratio_defined targets →
  find (within_tolerance cfg actual) targets = Some t →
  RatioDetector.closest_loop cfg targets actual closest smallest = Return (Some t).
Proof.
  intros Hnz. revert closest smallest.
  induction Hnz as [|[w h] rest Hh Hrest IH]; intros closest smallest Hfind;
    [discriminate|].
  cbn [find] in Hfind. cbn [RatioDetector.closest_loop].
  rewrite (num_truediv_defined w h Hh). cbn [mbind res_bind].
  fold (difference actual (w, h)). fold (within_tolerance cfg actual (w, h)).
  destruct (within_tolerance cfg actual (w, h)).
  - by injection Hfind as <-.
  - destruct (f64.ltb _ _); by apply IH.
Qed.

(** One turn of the loop on a target out of tolerance keeps the state. *)
Lemma loop_state_step seen closest smallest t :
  loop_state actual seen closest smallest →
  if f64.ltb (difference actual t) smallest
  then loop_state actual (seen ++ [t]) (Some t) (difference actual t)
  else loop_state actual (seen ++ [t]) closest smallest.
Proof.
  unfold loop_state. destruct closest as [c|].
  - intros [-> (before & after & -> & Hfin & Hb & Ha)].
    destruct (f64.ltb (difference actual t) (difference actual c)) eqn:Hlt.
    + split; [done|]. exists (before ++ c :: after), []. split; [done|].
      split; [exact (leb_ltb_trans _ _ _ (ltb_leb _ _ Hlt) Hfin)|].
      split; [|constructor]. apply Forall_app. split; [|constructor].
      * eapply Forall_impl; [exact Hb|]. intros u Hu. cbn beta in Hu.
        by apply not_leb_not_leb with (difference actual c).
      * by apply ltb_leb_false.
      * eapply Forall_impl; [exact Ha|]. intros u Hu. cbn beta in Hu.
        by apply not_ltb_not_leb with (difference actual c).
    + split; [done|]. exists before, (after ++ [t]).
      split; [by rewrite <- app_assoc|]. split; [exact Hfin|]. split; [exact Hb|].
      apply Forall_app. split; [exact Ha|]. by repeat constructor.
  - intros [-> Hseen]. fold (finite_difference actual t).
    destruct (finite_difference actual t) eqn:Hfin.
    + split; [done|]. exists seen, []. split; [done|]. split; [exact Hfin|].
      split; [|constructor]. eapply Forall_impl; [exact Hseen|].
      intros u Hu. cbn beta in Hu. by apply not_ltb_not_leb with f64.inf.
    + split; [done|]. apply Forall_app. split; [exact Hseen|]. by repeat constructor.
Qed.

(** Without a match the loop ends in the state of the whole list. *)
Lemma closest_loop_no_match targets seen closest smallest :
  Forall ratio_defined targets →
  find (within_tolerance cfg actual) targets = None →
  loop_state actual seen closest smallest →
  ∃ final smallest',
    RatioDetector.closest_loop cfg targets actual closest smallest = Return final
    ∧ loop_state actual (seen ++ targets) final smallest'.
Proof.
  intros Hnz. revert seen closest smallest.
  induction Hnz as [|[w h] rest Hh Hrest IH]; intros seen closest smallest Hfind Hst.
  - exists closest, smallest. by rewrite app_nil_r.
  - cbn [find] in Hfind. cbn [RatioDetector.closest_loop].
    rewrite (num_truediv_defined w h Hh). cbn [mbind res_bind].
    fold (difference actual (w, h)). fold (within_tolerance cfg actual (w, h)).
    destruct (within_tolerance cfg actual (w, h)); [discriminate|].
    pose proof (loop_state_step seen closest smallest (w, h) Hst) as Hstep.
    replace (seen ++ (w, h) :: rest) with ((seen ++ [(w, h)]) ++ rest)
      by (by rewrite <- app_assoc).
    destruct (f64.ltb _ _); by apply IH.
Qed.

(** The closest target of a list is one of its targets, and a list with a
    closest target has a finite difference. *)
Lemma first_closest_elem targets t : first_closest actual targets t → t ∈ targets.
Proof. intros (before & after & -> & _). set_solver. Qed.

Lemma existsb_finite_difference targets :
  existsb (finite_difference actual) targets = false
  ↔ Forall (λ u, finite_difference actual u = false) targets.
Proof.
  induction targets as [|u targets IH]; [by split; [constructor|]|].
  cbn [existsb]. rewrite orb_false_iff, Forall_cons, IH. done.
Qed.

(** What the check of the ratio returns, by the end of the loop. *)
Lemma aspect_ratio_compliance_cases :
  Forall ratio_defined (target_ratios cfg) →
  match find (within_tolerance cfg actual) (target_ratios cfg) with
  | Some t =>
      RatioDetector._find_closest_target_ratio cfg actual = Return (Some t)
      ∧ RatioDetector._validate_aspect_ratio_compliance cfg actual = Return []
  | None =>
      if existsb (finite_difference actual) (target_ratios cfg)
      then
        ∃ t, first_closest actual (target_ratios cfg) t
          ∧ RatioDetector._find_closest_target_ratio cfg actual = Return (Some t)
          ∧ RatioDetector._validate_aspect_ratio_compliance cfg actual
            = Return [RatioDetector.closest_message actual t (ratio_value t)]
      else
        RatioDetector._find_closest_target_ratio cfg actual = Return None
        ∧ RatioDetector._validate_aspect_ratio_compliance cfg actual
          = Return [RatioDetector.mismatch_message actual]
  end.
Proof.
  intros Hnz.
  unfold RatioDetector._validate_aspect_ratio_compliance,
    RatioDetector._find_closest_target_ratio.
  destruct (target_ratios cfg) as [|t0 rest] eqn:Et; [done|].
  destruct (find _ _) as [t|] eqn:Hfind.
  - rewrite (closest_loop_first_match (t0 :: rest) t None f64.inf Hnz Hfind).
    split; [done|]. cbn [mbind res_bind].
    pose proof (find_some _ _ Hfind) as [Hin Hw].
    assert (ratio_defined t) as Ht
      by (by apply (proj1 (Forall_forall _ _) Hnz), list_elem_of_In).
    destruct t as [w h]. cbn [fst snd].
    rewrite (num_truediv_defined w h Ht). cbn [mbind res_bind].
    unfold RatioDetector._is_ratio_within_tolerance.
    fold (difference actual (w, h)). fold (within_tolerance cfg actual (w, h)).
    by rewrite Hw.
  - destruct (closest_loop_no_match (t0 :: rest) [] None f64.inf Hnz Hfind)
      as (final & smallest' & Hloop & Hst); [by split; [|constructor]|].
    rewrite Hloop. cbn [mbind res_bind app] in *.
    unfold loop_state in Hst. destruct final as [t|].
    + destruct Hst as [_ Hc].
      pose proof (first_closest_elem _ _ Hc) as Hin.
      assert (existsb (finite_difference actual) (t0 :: rest) = true) as ->.
      { apply existsb_exists. exists t. split; [by apply list_elem_of_In|].
        by destruct Hc as (before & after & _ & Hfin & _). }
      exists t. split; [exact Hc|]. split; [done|].
      assert (ratio_defined t) as Ht by (by apply (proj1 (Forall_forall _ _) Hnz)).
      apply list_elem_of_In in Hin. pose proof (find_none _ _ Hfind t Hin) as Hw.
      destruct t as [w h]. cbn [fst snd].
      rewrite (num_truediv_defined w h Ht). cbn [mbind res_bind].
      unfold RatioDetector._is_ratio_within_tolerance.
      fold (difference actual (w, h)). fold (within_tolerance cfg actual (w, h)).
      by rewrite Hw.
    + destruct Hst as [_ Hall]. apply existsb_finite_difference in Hall.
      by rewrite Hall.
Qed.

End RatioMatching.

(** C7, amended. With target ratios whose quotient [W / H] is computed (the
    height is not zero), and every quantity as the code computes it in
    binary64: the detector takes the first target, in configured order,
    whose difference from the actual ratio is within the tolerance, and
    records no ratio violation. If no target is within the tolerance and
    the difference of some target is finite, it records exactly one
    violation, the mismatch message with the annotation "Closest: <value>
    (W:H)" of the closest target: no target before it has a difference less
    than or equal to its own, none after it has a smaller one. If no
    difference is finite, as when the list is empty, it records exactly one
    violation, the mismatch message without annotation. *)
Theorem ratio_first_match_else_closest {py : PyBuiltins}
    (cfg : RatioConfig) (actual : float64) :
  Forall ratio_defined (target_ratios cfg) →
  match find (within_tolerance cfg actual) (target_ratios cfg) with
  | Some t =>
      RatioDetector._find_closest_target_ratio cfg actual = Return (Some t)
      ∧ RatioDetector._validate_aspect_ratio_compliance cfg actual = Return []
  | None =>
      if existsb (finite_difference actual) (target_ratios cfg)
      then
        ∃ t, first_closest actual (target_ratios cfg) t
          ∧ RatioDetector._find_closest_target_ratio cfg actual = Return (Some t)
          ∧ RatioDetector._validate_aspect_ratio_compliance cfg actual
            = Return [RatioDetector.closest_message actual t (ratio_value t)]
      else
        RatioDetector._find_closest_target_ratio cfg actual = Return None
        ∧ RatioDetector._validate_aspect_ratio_compliance cfg actual
          = Return [RatioDetector.mismatch_message actual]
  end.
Proof. apply aspect_ratio_compliance_cases. Qed.

(** The ratio 1.5 against 16:9, 4:3 and 1:1 with tolerance 0.05. *)
Lemma ratio_closest_for_three_halves :
  Forall ratio_defined (target_ratios strict_three_targets)
  ∧ ∃ t, first_closest (f64.of_Q 1.5) (target_ratios strict_three_targets) t
      ∧ RatioDetector._find_closest_target_ratio strict_three_targets (f64.of_Q 1.5)
        = Return (Some t)
      ∧ RatioDetector._validate_aspect_ratio_compliance (py := Reference.builtins)
          strict_three_targets (f64.of_Q 1.5)
        = Return [RatioDetector.closest_message (py := Reference.builtins)
                    (f64.of_Q 1.5) t (ratio_value t)].
Proof.
  assert (Forall ratio_defined (target_ratios strict_three_targets)) as Hdefined
    by (repeat constructor; by eexists).
  split; [exact Hdefined|].
  exact (ratio_first_match_else_closest (py := Reference.builtins)
           strict_three_targets (f64.of_Q 1.5) Hdefined).
Defined.

Example ratio_closest_for_three_halves_message :
  RatioDetector._validate_aspect_ratio_compliance (py := Reference.builtins)
    strict_three_targets (f64.of_Q 1.5)
  = Return ["Ratio 1.500 doesn't match any target ratios. Closest: 1.333 (4:3)"].
Proof. vm_compute. reflexivity. Qed.

(** The order decides among targets within tolerance: the first is taken,
    not the nearest. *)
Example ratio_first_match_is_not_nearest :
  RatioDetector._find_closest_target_ratio
    (ratio_with 0.5 (ints [(4, 3); (3, 2)]%Z) 100 100) (f64.of_Q 1.5)
  = Return (Some (PyInt 4, PyInt 3)).
Proof. vm_compute. reflexivity. Qed.

(** Rounding decides at the edge of the tolerance: the ratio of a 110x100
    image is [1.1], whose difference from [1 / 1] in binary64 exceeds the
    tolerance [0.1] of the defaults. *)
Example ratio_of_110_by_100_is_out_of_tolerance :
  (actual ← py_truediv_float 110 100;
   RatioDetector._validate_aspect_ratio_compliance (py := Reference.builtins)
     RatioConfig_default actual)
  = Return ["Ratio 1.100 doesn't match any target ratios. Closest: 1.000 (1:1)"].
Proof. vm_compute. reflexivity. Qed.

(** Rounding decides among targets at the same distance: the ratio of a
    1400x900 image is as far from [4 / 3] as from [16 / 9], and in binary64
    the difference from [16 / 9] is the smaller one. *)
Example ratio_of_1400_by_900_is_closest_to_16_by_9 :
  (actual ← py_truediv_float 1400 900;
   RatioDetector._validate_aspect_ratio_compliance (py := Reference.builtins)
     (ratio_with 0.1 (ints [(4, 3); (16, 9)]%Z) 100 100) actual)
  = Return ["Ratio 1.556 doesn't match any target ratios. Closest: 1.778 (16:9)"].
Proof. vm_compute. reflexivity. Qed.

(** A target of infinite ratio has no finite difference: the list is not
    empty and no closest target is named. *)
Example ratio_target_inf_names_no_closest :
  (actual ← py_truediv_float 100 100;
   RatioDetector._validate_aspect_ratio_compliance (py := Reference.builtins)
     (ratio_with 0.1 [(PyInf false, PyInt 1)] 100 100) actual)
  = Return ["Ratio 1.000 doesn't match any target ratios"].
Proof. vm_compute. reflexivity. Qed.

(** With no target configured, no target is within tolerance, and the one
    violation recorded names no closest target. *)
Lemma ratio_empty_targets_name_no_closest :
  let cfg := ratio_with 0.1 [] 100 100 in
  find (within_tolerance cfg (f64.of_Q 1)) (target_ratios cfg) = None
  ∧ ∃ msg,
      RatioDetector._validate_aspect_ratio_compliance (py := Reference.builtins) cfg
        (f64.of_Q 1)
      = Return [msg]
      ∧ msg = "Ratio 1.000 doesn't match any target ratios"
      ∧ str_contains "Closest" msg = false.
Proof.
  split; [reflexivity|]. eexists. split; [vm_compute; reflexivity|].
  split; reflexivity.
Qed.

(** ** Uniform colour: coverage and verdict *)

Section Coverage.
Context {py : PyBuiltins} {cv : OpenCV} {sk : SkLearn} {rng : NumpyRandom}.
Variable cfg : UniformColorConfig.

Lemma within_delta_matches c p :
  within_delta (color_delta_threshold cfg) c p = true ↔ matches_dominant cfg c p.
Proof.
  unfold within_delta, matches_dominant, channel_differences.
  rewrite !andb_true_iff, !Qle_bool_iff. split.
  - intros [[H1 H2] H3]. repeat constructor; assumption.
  - intros Hall. inversion Hall as [|? ? H1 Hall1]; subst.
    inversion Hall1 as [|? ? H2 Hall2]; subst.
    inversion Hall2 as [|? ? H3 _]; subst. done.
Qed.

(** Every pixel passes the finiteness mask. *)
Lemma all_pixels_valid (c : color) (pixels : list pixel) :
  map fst
    (filter (λ pm : pixel * bool, pm.2 = true)
       (zip pixels (map (λ p, isfinite_pixel p && isfinite_color c) pixels)))
  = pixels.
Proof.
  change (map (λ p, isfinite_pixel p && isfinite_color c) pixels)
    with (map (λ _ : pixel, true) pixels).
  induction pixels as [|p pixels IH]; [done|].
  cbn [map zip zip_with]. rewrite filter_cons.
  case_decide; [|done]. cbn [map fst]. f_equal. exact IH.
Qed.

Lemma coverage_is_matching_fraction c pixels :
  pixels ≠ [] →
  UniformColorDetector._calculate_color_uniformity_coverage cfg pixels c
  = matching_fraction cfg c pixels.
Proof.
  intros Hne. destruct pixels as [|p pixels]; [done|].
  unfold UniformColorDetector._calculate_color_uniformity_coverage.
  cbv beta iota zeta.
  assert (existsb id (map (λ p0, isfinite_pixel p0 && isfinite_color c) (p :: pixels))
          = true) as -> by reflexivity.
  cbn [negb]. rewrite all_pixels_valid.
  destruct (Z.eqb_spec (len (p :: pixels)) 0) as [Hz|_];
    [unfold len in Hz; cbn [length] in Hz; lia|].
  unfold matching_fraction. rewrite py_sum_indicator. do 3 f_equal.
  apply list_filter_iff. intros x. apply within_delta_matches.
Qed.

Lemma coverage_bounds c pixels :
  (0 <= UniformColorDetector._calculate_color_uniformity_coverage cfg pixels c <= 1)%Q.
Proof.
  destruct pixels as [|p pixels]; [cbn; lra|].
  rewrite coverage_is_matching_fraction by done. unfold matching_fraction.
  apply fraction_bounds; [apply len_filter_le|]. unfold len. cbn [length]. lia.
Qed.

(** An image that can be sampled has passed the validation. *)
Lemma sample_image_valid img s :
  UniformColorDetector.sample_image cfg img = Return s →
  image_utils.validate_image img = Return true.
Proof.
  unfold UniformColorDetector.sample_image. destruct img as [| |e|a]; try done.
  cbn [as_array mbind res_bind].
  unfold _ensure_3channel_bgr, image_utils.ensure_3channel_bgr,
    image_utils.ensure_uint8.
  destruct a as [xs|w rows|w c rows]; cbn [shape]; done.
Qed.

Lemma detect_of_sample img s :
  UniformColorDetector.sample_image cfg img = Return s →
  UniformColorDetector.detect cfg img = Return (UniformColorDetector.report cfg s).
Proof.
  intros Hs. unfold UniformColorDetector.detect, _validate_image.
  rewrite (sample_image_valid img s Hs). cbn [mbind res_bind negb].
  unfold UniformColorDetector.detect_body. by rewrite Hs.
Qed.

End Coverage.

(** C8. Whenever the image can be normalised, sampled and converted, the
    coverage the detector computes is the fraction of the valid sampled
    pixels whose absolute difference from the dominant colour is at most
    [color_delta_threshold] on every channel (0 when there is no sampled
    pixel); the result is problematic exactly when the coverage is at
    least [uniform_coverage_threshold], and its confidence is the
    coverage. *)
Theorem uniform_color_coverage_decides
    {py : PyBuiltins} {cv : OpenCV} {sk : SkLearn} {rng : NumpyRandom}
    (cfg : UniformColorConfig) (img : image) :
  match UniformColorDetector.sample_image cfg img with
  | Return s =>
      let coverage :=
        UniformColorDetector._calculate_color_uniformity_coverage cfg
          (UniformColorDetector.color_space_pixels s)
          (UniformColorDetector.most_common_color s) in
      coverage
      = match UniformColorDetector.color_space_pixels s with
        | [] => 0%Q
        | valid => matching_fraction cfg (UniformColorDetector.most_common_color s) valid
        end
      ∧ ∃ r, UniformColorDetector.detect cfg img = Return r
          ∧ DetectionResult.is_problematic r
            = Qle_bool (uniform_coverage_threshold cfg) coverage
          ∧ (DetectionResult.confidence r == coverage)%Q
  | Raise e => True
  end.
Proof.
  destruct (UniformColorDetector.sample_image cfg img) as [e|s] eqn:Hs; [exact I|].
  cbv zeta. split.
  - destruct (UniformColorDetector.color_space_pixels s) as [|p ps] eqn:Ep; [done|].
    by apply coverage_is_matching_fraction.
  - rewrite (detect_of_sample cfg img s Hs).
    eexists. split; [reflexivity|]. split; [reflexivity|].
    apply clamp_id, coverage_bounds.
Qed.

(** The constant 100x100 image is sampled and flagged, with coverage 1;
    one pixel out of three differing by more than the threshold brings the
    coverage to 2/3. *)
Example uniform_color_constant_image_flagged :
  ∃ s r,
    UniformColorDetector.sample_image
      (cv := Reference.opencv) (sk := Reference.sklearn)
      (rng := Reference.numpy_random)
      (uniform_with "RGB" 15 0.85 true) (ImgArray large_gray_image) = Return s
    ∧ len (UniformColorDetector.sampled_pixels s) = 1000%Z
    ∧ UniformColorDetector.detect
        (py := Reference.builtins) (cv := Reference.opencv)
        (sk := Reference.sklearn) (rng := Reference.numpy_random)
        (uniform_with "RGB" 15 0.85 true) (ImgArray large_gray_image) = Return r
    ∧ DetectionResult.is_problematic r = true
    ∧ DetectionResult.confidence r = 1%Q.
Proof.
  eexists. eexists. split; [vm_compute; reflexivity|].
  split; [reflexivity|]. split; [vm_compute; reflexivity|]. split; reflexivity.
Qed.

Example coverage_two_thirds :
  (UniformColorDetector._calculate_color_uniformity_coverage
     (uniform_with "RGB" 15 0.85 false)
     [(100, 100, 100); (110, 95, 100); (100, 100, 140)]%Z (100, 100, 100)%Q
   == 2 # 3)%Q.
Proof. vm_compute. reflexivity. Qed.

(** ** Uniform colour: the empty interior *)

Lemma py_slice_zero_margin {A} (l : list A) :
  py_slice (Some 0%Z) (Some (- 0)%Z) l = [].
Proof.
  unfold py_slice, slice_index.
  change (- 0)%Z with 0%Z. change (0 <? 0)%Z with false. cbv iota.
  assert (0 <= len l)%Z as Hl by (unfold len; lia).
  destruct (Z.ltb_spec (len l) 0); [lia|]. reflexivity.
Qed.

Lemma concat_nils {A} (ls : list (list A)) :
  Forall (λ l, l = []) ls → concat ls = [].
Proof. induction 1 as [|l ls -> _ IH]; [done|]. exact IH. Qed.

(** A zero margin in either dimension leaves no value in the interior. *)
Lemma flat_empty_interior (a b : ndarray) (vm hm : Z) :
  slice2 a (Some vm) (Some (- vm)%Z) (Some hm) (Some (- hm)%Z) = Return b →
  vm = 0%Z ∨ hm = 0%Z →
  flat b = [].
Proof.
  intros Hs Hm. destruct a as [xs|w rows|w c rows]; [discriminate| |];
    injection Hs as <-; cbn [flat].
  - destruct Hm as [-> | ->].
    + by rewrite py_slice_zero_margin.
    + apply concat_nils, Forall_map, Forall_forall. intros row _.
      apply py_slice_zero_margin.
  - destruct Hm as [-> | ->].
    + by rewrite py_slice_zero_margin.
    + rewrite (concat_nils (map _ _)); [done|].
      apply Forall_map, Forall_forall. intros row _. apply py_slice_zero_margin.
Qed.

Section EmptyInterior.
Context {py : PyBuiltins} {cv : OpenCV} {sk : SkLearn} {rng : NumpyRandom}.
Variable cfg : UniformColorConfig.

Lemma extract_empty_interior (a : ndarray) (height width : Z) :
  ignore_edges cfg = true →
  shape2 a = Return (height, width) →
  vertical_margin cfg height = 0%Z ∨ horizontal_margin cfg width = 0%Z →
  (0 <= sample_size cfg)%Z →
  UniformColorDetector._extract_representative_pixels cfg a = Return [].
Proof.
  intros Hedges Hshape Hmargin Hsize.
  unfold UniformColorDetector._extract_representative_pixels.
  rewrite Hshape, Hedges. cbn [mbind res_bind].
  fold (vertical_margin cfg height). fold (horizontal_margin cfg width).
  destruct (slice2 a _ _ _ _) as [e|interior] eqn:Hslice.
  - destruct a; [discriminate Hshape|discriminate Hslice|discriminate Hslice].
  - cbn [mbind res_bind]. unfold reshape_m1_3.
    rewrite (flat_empty_interior a interior _ _ Hslice Hmargin).
    cbn [chunks3 mbind res_bind].
    unfold UniformColorDetector._limit_sample_size_if_needed.
    destruct (Z.ltb_spec (sample_size cfg) (len (@nil pixel)));
      [unfold len in *; cbn [length] in *; lia|reflexivity].
Qed.

(** The sampling of an image whose interior is empty. *)
Lemma sample_empty_interior (a normalized : ndarray) (height width : Z) :
  ignore_edges cfg = true →
  _ensure_3channel_bgr a = Return normalized →
  shape2 normalized = Return (height, width) →
  vertical_margin cfg height = 0%Z ∨ horizontal_margin cfg width = 0%Z →
  (0 <= sample_size cfg)%Z →
  UniformColorDetector.sample_image cfg (ImgArray a)
  = Return {| UniformColorDetector.total_pixel_count := (height * width)%Z;
              UniformColorDetector.sampled_pixels := [];
              UniformColorDetector.color_space_pixels := [];
              UniformColorDetector.most_common_color := (0, 0, 0)%Q |}.
Proof.
  intros Hedges Hnorm Hshape Hmargin Hsize.
  unfold UniformColorDetector.sample_image. cbn [as_array mbind res_bind].
  rewrite Hnorm. cbn [mbind res_bind]. rewrite Hshape. cbn [mbind res_bind].
  rewrite (extract_empty_interior normalized height width) by assumption.
  reflexivity.
Qed.

End EmptyInterior.

(** C10, amended. When [ignore_edges] is enabled and the edge margin
    truncates to zero in either dimension, for every image that normalises
    to three channels, with a sample size that is not negative and a
    coverage threshold that is positive: no pixel is sampled, and the
    detector returns [is_problematic = false] with confidence 0.0 and no
    issue, regardless of pixel content. *)
Theorem uniform_color_empty_interior_passes
    {py : PyBuiltins} {cv : OpenCV} {sk : SkLearn} {rng : NumpyRandom}
    (cfg : UniformColorConfig) (a normalized : ndarray) (height width : Z) :
  ignore_edges cfg = true →
  _ensure_3channel_bgr a = Return normalized →
  shape2 normalized = Return (height, width) →
  vertical_margin cfg height = 0%Z ∨ horizontal_margin cfg width = 0%Z →
  (0 <= sample_size cfg)%Z →
  (0 < uniform_coverage_threshold cfg)%Q →
  ∃ r, UniformColorDetector.detect cfg (ImgArray a) = Return r
    ∧ DetectionResult.is_problematic r = false
    ∧ DetectionResult.confidence r = 0%Q
    ∧ DetectionResult.issues r = []
    ∧ DetectionResult.details r !! "sample_count" = Some (VInt 0).
Proof.
  intros Hedges Hnorm Hshape Hmargin Hsize Hthr.
  rewrite (detect_of_sample cfg _ _
             (sample_empty_interior cfg a normalized height width
                Hedges Hnorm Hshape Hmargin Hsize)).
  eexists. split; [reflexivity|].
  unfold UniformColorDetector.report.
  cbn [UniformColorDetector.color_space_pixels UniformColorDetector.sampled_pixels
       UniformColorDetector._calculate_color_uniformity_coverage].
  assert (Qle_bool (uniform_coverage_threshold cfg) 0 = false) as ->.
  { destruct (Qle_bool _ 0) eqn:Hle; [|done].
    apply Qle_bool_iff in Hle. lra. }
  split; [reflexivity|]. split; [reflexivity|]. split; [reflexivity|].
  unfold _create_result, UniformColorDetector._build_uniformity_analysis_details.
  cbn [DetectionResult.details].
  rewrite !lookup_insert_ne by done. by rewrite lookup_insert_eq.
Qed.

(** The default configuration on a constant 10x10 image: the margin
    [int(10 * 0.02)] is 0. *)
Lemma uniform_color_small_constant_image_passes :
  ignore_edges UniformColorConfig_default = true
  ∧ vertical_margin UniformColorConfig_default 10 = 0%Z
  ∧ ∃ r, UniformColorDetector.detect
           (py := Reference.builtins) (cv := Reference.opencv)
           (sk := Reference.sklearn) (rng := Reference.numpy_random)
           UniformColorConfig_default (ImgArray small_gray_image) = Return r
      ∧ DetectionResult.is_problematic r = false
      ∧ DetectionResult.confidence r = 0%Q
      ∧ DetectionResult.issues r = []
      ∧ DetectionResult.details r !! "sample_count" = Some (VInt 0).
Proof.
  split; [reflexivity|]. split; [reflexivity|].
  apply (uniform_color_empty_interior_passes
           (py := Reference.builtins) (cv := Reference.opencv)
           (sk := Reference.sklearn) (rng := Reference.numpy_random)
           UniformColorConfig_default small_gray_image small_gray_image 10 10).
  - reflexivity.
  - reflexivity.
  - reflexivity.
  - left. reflexivity.
  - cbn. lia.
  - reflexivity.
Defined.

(** A coverage threshold of zero flags the image whose interior is empty:
    the coverage 0.0 reaches the threshold. *)
Lemma uniform_color_zero_threshold_flags_empty_interior :
  let cfg := uniform_with "LAB" 15 0 true in
  ignore_edges cfg = true
  ∧ vertical_margin cfg 10 = 0%Z
  ∧ ∃ r, UniformColorDetector.detect
           (py := Reference.builtins) (cv := Reference.opencv)
           (sk := Reference.sklearn) (rng := Reference.numpy_random)
           cfg (ImgArray small_gray_image) = Return r
      ∧ DetectionResult.is_problematic r = true
      ∧ DetectionResult.confidence r = 0%Q
      ∧ DetectionResult.issues r = ["Image is 0.0% uniform color (threshold: 0.0%)"].
Proof.
  split; [reflexivity|]. split; [reflexivity|].
  eexists. split; [vm_compute; reflexivity|]. repeat split.
Qed.

(** ** The analysis record *)

(** X1. Adding detection results to an analysis one after the other appends
    them in order to [detection_results] and latches [is_problematic]: the
    flag is true afterwards exactly when it was true before or one of the
    added results is problematic. The path and the dimensions are kept. *)
Theorem add_detection_results_appends_and_latches
    (a : ImageAnalysis) (rs : list DetectionResult) :
  let a' := fold_left ImageAnalysis.add_detection_result rs a in
  ImageAnalysis.detection_results a' = ImageAnalysis.detection_results a ++ rs
  ∧ ImageAnalysis.is_problematic a'
    = ImageAnalysis.is_problematic a || existsb DetectionResult.is_problematic rs
  ∧ ImageAnalysis.file_path a' = ImageAnalysis.file_path a
  ∧ ImageAnalysis.width a' = ImageAnalysis.width a
  ∧ ImageAnalysis.height a' = ImageAnalysis.height a.
Proof.
  cbv zeta. revert a. induction rs as [|r rs IH]; intros a.
  - cbn. rewrite app_nil_r, orb_false_r. done.
  - cbn [fold_left existsb]. destruct (IH (ImageAnalysis.add_detection_result a r))
      as (Hr & Hp & Hf & Hw & Hh).
    rewrite Hr, Hp, Hf, Hw, Hh. cbn. rewrite <- app_assoc. cbn.
    repeat split. destruct (DetectionResult.is_problematic r); cbn.
    + by rewrite orb_true_r.
    + done.
Qed.

(** ** The image analyzer *)

Section ImageAnalyzerProperties.
Context {py : PyBuiltins} {cv : OpenCV} {sk : SkLearn} {rng : NumpyRandom}
        {fs : FileSystem}.
Variable cfg : DetectionConfig.

Lemma detector_factory_map_some (n : string) (d : Detector) :
  ImageAnalyzer.detector_factory_map cfg n = Some d → name d = n ∧ n ∈ known_detectors.
Proof.
  unfold ImageAnalyzer.detector_factory_map, known_detectors.
  repeat (match goal with
          | |- context [String.eqb n ?s] => destruct (String.eqb_spec n s) as [->|?]
          end;
          [intros [= <-]; split; [reflexivity|apply list_elem_of_In; cbn; tauto]|]).
  intros [=].
Qed.

Lemma detector_factory_map_none (n : string) :
  ImageAnalyzer.detector_factory_map cfg n = None → n ∉ known_detectors.
Proof.
  unfold ImageAnalyzer.detector_factory_map, known_detectors.
  repeat (match goal with
          | |- context [String.eqb n ?s] => destruct (String.eqb_spec n s) as [->|?]
          end; [intros [=]|]).
  intros _ Hin. apply list_elem_of_In in Hin. cbn in Hin. intuition congruence.
Qed.

(** X2. The composite that [_build_detector] creates holds one detector
    for every entry of [enabled_detectors] that is one of the four known
    names, in the order of the entries (an entry listed twice gives two
    detectors); an unknown name is skipped. Each detector is the one the
    factory table makes for its own name. *)
Theorem build_detector_follows_enabled_detectors :
  map name (ImageAnalyzer._build_detector cfg)
  = filter (λ n, n ∈ known_detectors) (enabled_detectors cfg)
  ∧ Forall (λ d, ImageAnalyzer.detector_factory_map cfg (name d) = Some d)
      (ImageAnalyzer._build_detector cfg).
Proof.
  unfold ImageAnalyzer._build_detector.
  induction (enabled_detectors cfg) as [|n ns [IHn IHd]]; [by split|].
  cbn [omap list_omap]. rewrite filter_cons.
  destruct (ImageAnalyzer.detector_factory_map cfg n) as [d|] eqn:E.
  - destruct (detector_factory_map_some n d E) as [Hn Hk].
    case_decide; [|done]. cbn [map]. rewrite Hn, IHn. split; [done|].
    constructor; [by rewrite Hn|exact IHd].
  - pose proof (detector_factory_map_none n E). case_decide; [done|]. by split.
Qed.

(** X3. [analyze] raises only what loading the file raises, or the
    unpacking of the shape of a one-dimensional array; no exception of a
    detector aborts it. Otherwise it returns the analysis of the path with
    the width and the height of the loaded array, whose only detection
    result is the result of the composite, and whose flag is the flag of
    that result. *)
Theorem analyze_returns_the_composite_result (image_path : string) :
  match load image_path with
  | Raise e => ImageAnalyzer.analyze cfg image_path = Raise e
  | Return loaded_image =>
      match shape2 loaded_image with
      | Raise e => ImageAnalyzer.analyze cfg image_path = Raise e
      | Return (height, width) =>
          ∃ r,
            CompositeDetector.detect (ImageAnalyzer._build_detector cfg)
              (ImgArray loaded_image) = Return r
            ∧ ImageAnalyzer.analyze cfg image_path
              = Return (ImageAnalysis.mk image_path width height [r]
                          (DetectionResult.is_problematic r))
      end
  end.
Proof.
  unfold ImageAnalyzer.analyze.
  destruct (load image_path) as [e|img]; [reflexivity|]. cbn [mbind res_bind].
  destruct (shape2 img) as [e|[height width]]; [reflexivity|]. cbn [mbind res_bind].
  destruct (composite_never_raises (ImageAnalyzer._build_detector cfg) (ImgArray img))
    as [r Hr].
  exists r. split; [exact Hr|]. rewrite Hr. cbn [mbind res_bind].
  unfold ImageAnalysis.add_detection_result, ImageAnalyzer._create_initial_analysis.
  cbn. by destruct (DetectionResult.is_problematic r).
Qed.

Lemma analyze_file_path (image_path : string) (a : ImageAnalysis) :
  ImageAnalyzer.analyze cfg image_path = Return a → ImageAnalysis.file_path a = image_path.
Proof.
  unfold ImageAnalyzer.analyze.
  destruct (load image_path) as [e|img]; [discriminate|]. cbn [mbind res_bind].
  destruct (shape2 img) as [e|[height width]]; [discriminate|]. cbn [mbind res_bind].
  destruct (CompositeDetector.detect _ _) as [e|r]; [discriminate|].
  cbn [mbind res_bind]. by intros [= <-].
Qed.

Lemma analyze_returns_inv (image_path : string) (analysis : ImageAnalysis) :
  ImageAnalyzer.analyze cfg image_path = Return analysis →
  ∃ r loaded_image,
    CompositeDetector.detect (ImageAnalyzer._build_detector cfg) (ImgArray loaded_image)
    = Return r
    ∧ ImageAnalysis.detection_results analysis = [r]
    ∧ ImageAnalysis.is_problematic analysis = DetectionResult.is_problematic r.
Proof.
  unfold ImageAnalyzer.analyze.
  destruct (load image_path) as [e|img]; [discriminate|]. cbn [mbind res_bind].
  destruct (shape2 img) as [e|[height width]]; [discriminate|]. cbn [mbind res_bind].
  destruct (CompositeDetector.detect _ _) as [e|r] eqn:Hr; [discriminate|].
  cbn [mbind res_bind]. intros [= <-]. exists r, img. split; [exact Hr|].
  unfold ImageAnalysis.add_detection_result, ImageAnalyzer._create_initial_analysis.
  cbn. by destruct (DetectionResult.is_problematic r).
Qed.

(** ** The batch analyzer *)

Lemma analyze_all_images_cases (image_paths : list string) :
  match BatchAnalyzer._analyze_all_images cfg image_paths with
  | Return image_analyses =>
      Forall2 (λ p a, ImageAnalyzer.analyze cfg p = Return a) image_paths image_analyses
  | Raise e =>
      ∃ before p after,
        image_paths = before ++ p :: after
        ∧ Forall (λ q, ∃ a, ImageAnalyzer.analyze cfg q = Return a) before
        ∧ ImageAnalyzer.analyze cfg p = Raise e
  end.
Proof.
  induction image_paths as [|p ps IH]; [constructor|].
  cbn [BatchAnalyzer._analyze_all_images]. unfold BatchAnalyzer._analyze_single_image.
  destruct (ImageAnalyzer.analyze cfg p) as [e|a] eqn:Ea; cbn [mbind res_bind].
  - exists [], p, ps. by repeat split.
  - destruct (BatchAnalyzer._analyze_all_images cfg ps) as [e|rest];
      cbn [mbind res_bind].
    + destruct IH as (before & q & after & -> & Hb & Hq).
      exists (p :: before), q, after. split; [done|]. split; [|done].
      constructor; [by exists a|exact Hb].
    + by constructor.
Qed.

(** X4. [process] raises what the file finder raises. When the finder
    returns the paths, the batch either returns a report with one analysis
    per path, in the order of the paths (each the analysis [analyze] returns
    for its path), and [total_images] the number of paths; or it raises the
    exception of the first path whose analysis raises: one unreadable file
    aborts the whole batch, and no report is returned. *)
Theorem batch_process_all_or_nothing (folder_path : string) :
  match find_images folder_path with
  | Raise e => BatchAnalyzer.process cfg folder_path = Raise e
  | Return image_paths =>
      match BatchAnalyzer.process cfg folder_path with
      | Return report =>
          Forall2 (λ p a, ImageAnalyzer.analyze cfg p = Return a)
            image_paths (analyses report)
          ∧ map ImageAnalysis.file_path (analyses report) = image_paths
          ∧ total_images (summary report) = len image_paths
      | Raise e =>
          ∃ before p after,
            image_paths = before ++ p :: after
            ∧ Forall (λ q, ∃ a, ImageAnalyzer.analyze cfg q = Return a) before
            ∧ ImageAnalyzer.analyze cfg p = Raise e
      end
  end.
Proof.
  unfold BatchAnalyzer.process.
  destruct (find_images folder_path) as [e|paths]; [reflexivity|]. cbn [mbind res_bind].
  pose proof (analyze_all_images_cases paths) as Hall.
  destruct (BatchAnalyzer._analyze_all_images cfg paths) as [e|image_analyses];
    cbn [mbind res_bind]; [exact Hall|].
  cbn [analyses summary]. split; [exact Hall|].
  assert (map ImageAnalysis.file_path image_analyses = paths) as Hpaths.
  { induction Hall as [|p a ps rest Ha _ IH]; [done|].
    cbn [map]. by rewrite (analyze_file_path p a Ha), IH. }
  split; [exact Hpaths|].
  cbn. unfold len. by rewrite <- Hpaths, length_map.
Qed.

End ImageAnalyzerProperties.

(** ** The composite: details and the list of detectors *)

Lemma merge_step_details (drs : list (Detector * DetectionResult)) (d0 : dict)
    (acc : list string) (n : string) :
  (fold_left CompositeDetector.merge_step drs (d0, acc)).1 !! n
  = match last (filter (λ dr : Detector * DetectionResult, name dr.1 = n) drs) with
    | Some dr => Some (VDict (DetectionResult.details dr.2))
    | None => d0 !! n
    end.
Proof.
  revert d0 acc. induction drs as [|[d r] drs IH]; intros d0 acc; [done|].
  cbn [fold_left]. unfold CompositeDetector.merge_step at 2.
  rewrite IH, filter_cons. cbn [fst].
  destruct (decide (name d = n)) as [<-|Hne].
  - rewrite last_cons. destruct (last (filter _ drs)); [reflexivity|].
    rewrite lookup_insert_eq. reflexivity.
  - destruct (last (filter _ drs)); [done|]. by rewrite lookup_insert_ne.
Qed.

Lemma filter_zip_named (img : image) (n : string) (ds : list Detector) :
  filter (λ dr : Detector * DetectionResult, name dr.1 = n)
    (zip ds (map (sub_result img) ds))
  = map (λ d, (d, sub_result img d)) (named n ds).
Proof.
  unfold named. induction ds as [|d ds IH]; [done|].
  cbn [map zip zip_with]. rewrite !filter_cons. cbn [fst].
  destruct (decide (name d = n)); cbn [map]; by rewrite IH.
Qed.

(** X5. For every list of sub-detectors, every image and every name, the
    details of the composite's result hold under that name the details of
    the sub-result of the last detector of the list that carries the name,
    and nothing when no detector carries it: of two detectors with one
    name, the later one overwrites the earlier. *)
Theorem composite_details_keep_last_of_each_name
    (detectors : list Detector) (img : image) (n : string) :
  ∃ r,
    CompositeDetector.detect detectors img = Return r
    ∧ DetectionResult.details r !! n
      = (λ d, VDict (DetectionResult.details (sub_result img d)))
        <$> last (named n detectors).
Proof.
  destruct detectors as [|d ds].
  - eexists. split; [reflexivity|]. done.
  - unfold CompositeDetector.detect. rewrite run_step_fold.
    assert (0 < len (d :: ds))%Z as Hlen by (unfold len; cbn [length]; lia).
    rewrite py_truediv_pos by exact Hlen. cbn [mbind res_bind app].
    pose proof (merge_step_details
                  (zip (d :: ds) (map (sub_result img) (d :: ds))) ∅ [] n) as Hm.
    destruct (fold_left CompositeDetector.merge_step _ _) as [details all_issues].
    eexists. split; [reflexivity|].
    cbn [_create_result DetectionResult.details]. cbn [fst] in Hm. rewrite Hm.
    rewrite filter_zip_named.
    change (map (λ d0, (d0, sub_result img d0)) (named n (d :: ds)))
      with ((λ d0, (d0, sub_result img d0)) <$> named n (d :: ds)).
    rewrite fmap_last. by destruct (last (named n (d :: ds))).
Qed.

Lemma get_detector_app (ds1 ds2 : list Detector) (n : string) :
  CompositeDetector.get_detector (ds1 ++ ds2) n
  = match CompositeDetector.get_detector ds1 n with
    | Some d => Some d
    | None => CompositeDetector.get_detector ds2 n
    end.
Proof.
  unfold CompositeDetector.get_detector.
  induction ds1 as [|d ds1 IH]; [done|]. cbn [app find].
  by destruct (String.eqb (name d) n).
Qed.

(** X6. [get_detector] returns the first detector of the list that
    carries the name, and [None] when there is none. After
    [remove_detector n] no detector is found under [n], every other name
    finds what it found before, and the detectors kept are the ones with
    another name, in their order. After [add_detector d] a name finds what
    it found before when it found a detector; only a name that found none
    finds [d], and only when it is the name of [d]: a detector added under
    a name already in the list is never returned by [get_detector], while
    [detect] runs it after the others. *)
Theorem get_detector_after_remove_and_add (detectors : list Detector) (d : Detector)
    (n n' : string) (img : image) :
  CompositeDetector.get_detector detectors n = head (named n detectors)
  ∧ CompositeDetector.get_detector (CompositeDetector.remove_detector detectors n) n'
    = (if decide (n' = n) then None else CompositeDetector.get_detector detectors n')
  ∧ Forall (λ d, name d ≠ n) (CompositeDetector.remove_detector detectors n)
  ∧ (∀ m, m ≠ n →
          named m (CompositeDetector.remove_detector detectors n) = named m detectors)
  ∧ CompositeDetector.get_detector (CompositeDetector.add_detector detectors d) n
    = match CompositeDetector.get_detector detectors n with
      | Some d' => Some d'
      | None => if String.eqb (name d) n then Some d else None
      end
  ∧ map (sub_result img) (CompositeDetector.add_detector detectors d)
    = map (sub_result img) detectors ++ [sub_result img d].
Proof.
  split; [|split; [|split; [|split; [|split]]]].
  - unfold CompositeDetector.get_detector, named.
    induction detectors as [|d0 ds IH]; [done|]. cbn [find]. rewrite filter_cons.
    destruct (String.eqb_spec (name d0) n) as [Heq|Hne].
    + by rewrite decide_True.
    + by rewrite decide_False.
  - unfold CompositeDetector.get_detector, CompositeDetector.remove_detector.
    induction detectors as [|d0 ds IH]; [by destruct (decide (n' = n))|].
    rewrite filter_cons. cbn [find].
    destruct (decide (name d0 ≠ n)) as [Hne|Heq].
    + cbn [find]. destruct (String.eqb_spec (name d0) n') as [Heq'|Hne']; [|exact IH].
      destruct (decide (n' = n)) as [->|_]; [done|reflexivity].
    + apply dec_stable in Heq. rewrite IH.
      destruct (decide (n' = n)) as [->|Hn]; [done|].
      destruct (String.eqb_spec (name d0) n') as [Heq'|_]; [congruence|done].
  - unfold CompositeDetector.remove_detector.
    apply Forall_forall. intros d0 Hd. by apply list_elem_of_filter in Hd as [Hd _].
  - unfold CompositeDetector.remove_detector, named.
    intros m Hm. induction detectors as [|d0 ds IH]; [done|].
    rewrite !filter_cons. destruct (decide (name d0 ≠ n)) as [Hne|Heq].
    + rewrite filter_cons. destruct (decide (name d0 = m)); by rewrite IH.
    + apply dec_stable in Heq. rewrite IH. by rewrite decide_False by congruence.
  - unfold CompositeDetector.add_detector. rewrite get_detector_app.
    unfold CompositeDetector.get_detector at 2. done.
  - unfold CompositeDetector.add_detector. by rewrite map_app.
Qed.

(** ** The custom configuration: lists and the variables read *)

Section EnvironmentLists.
Context {py : PyBuiltins}.
Variable env : gmap string string.



Lemma enabled_detectors_fold (flags : list (string * string)) (acc : list string) :
  fold_left (λ enabled_detectors '(detector_name, env_key),
               if _get_environment_bool env env_key true
               then enabled_detectors ++ [detector_name]
               else enabled_detectors) flags acc
  = acc ++ map fst (filter (λ f : string * string,
                              _get_environment_bool env f.2 true = true) flags).
Proof.
  revert acc. induction flags as [|[n k] flags IH]; intros acc.
  - by rewrite app_nil_r.
  - cbn [fold_left]. rewrite IH, filter_cons. cbn [snd].
    destruct (_get_environment_bool env k true).
    + rewrite decide_True by done. cbn [map fst]. by rewrite <- app_assoc.
    + by rewrite decide_False by done.
Qed.

(** X8. The detectors the custom mode enables are the names of the table
    whose flag variable is not set, or is set to one of [true], [1], [yes],
    [on] in any letter case, in the order of the table; a flag set to any
    other text disables its detector. With no flag set all four are
    enabled. *)
Theorem custom_enabled_detectors_follow_the_flags :
  _get_custom_enabled_detectors env
  = map fst (filter (λ f : string * string, flag_enables env f.2 = true)
               detector_enable_flags)
  ∧ ((∀ f, f ∈ detector_enable_flags → env !! f.2 = None) →
     _get_custom_enabled_detectors env = default_enabled_detectors).
Proof.
  assert (_get_custom_enabled_detectors env
          = map fst (filter (λ f : string * string, flag_enables env f.2 = true)
                       detector_enable_flags)) as Heq.
  { unfold _get_custom_enabled_detectors.
    change (fold_left _ _ []) with
      (fold_left (λ enabled_detectors '(detector_name, env_key),
                    if _get_environment_bool env env_key true
                    then enabled_detectors ++ [detector_name]
                    else enabled_detectors) detector_enable_flags []).
    rewrite enabled_detectors_fold. reflexivity. }
  split; [exact Heq|]. intros Hunset. rewrite Heq.
  unfold detector_enable_flags in *. rewrite !filter_cons, filter_nil.
  unfold flag_enables. rewrite !Hunset by (apply list_elem_of_In; cbn; tauto).
  rewrite !decide_True by done. reflexivity.
Qed.

End EnvironmentLists.

Section EnvironmentFrame.
Context {py : PyBuiltins}.
Variables env1 env2 : gmap string string.
Hypothesis Hagree : agree_on_pxg env1 env2.

Lemma getenv_agree (key : string) :
  str_prefix "PXG_" key = true → getenv env1 key = getenv env2 key.
Proof. apply Hagree. Qed.

Lemma get_environment_float_agree (key : string) (default : Q) :
  str_prefix "PXG_" key = true →
  _get_environment_float env1 key default = _get_environment_float env2 key default.
Proof.
  intros Hk. unfold _get_environment_float, _get_environment_value.
  by rewrite (getenv_agree key Hk).
Qed.

Lemma get_environment_int_agree (key : string) (default : Z) :
  str_prefix "PXG_" key = true →
  _get_environment_int env1 key default = _get_environment_int env2 key default.
Proof.
  intros Hk. unfold _get_environment_int, _get_environment_value.
  by rewrite (getenv_agree key Hk).
Qed.

Lemma get_environment_bool_agree (key : string) (default : bool) :
  str_prefix "PXG_" key = true →
  _get_environment_bool env1 key default = _get_environment_bool env2 key default.
Proof. intros Hk. unfold _get_environment_bool. by rewrite (getenv_agree key Hk). Qed.

Lemma get_environment_string_agree (key default : string) :
  str_prefix "PXG_" key = true →
  _get_environment_string env1 key default = _get_environment_string env2 key default.
Proof. intros Hk. unfold _get_environment_string. by rewrite (getenv_agree key Hk). Qed.

Lemma get_environment_ratios_agree (key : string) (default : list (pynum * pynum)) :
  str_prefix "PXG_" key = true →
  _get_environment_ratios env1 key default = _get_environment_ratios env2 key default.
Proof. intros Hk. unfold _get_environment_ratios. by rewrite (getenv_agree key Hk). Qed.

Ltac agree :=
  repeat match goal with
    | |- context [_get_environment_float env1 ?k ?d] =>
        rewrite (get_environment_float_agree k d eq_refl)
    | |- context [_get_environment_int env1 ?k ?d] =>
        rewrite (get_environment_int_agree k d eq_refl)
    | |- context [_get_environment_bool env1 ?k ?d] =>
        rewrite (get_environment_bool_agree k d eq_refl)
    | |- context [_get_environment_string env1 ?k ?d] =>
        rewrite (get_environment_string_agree k d eq_refl)
    | |- context [_get_environment_ratios env1 ?k ?d] =>
        rewrite (get_environment_ratios_agree k d eq_refl)
    end.

(** Both sides read the same variable first: compare what follows. *)
Ltac same_reads :=
  repeat (agree;
          match goal with
          | |- ?m ≫= _ = ?m ≫= _ => destruct m; [reflexivity|cbn [mbind res_bind]]
          end);
  agree; reflexivity.

Lemma border_fill_config_agree :
  _create_border_fill_config_from_env env1 = _create_border_fill_config_from_env env2.
Proof. unfold _create_border_fill_config_from_env. cbv zeta. same_reads. Qed.

Lemma uniform_color_config_agree :
  _create_uniform_color_config_from_env env1
  = _create_uniform_color_config_from_env env2.
Proof. unfold _create_uniform_color_config_from_env. cbv zeta. same_reads. Qed.

Lemma background_config_agree :
  _create_background_config_from_env env1 = _create_background_config_from_env env2.
Proof. unfold _create_background_config_from_env. cbv zeta. same_reads. Qed.

Lemma ratio_config_agree :
  _create_ratio_config_from_env env1 = _create_ratio_config_from_env env2.
Proof. unfold _create_ratio_config_from_env. cbv zeta. same_reads. Qed.

Lemma custom_enabled_detectors_agree :
  _get_custom_enabled_detectors env1 = _get_custom_enabled_detectors env2.
Proof. unfold _get_custom_enabled_detectors. cbn [fold_left]. agree. reflexivity. Qed.

Lemma custom_config_agree : _create_custom_config env1 = _create_custom_config env2.
Proof.
  unfold _create_custom_config.
  rewrite border_fill_config_agree, uniform_color_config_agree,
    background_config_agree, ratio_config_agree.
  destruct (_create_border_fill_config_from_env env2); [reflexivity|].
  destruct (_create_uniform_color_config_from_env env2); [reflexivity|].
  destruct (_create_background_config_from_env env2); [reflexivity|].
  destruct (_create_ratio_config_from_env env2); [reflexivity|].
  cbn [mbind res_bind]. by rewrite custom_enabled_detectors_agree.
Qed.

End EnvironmentFrame.

(** X9. [from_mode] reads no variable of the environment other than
    those whose name starts with [PXG_]: in two environments that agree on
    these it returns the same configuration, or raises the same exception,
    for every mode; and for every mode but [CUSTOM] it reads none at all
    and returns. *)
Theorem from_mode_reads_only_pxg_variables {py : PyBuiltins}
    (env1 env2 : gmap string string) (mode : DetectionMode) :
  agree_on_pxg env1 env2 →
  from_mode env1 mode = from_mode env2 mode
  ∧ (mode ≠ CUSTOM → ∀ env3, ∃ config, from_mode env3 mode = Return config
                                  ∧ from_mode env1 mode = Return config).
Proof.
  intros Hagree. split.
  - destruct mode; try reflexivity. apply (custom_config_agree env1 env2 Hagree).
  - intros Hmode env3. destruct mode; try done; by eexists.
Qed.

(** An environment with variables of other programs, and the same without. *)
Lemma from_mode_ignores_path_and_home :
  agree_on_pxg {[ "PATH" := "/usr/bin"; "PXG_RATIO_TOLERANCE" := "0.2" ]}
               {[ "PXG_RATIO_TOLERANCE" := "0.2"; "HOME" := "/root" ]}
  ∧ from_mode (py := Reference.builtins)
      {[ "PATH" := "/usr/bin"; "PXG_RATIO_TOLERANCE" := "0.2" ]} CUSTOM
    = from_mode (py := Reference.builtins)
        {[ "PXG_RATIO_TOLERANCE" := "0.2"; "HOME" := "/root" ]} CUSTOM.
Proof.
  assert (agree_on_pxg {[ "PATH" := "/usr/bin"; "PXG_RATIO_TOLERANCE" := "0.2" ]}
                       {[ "PXG_RATIO_TOLERANCE" := "0.2"; "HOME" := "/root" ]}) as Hagree.
  { intros key Hk.
    destruct (decide (key = "PXG_RATIO_TOLERANCE")) as [->|Hne]; [reflexivity|].
    destruct (decide (key = "PATH")) as [->|Hp]; [discriminate Hk|].
    destruct (decide (key = "HOME")) as [->|Hh]; [discriminate Hk|].
    rewrite !lookup_insert_ne by done. by rewrite !lookup_singleton_ne by done. }
  split; [exact Hagree|].
  exact (proj1 (from_mode_reads_only_pxg_variables (py := Reference.builtins)
                  _ _ CUSTOM Hagree)).
Defined.

(** ** Border fill: thresholds, regions, the result *)

Section BorderFillProperties.
Context {py : PyBuiltins} {cv : OpenCV}.
Variable cfg : BorderFillConfig.

Lemma np_ge_gt (x : npfloat) (t u : Q) :
  (t < u)%Q → np_ge x u = true → np_gt x t = true.
Proof.
  intros Htu. destruct x as [q| | |]; cbn; try done.
  intros Hu. apply Qle_bool_iff in Hu. unfold Qlt_bool.
  destruct (Qle_bool q t) eqn:E; [|done]. apply Qle_bool_iff in E. lra.
Qed.

(** X10. When [black_fill_threshold] is below [uniformity_required], as in
    the dataclass defaults and in every mode, a border region is flagged
    exactly when its fraction of black pixels is at least
    [uniformity_required]: the fill threshold decides nothing. *)
Theorem black_fill_threshold_decides_nothing
    (rows : list (list Z)) (region_name : string) (height width : Z) :
  (black_fill_threshold cfg < uniformity_required cfg)%Q →
  let analysis :=
    BorderFillDetector._analyze_border_region cfg rows region_name height width in
  BorderFillDetector.region_is_problematic analysis
  = np_ge (BorderFillDetector.black_percentage analysis) (uniformity_required cfg).
Proof.
  intros Hlt. cbv zeta. unfold BorderFillDetector._analyze_border_region.
  cbn [BorderFillDetector.region_is_problematic BorderFillDetector.black_percentage].
  unfold BorderFillDetector._has_uniform_color_fill,
    BorderFillDetector._calculate_black_pixel_percentage.
  cbn [String.eqb Ascii.eqb Bool.eqb].
  destruct (np_ge _ (uniformity_required cfg)) eqn:E.
  - by rewrite (np_ge_gt _ _ _ Hlt E).
  - apply andb_false_r.
Qed.

Lemma py_slice_to_zero {A} (l : list A) : py_slice None (Some 0%Z) l = [].
Proof.
  unfold py_slice, slice_index. change (0 <? 0)%Z with false. cbv iota.
  assert (0 <= len l)%Z by (unfold len; lia).
  destruct (Z.ltb_spec (len l) 0); [lia|]. reflexivity.
Qed.

Lemma py_slice_from_minus_zero {A} (l : list A) : py_slice (Some (- 0)%Z) None l = l.
Proof.
  unfold py_slice, slice_index. change (- 0)%Z with 0%Z.
  change (0 <? 0)%Z with false. cbv iota.
  assert (0 <= len l)%Z by (unfold len; lia).
  destruct (Z.ltb_spec (len l) 0); [lia|].
  rewrite Z.sub_0_r. unfold len. rewrite Nat2Z.id. cbn [Z.to_nat drop].
  apply firstn_all.
Qed.

(** X11. When the number of rows of the top region, [int(height *
    top_region_percentage)], is zero, the top region is empty: its fraction
    of black pixels is [nan] and it is never flagged. When the number of
    rows of the bottom region is zero, the slice [image[-0:, :]] is the
    whole image: the bottom check examines every row. *)
Theorem border_region_of_zero_rows (rows : list (list Z)) (height width : Z) :
  (top_region_height cfg height = 0%Z →
   let analysis :=
     BorderFillDetector._analyze_border_region cfg rows "top" height width in
   BorderFillDetector.black_percentage analysis = NNan
   ∧ BorderFillDetector.region_is_problematic analysis = false
   ∧ BorderFillDetector.region_issues analysis = [])
  ∧ (bottom_region_height cfg height = 0%Z →
     BorderFillDetector._extract_region_pixels cfg rows "bottom" height = rows).
Proof.
  unfold top_region_height, bottom_region_height. split.
  - intros Hz. cbv zeta. unfold BorderFillDetector._analyze_border_region,
      BorderFillDetector._extract_region_pixels,
      BorderFillDetector._calculate_black_pixel_percentage.
    cbn [String.eqb Ascii.eqb Bool.eqb
         BorderFillDetector.black_percentage BorderFillDetector.region_is_problematic
         BorderFillDetector.region_issues].
    rewrite Hz, py_slice_to_zero. by cbn.
  - intros Hz. unfold BorderFillDetector._extract_region_pixels.
    cbn [String.eqb Ascii.eqb Bool.eqb]. rewrite Hz. apply py_slice_from_minus_zero.
Qed.

Lemma check_region_eq (on : bool) (key region_name : string) (rows : list (list Z))
    (height width : Z) (issues : list string) (details : dict) (n : Z) :
  let a := BorderFillDetector._analyze_border_region cfg rows region_name height width in
  let flagged := on && BorderFillDetector.region_is_problematic a in
  BorderFillDetector.check_region cfg on key region_name rows height width
    (issues, details, n)
  = (issues ++ (if flagged then BorderFillDetector.region_issues a else []),
     (if on then <[key := VDict (BorderFillDetector.region_dict a)]> details
      else details),
     (n + int_of_bool flagged)%Z).
Proof.
  cbv zeta. unfold BorderFillDetector.check_region. destruct on; cbn [andb].
  - destruct (BorderFillDetector.region_is_problematic _); cbn [int_of_bool].
    + reflexivity.
    + by rewrite app_nil_r, Z.add_0_r.
  - by rewrite app_nil_r, Z.add_0_r.
Qed.

Lemma region_issues_flagged (rows : list (list Z)) (region_name : string)
    (height width : Z) :
  let a := BorderFillDetector._analyze_border_region cfg rows region_name height width in
  length (BorderFillDetector.region_issues a)
  = if BorderFillDetector.region_is_problematic a then 1%nat else 0%nat.
Proof.
  cbv zeta. unfold BorderFillDetector._analyze_border_region.
  cbn [BorderFillDetector.region_issues BorderFillDetector.region_is_problematic].
  by destruct (_ && _).
Qed.

Lemma grayscale_is_valid (a : ndarray) (w : nat) (rows : list (list Z)) :
  image_utils.convert_to_grayscale a = Return (Arr2 w rows) →
  image_utils.validate_image (ImgArray a) = Return true.
Proof.
  unfold image_utils.convert_to_grayscale, image_utils.ensure_uint8.
  destruct a as [xs|w' rows'|w' c rows']; cbn; [discriminate|done|done].
Qed.

(** X12. On an image whose grey version is a two-dimensional array, the
    border-fill detector returns a result whose issues are the issues of the
    flagged regions, the top region first, one issue for each; that is
    problematic exactly when a region is flagged; whose confidence is the
    number of flagged regions divided by the number of checked regions (0.0
    when no region is checked); and whose details hold the analysis of each
    checked region and of no other. *)
Theorem border_fill_result_counts_flagged_regions
    (a : ndarray) (w : nat) (rows : list (list Z)) :
  image_utils.convert_to_grayscale a = Return (Arr2 w rows) →
  ∃ r,
    BorderFillDetector.detect cfg (ImgArray a) = Return r
    ∧ DetectionResult.issues r
      = concat (map BorderFillDetector.region_issues (flagged_regions cfg w rows))
    ∧ length (DetectionResult.issues r) = length (flagged_regions cfg w rows)
    ∧ DetectionResult.is_problematic r
      = negb (bool_decide (flagged_regions cfg w rows = []))
    ∧ (DetectionResult.confidence r
       == if bool_decide (checked_regions cfg w rows = []) then 0
          else inject_Z (len (flagged_regions cfg w rows))
               / inject_Z (len (checked_regions cfg w rows)))%Q
    ∧ DetectionResult.details r !! "top_border"
      = (if check_top cfg
         then Some (VDict (BorderFillDetector.region_dict
                             (BorderFillDetector._analyze_border_region cfg rows "top"
                                (len rows) (Z.of_nat w))))
         else None)
    ∧ DetectionResult.details r !! "bottom_border"
      = (if check_bottom cfg
         then Some (VDict (BorderFillDetector.region_dict
                             (BorderFillDetector._analyze_border_region cfg rows "bottom"
                                (len rows) (Z.of_nat w))))
         else None)
    ∧ ∀ key, key ≠ "top_border" → key ≠ "bottom_border" →
             DetectionResult.details r !! key = None.
Proof.
  intros Hgray.
  unfold BorderFillDetector.detect, _validate_image.
  rewrite (grayscale_is_valid a w rows Hgray). cbn [mbind res_bind negb].
  unfold BorderFillDetector.detect_body. cbn [as_array mbind res_bind].
  rewrite Hgray. cbn [mbind res_bind BorderFillDetector.unpack_gray].
  rewrite !check_region_eq. cbn [app].
  unfold BorderFillDetector._calculate_confidence_score.
  unfold flagged_regions, checked_regions.
  pose proof (region_issues_flagged rows "top" (len rows) (Z.of_nat w)) as Htop.
  pose proof (region_issues_flagged rows "bottom" (len rows) (Z.of_nat w)) as Hbot.
  cbv zeta in Htop, Hbot.
  set (top := BorderFillDetector._analyze_border_region cfg rows "top" _ _) in *.
  set (bottom := BorderFillDetector._analyze_border_region cfg rows "bottom" _ _) in *.
  destruct (check_top cfg), (check_bottom cfg);
    destruct (BorderFillDetector.region_is_problematic top) eqn:Et;
    destruct (BorderFillDetector.region_is_problematic bottom) eqn:Eb;
    cbn [andb int_of_bool Z.add Z.ltb Z.compare Pos.add Pos.succ mbind res_bind
         py_truediv Z.eqb app];
    rewrite ?filter_cons, ?filter_nil, ?Et, ?Eb;
    repeat first [rewrite decide_True by done | rewrite decide_False by done];
    cbn [app map concat];
    (eexists; split; [reflexivity|];
     cbn [_create_result DetectionResult.issues DetectionResult.is_problematic
          DetectionResult.confidence DetectionResult.details clamp01];
     rewrite ?app_nil_r, ?length_app, ?Htop, ?Hbot;
     repeat split;
     try reflexivity;
     try (intros key Hk1 Hk2; by rewrite ?lookup_insert_ne by done);
     try (by rewrite ?lookup_insert_ne by done; rewrite ?lookup_insert_eq);
     try (destruct (BorderFillDetector.region_issues top),
            (BorderFillDetector.region_issues bottom); by cbn in *)).
Qed.

End BorderFillProperties.

(** The configuration of the strict mode on the image with the black top
    border. *)
Lemma black_fill_threshold_decides_nothing_in_strict_mode :
  (black_fill_threshold (border_fill _create_strict_config)
   < uniformity_required (border_fill _create_strict_config))%Q
  ∧ let analysis :=
      BorderFillDetector._analyze_border_region (py := Reference.builtins)
        (border_fill _create_strict_config) top_black_rows "top" 100 100 in
    BorderFillDetector.region_is_problematic analysis
    = np_ge (BorderFillDetector.black_percentage analysis)
        (uniformity_required (border_fill _create_strict_config)).
Proof.
  split; [reflexivity|].
  apply (black_fill_threshold_decides_nothing (py := Reference.builtins)
           (border_fill _create_strict_config) top_black_rows "top" 100 100).
  reflexivity.
Defined.

(** The default configuration on an image of five rows: both regions have
    [int(5 * 0.1) = 0] rows. *)
Lemma border_regions_of_five_row_image :
  top_region_height BorderFillConfig_default 5 = 0%Z
  ∧ bottom_region_height BorderFillConfig_default 5 = 0%Z
  ∧ (let analysis :=
       BorderFillDetector._analyze_border_region (py := Reference.builtins)
         BorderFillConfig_default (replicate 5 (replicate 8 0%Z)) "top" 5 8 in
     BorderFillDetector.black_percentage analysis = NNan
     ∧ BorderFillDetector.region_is_problematic analysis = false
     ∧ BorderFillDetector.region_issues analysis = [])
  ∧ BorderFillDetector._extract_region_pixels BorderFillConfig_default
      (replicate 5 (replicate 8 0%Z)) "bottom" 5
    = replicate 5 (replicate 8 0%Z).
Proof.
  split; [reflexivity|]. split; [reflexivity|].
  pose proof (border_region_of_zero_rows (py := Reference.builtins)
                BorderFillConfig_default (replicate 5 (replicate 8 0%Z)) 5 8)
    as [Htop Hbottom].
  split; [apply Htop; reflexivity|apply Hbottom; reflexivity].
Defined.

(** The fixture's configuration on the image with the black top border. *)
Lemma border_fill_result_on_black_top_border :
  image_utils.convert_to_grayscale (cv := Reference.opencv) top_black_bgr
  = Return (Arr2 100 top_black_rows)
  ∧ ∃ r,
      BorderFillDetector.detect (py := Reference.builtins) (cv := Reference.opencv)
        stated_border_config (ImgArray top_black_bgr) = Return r
      ∧ length (DetectionResult.issues r)
        = length (flagged_regions (py := Reference.builtins)
                    stated_border_config 100 top_black_rows)
      ∧ DetectionResult.is_problematic r
        = negb (bool_decide (flagged_regions (py := Reference.builtins)
                               stated_border_config 100 top_black_rows = [])).
Proof.
  assert (image_utils.convert_to_grayscale (cv := Reference.opencv) top_black_bgr
          = Return (Arr2 100 top_black_rows)) as Hgray by (vm_compute; reflexivity).
  split; [exact Hgray|].
  destruct (border_fill_result_counts_flagged_regions
              (py := Reference.builtins) (cv := Reference.opencv)
              stated_border_config top_black_bgr 100 top_black_rows Hgray)
    as (r & Hr & _ & Hlen & Hp & _).
  exists r. split; [exact Hr|]. split; [exact Hlen|exact Hp].
Defined.

(** ** Aspect ratios: dimensions, division by zero, the result *)

Section RatioProperties.
Context {py : PyBuiltins}.
Variable cfg : RatioConfig.

(** X13. [_validate_dimension_constraints] records no violation exactly
    when the width and the height are within the bounds that the
    configuration checks (at least the minima when
    [check_minimum_dimensions] is set, at most the maxima when
    [check_maximum_dimensions] is set); it never records more than four. *)
Theorem dimension_violations_none_iff_within_bounds (width height : Z) :
  (RatioDetector._validate_dimension_constraints cfg width height = []
   ↔ within_dimension_bounds cfg width height)
  ∧ (length (RatioDetector._validate_dimension_constraints cfg width height) <= 4)%nat.
Proof.
  unfold within_dimension_bounds, RatioDetector._validate_dimension_constraints,
    RatioDetector._validate_minimum_dimensions,
    RatioDetector._validate_maximum_dimensions.
  destruct (check_minimum_dimensions cfg), (check_maximum_dimensions cfg);
    repeat match goal with
      | |- context [(?x <? ?y)%Z] => destruct (Z.ltb_spec x y)
      end;
    cbn [app length]; (split; [|lia]); split;
    first [discriminate | intros _; split; intros; first [discriminate | lia] | idtac];
    try (intros [Hmin Hmax]; first [specialize (Hmin eq_refl) | idtac];
         first [specialize (Hmax eq_refl) | idtac]; first [lia | reflexivity]).
Qed.

(** A height of zero raises [ZeroDivisionError]. *)
Lemma float_division_by_zero (w h : pynum) (x y : float64) :
  num_float w = Return x → num_float h = Return y → f64.is_zero y = true →
  (x ← num_float w;
   y ← num_float h;
   if f64.is_zero y then Raise (ZeroDivisionError "float division by zero")
   else Return (f64.div x y))
  = Raise (ZeroDivisionError "float division by zero").
Proof.
  intros Hw Hh Hzero. rewrite Hw. cbn [mbind res_bind]. rewrite Hh.
  cbn [mbind res_bind]. by rewrite Hzero.
Qed.

Lemma zero_height_raises (w h : pynum) :
  zero_height (w, h) → ∃ msg, num_truediv w h = Raise (ZeroDivisionError msg).
Proof.
  intros [Hh [x Hw]]. cbn [fst snd] in Hh, Hw.
  destruct h as [zh|qh|sh| |]; try done.
  - subst zh. destruct w as [zw|qw|sw| |]; [by eexists|..]; eexists;
      by apply (float_division_by_zero _ (PyInt 0) x (S754_zero false)).
  - destruct w as [zw|qw|sw| |]; eexists;
      by apply (float_division_by_zero _ (PyFloat qh) x (f64.of_Q qh)).
  - destruct w as [zw|qw|sw| |]; eexists;
      by apply (float_division_by_zero _ PyNegZero x (S754_zero true)).
Qed.

Lemma closest_loop_raises (before after : list (pynum * pynum)) (w h : pynum)
    (actual : float64) (closest : option (pynum * pynum)) (smallest : float64)
    (e : exn) :
  Forall ratio_defined before →
  Forall (λ t, within_tolerance cfg actual t = false) before →
  num_truediv w h = Raise e →
  RatioDetector.closest_loop cfg (before ++ (w, h) :: after) actual closest smallest
  = Raise e.
Proof.
  intros Hnz Hout Hh. revert closest smallest.
  induction before as [|[tw th] before IH]; intros closest smallest.
  - cbn [app RatioDetector.closest_loop]. by rewrite Hh.
  - apply Forall_cons in Hnz as [Ht Hnz]. apply Forall_cons in Hout as [Hw Hout].
    cbn [app RatioDetector.closest_loop].
    rewrite (num_truediv_defined tw th Ht). cbn [mbind res_bind].
    fold (difference actual (tw, th)). fold (within_tolerance cfg actual (tw, th)).
    rewrite Hw. destruct (f64.ltb _ _); by apply IH.
Qed.

Lemma shape2_validates (a : ndarray) (height width : Z) :
  shape2 a = Return (height, width) →
  image_utils.validate_image (ImgArray a) = Return true.
Proof. destruct a; cbn; [discriminate|done|done]. Qed.

(** X14. A target ratio of height zero makes the detector fail on every
    image: when the targets before it have a quotient and none of them is
    within the tolerance of the image's ratio, computing the target's value
    raises [ZeroDivisionError], and [detect] returns the error result of
    type [ratio_detection_error] in place of a verdict. *)
Theorem ratio_target_of_zero_height_fails_every_image
    (before after : list (pynum * pynum)) (w h : pynum)
    (a : ndarray) (height width : Z) (actual : float64) :
  target_ratios cfg = before ++ (w, h) :: after →
  Forall ratio_defined before →
  Forall (λ t, within_tolerance cfg actual t = false) before →
  zero_height (w, h) →
  shape2 a = Return (height, width) →
  py_truediv_float width height = Return actual →
  ∃ msg,
    RatioDetector._find_closest_target_ratio cfg actual
    = Raise (ZeroDivisionError msg)
    ∧ RatioDetector.detect cfg (ImgArray a)
      = Return (_create_error_result "ratio" (ZeroDivisionError msg)
                  "ratio_detection_error").
Proof.
  intros Ht Hnz Hout Hzero Hshape Hactual.
  destruct (zero_height_raises w h Hzero) as [msg Hh]. exists msg.
  pose proof (closest_loop_raises before after w h actual None f64.inf
                (ZeroDivisionError msg) Hnz Hout Hh) as Hloop.
  assert (RatioDetector._find_closest_target_ratio cfg actual
          = Raise (ZeroDivisionError msg)) as Hfind.
  { unfold RatioDetector._find_closest_target_ratio. rewrite Ht.
    destruct before; exact Hloop. }
  split; [exact Hfind|].
  unfold RatioDetector.detect, _validate_image.
  rewrite (shape2_validates a height width Hshape). cbn [mbind res_bind negb].
  unfold RatioDetector.detect_body. cbn [as_array mbind res_bind].
  rewrite Hshape. cbn [mbind res_bind]. rewrite Hactual. cbn [mbind res_bind].
  unfold RatioDetector._validate_aspect_ratio_compliance. rewrite Hfind.
  reflexivity.
Qed.

(** Whatever the targets whose quotient is computed, the check of the ratio
    returns, with at most one violation. *)
Lemma aspect_ratio_compliance_returns (actual : float64) :
  Forall ratio_defined (target_ratios cfg) →
  ∃ violations,
    RatioDetector._validate_aspect_ratio_compliance cfg actual = Return violations
    ∧ (length violations <= 1)%nat.
Proof.
  intros Hnz. pose proof (aspect_ratio_compliance_cases cfg actual Hnz) as Hcases.
  destruct (find _ _) as [t|].
  - destruct Hcases as [_ ->]. eexists. split; [reflexivity|]. cbn. lia.
  - destruct (existsb _ _).
    + destruct Hcases as (t & _ & _ & ->). eexists. split; [reflexivity|]. cbn. lia.
    + destruct Hcases as [_ ->]. eexists. split; [reflexivity|]. cbn. lia.
Qed.

(** X15. On an array whose ratio [width / height] is computed (it has at
    least one row), with target ratios whose quotient is computed (of
    non-zero height), the ratio detector returns a verdict: its issues are
    the dimension violations followed by the violations of the aspect ratio
    (at most one); it is problematic exactly when there is an issue; its
    confidence is the number of issues divided by the number of targets
    plus two, capped at 1; and its details record the width, the height and
    the two lists of violations. *)
Theorem ratio_result_lists_every_violation (a : ndarray) (height width : Z)
    (actual : float64) :
  shape2 a = Return (height, width) →
  py_truediv_float width height = Return actual →
  Forall ratio_defined (target_ratios cfg) →
  let dimension_violations :=
    RatioDetector._validate_dimension_constraints cfg width height in
  ∃ aspect_ratio_violations r,
    RatioDetector._validate_aspect_ratio_compliance cfg actual
    = Return aspect_ratio_violations
    ∧ (length aspect_ratio_violations <= 1)%nat
    ∧ RatioDetector.detect cfg (ImgArray a) = Return r
    ∧ DetectionResult.issues r = dimension_violations ++ aspect_ratio_violations
    ∧ DetectionResult.is_problematic r
      = negb (bool_decide (DetectionResult.issues r = []))
    ∧ (DetectionResult.confidence r
       == py_min 1 (inject_Z (len (DetectionResult.issues r))
                    / inject_Z (len (target_ratios cfg) + 2)))%Q
    ∧ DetectionResult.details r !! "width" = Some (VInt width)
    ∧ DetectionResult.details r !! "height" = Some (VInt height)
    ∧ DetectionResult.details r !! "dimension_violations"
      = Some (VList (map VStr dimension_violations))
    ∧ DetectionResult.details r !! "aspect_ratio_violations"
      = Some (VList (map VStr aspect_ratio_violations)).
Proof.
  intros Hshape Hactual Hnz. cbv zeta.
  destruct (aspect_ratio_compliance_returns actual Hnz) as (violations & Hv & Hlen).
  exists violations.
  unfold RatioDetector.detect, _validate_image.
  rewrite (shape2_validates a height width Hshape). cbn [mbind res_bind negb].
  unfold RatioDetector.detect_body. cbn [as_array mbind res_bind].
  rewrite Hshape. cbn [mbind res_bind]. rewrite Hactual. cbn [mbind res_bind].
  rewrite Hv. cbn [mbind res_bind].
  unfold RatioDetector._calculate_confidence_score.
  set (issues := RatioDetector._validate_dimension_constraints cfg width height
                 ++ violations).
  assert (0 <= len (target_ratios cfg))%Z as Hn by (unfold len; lia).
  assert (0 <= len issues)%Z as Hi by (unfold len; lia).
  rewrite Z.max_l by lia. rewrite py_truediv_pos by lia. cbn [mbind res_bind].
  eexists. split; [exact eq_refl|]. split; [exact Hlen|]. split; [reflexivity|].
  cbn [_create_result DetectionResult.issues DetectionResult.is_problematic
       DetectionResult.confidence DetectionResult.details clamp01].
  split; [reflexivity|]. split; [|split; [|repeat split]].
  - destruct issues as [|i rest]; [done|]. rewrite bool_decide_eq_false_2 by done.
    unfold len. cbn [length negb]. apply Z.ltb_lt. lia.
  - assert (0 < inject_Z (len (target_ratios cfg) + 2))%Q as Hpos
        by (unfold Qlt; simpl; lia).
    assert (0 <= inject_Z (len issues) / inject_Z (len (target_ratios cfg) + 2))%Q
      as Hq.
    { apply Qle_shift_div_l; [exact Hpos|]. rewrite Qmult_0_l.
      unfold Qle; simpl; lia. }
    unfold py_max. destruct (Qlt_le_dec 0 _) as [_|H0]; [reflexivity|].
    revert H0. unfold py_min. destruct (Qlt_le_dec _ 1); intros; lra.
Qed.

End RatioProperties.

(** The target [16:0] on a 100x100 image. *)
Lemma ratio_target_sixteen_to_zero_fails :
  target_ratios zero_height_target = [] ++ (PyFloat 16, PyFloat 0) :: []
  ∧ zero_height (PyFloat 16, PyFloat 0)
  ∧ shape2 large_gray_image = Return (100, 100)%Z
  ∧ py_truediv_float 100 100 = Return (f64.of_Q 1)
  ∧ ∃ msg,
      RatioDetector._find_closest_target_ratio zero_height_target (f64.of_Q 1)
      = Raise (ZeroDivisionError msg)
      ∧ RatioDetector.detect (py := Reference.builtins) zero_height_target
          (ImgArray large_gray_image)
        = Return (_create_error_result "ratio" (ZeroDivisionError msg)
                    "ratio_detection_error").
Proof.
  assert (zero_height (PyFloat 16, PyFloat 0)) as Hzero
    by (split; [reflexivity|by eexists]).
  split; [reflexivity|]. split; [exact Hzero|]. split; [reflexivity|].
  split; [reflexivity|].
  apply (ratio_target_of_zero_height_fails_every_image (py := Reference.builtins)
           zero_height_target [] [] (PyFloat 16) (PyFloat 0) large_gray_image 100 100
           (f64.of_Q 1)).
  - reflexivity.
  - constructor.
  - constructor.
  - exact Hzero.
  - reflexivity.
  - reflexivity.
Defined.

(** The default targets on a 100x100 image. *)
Lemma ratio_result_of_square_image :
  shape2 large_gray_image = Return (100, 100)%Z
  ∧ py_truediv_float 100 100 = Return (f64.of_Q 1)
  ∧ Forall ratio_defined (target_ratios RatioConfig_default)
  ∧ ∃ aspect_ratio_violations r,
      RatioDetector._validate_aspect_ratio_compliance (py := Reference.builtins)
        RatioConfig_default (f64.of_Q 1)
      = Return aspect_ratio_violations
      ∧ RatioDetector.detect (py := Reference.builtins) RatioConfig_default
          (ImgArray large_gray_image) = Return r
      ∧ DetectionResult.issues r
        = RatioDetector._validate_dimension_constraints RatioConfig_default 100 100
          ++ aspect_ratio_violations.
Proof.
  assert (Forall ratio_defined (target_ratios RatioConfig_default)) as Hdefined
    by (repeat constructor; by eexists).
  split; [reflexivity|]. split; [reflexivity|]. split; [exact Hdefined|].
  destruct (ratio_result_lists_every_violation (py := Reference.builtins)
              RatioConfig_default large_gray_image 100 100 (f64.of_Q 1)
              eq_refl eq_refl Hdefined)
    as (violations & r & Hv & _ & Hr & Hi & _).
  exists violations, r. split; [exact Hv|]. split; [exact Hr|exact Hi].
Defined.

(** ** Uniform colour: tolerance, sampling, colour spaces *)

Lemma len_filter_mono {A} (P Q : A → Prop) `{∀ x, Decision (P x)}
    `{∀ x, Decision (Q x)} (l : list A) :
  (∀ x, P x → Q x) → (len (filter P l) <= len (filter Q l))%Z.
Proof.
  intros HPQ. unfold len. induction l as [|x l IH]; [done|].
  rewrite !filter_cons. destruct (decide (P x)) as [HP|HP].
  - rewrite decide_True by auto. cbn [length]. lia.
  - destruct (decide (Q x)); cbn [length]; lia.
Qed.

Lemma matches_dominant_mono (cfg1 cfg2 : UniformColorConfig) (c : color) (p : pixel) :
  (color_delta_threshold cfg1 <= color_delta_threshold cfg2)%Z →
  matches_dominant cfg1 c p → matches_dominant cfg2 c p.
Proof.
  intros Hle. unfold matches_dominant. intros Hall.
  eapply Forall_impl; [exact Hall|]. intros d Hd. cbn beta in Hd.
  eapply Qle_trans; [exact Hd|]. unfold Qle; simpl; lia.
Qed.

Lemma coverage_mono (cfg1 cfg2 : UniformColorConfig) (pixels : list pixel) (c : color) :
  (color_delta_threshold cfg1 <= color_delta_threshold cfg2)%Z →
  (UniformColorDetector._calculate_color_uniformity_coverage cfg1 pixels c
   <= UniformColorDetector._calculate_color_uniformity_coverage cfg2 pixels c)%Q.
Proof.
  intros Hle. destruct pixels as [|p pixels]; [cbn; lra|].
  rewrite !coverage_is_matching_fraction by done. unfold matching_fraction.
  assert (0 < inject_Z (len (p :: pixels)))%Q as Hpos
    by (unfold Qlt, len; cbn [length]; simpl; lia).
  apply Qle_shift_div_l; [exact Hpos|].
  unfold Qdiv. rewrite <- Qmult_assoc, (Qmult_comm (/ _)), Qmult_inv_r by lra.
  rewrite Qmult_1_r. unfold Qle; simpl. rewrite !Z.mul_1_r.
  apply len_filter_mono. intros x. by apply matches_dominant_mono.
Qed.

(** X16. The coverage grows with the tolerance: for the same pixels and
    the same dominant colour, a configuration with a larger
    [color_delta_threshold] computes a coverage that is not smaller; so with
    the same coverage threshold it flags every sampling that the
    configuration with the smaller tolerance flags. *)
Theorem coverage_grows_with_the_tolerance {py : PyBuiltins}
    (cfg1 cfg2 : UniformColorConfig) (pixels : list pixel) (c : color)
    (s : UniformColorDetector.sampling) :
  (color_delta_threshold cfg1 <= color_delta_threshold cfg2)%Z →
  (UniformColorDetector._calculate_color_uniformity_coverage cfg1 pixels c
   <= UniformColorDetector._calculate_color_uniformity_coverage cfg2 pixels c)%Q
  ∧ (uniform_coverage_threshold cfg1 = uniform_coverage_threshold cfg2 →
     DetectionResult.is_problematic (UniformColorDetector.report cfg1 s) = true →
     DetectionResult.is_problematic (UniformColorDetector.report cfg2 s) = true).
Proof.
  intros Hle. split; [by apply coverage_mono|].
  unfold UniformColorDetector.report, _create_result.
  cbn [DetectionResult.is_problematic]. intros <- Hflag.
  apply Qle_bool_iff in Hflag. apply Qle_bool_iff.
  eapply Qle_trans; [exact Hflag|]. by apply coverage_mono.
Qed.

(** Tolerances 10 and 30 on three pixels. *)
Lemma coverage_grows_from_ten_to_thirty :
  (color_delta_threshold (uniform_with "RGB" 10 0.85 false)
   <= color_delta_threshold (uniform_with "RGB" 30 0.85 false))%Z
  ∧ (UniformColorDetector._calculate_color_uniformity_coverage
       (uniform_with "RGB" 10 0.85 false)
       [(100, 100, 100); (110, 95, 100); (100, 100, 120)]%Z (100, 100, 100)%Q
     <= UniformColorDetector._calculate_color_uniformity_coverage
          (uniform_with "RGB" 30 0.85 false)
          [(100, 100, 100); (110, 95, 100); (100, 100, 120)]%Z (100, 100, 100)%Q)%Q.
Proof.
  split; [cbn; lia|].
  apply (coverage_grows_with_the_tolerance (py := Reference.builtins)
           (uniform_with "RGB" 10 0.85 false) (uniform_with "RGB" 30 0.85 false)
           [(100, 100, 100); (110, 95, 100); (100, 100, 120)]%Z (100, 100, 100)%Q
           {| UniformColorDetector.total_pixel_count := 3;
              UniformColorDetector.sampled_pixels := [];
              UniformColorDetector.color_space_pixels := [];
              UniformColorDetector.most_common_color := (0, 0, 0)%Q |}).
  cbn. lia.
Defined.



Section ColorSpaces.
Context {py : PyBuiltins} {cv : OpenCV} {sk : SkLearn} {rng : NumpyRandom}.

Lemma convert_color_space_unsupported (p : pixel) (pixels : list pixel) (space : string) :
  (∀ code, (space, code) ∉ color_space_codes) →
  image_utils.convert_color_space (p :: pixels) space
  = Raise (ValueError ("Unsupported color space: " +:+ space)).
Proof.
  intros Hnone. unfold image_utils.convert_color_space, color_space_codes in *.
  repeat match goal with
    | |- context [String.eqb space ?s] =>
        destruct (String.eqb_spec space s) as [->|?];
        [exfalso; eapply Hnone; apply list_elem_of_In; cbn; eauto|]
    end.
  reflexivity.
Qed.

(** X18. [convert_color_space] returns an empty list of pixels as it is,
    without looking at the colour space. On pixels: for a colour space
    other than [LAB], [HSV] and [RGB] it raises [ValueError]; for one of
    the three, a [cv2.error] of the conversion is absorbed and the pixels
    are returned unconverted, while any other exception is raised. *)
Theorem color_space_conversion_failures
    (p : pixel) (pixels : list pixel) (space : string) :
  image_utils.convert_color_space [] space = Return []
  ∧ ((∀ code, (space, code) ∉ color_space_codes) →
     image_utils.convert_color_space (p :: pixels) space
     = Raise (ValueError ("Unsupported color space: " +:+ space)))
  ∧ (∀ code, (space, code) ∈ color_space_codes →
       image_utils.convert_color_space (p :: pixels) space
       = match cvtColor_pixels code (p :: pixels) with
         | Return converted => Return converted
         | Raise e => if is_cv2_error e then Return (p :: pixels) else Raise e
         end).
Proof.
  split; [reflexivity|]. split; [apply convert_color_space_unsupported|].
  unfold image_utils.convert_color_space, color_space_codes.
  intros code Hin. apply list_elem_of_In in Hin. cbn in Hin.
  destruct Hin as [[= <- <-]|[[= <- <-]|[[= <- <-]|[]]]];
    cbn [String.eqb Ascii.eqb Bool.eqb]; by destruct (cvtColor_pixels _ _).
Qed.

(** X19. With a colour space other than [LAB], [HSV] and [RGB] the
    uniform-colour detector reports the unsupported colour space, as its
    error result, only on an image of which a pixel is sampled; an image
    whose sample is empty passes with confidence 0.0 and no issue. *)
Theorem unsupported_color_space_needs_a_sampled_pixel
    (cfg : UniformColorConfig) (a normalized : ndarray) (height width : Z)
    (sampled : list pixel) :
  (∀ code, (color_space cfg, code) ∉ color_space_codes) →
  (0 < uniform_coverage_threshold cfg)%Q →
  _ensure_3channel_bgr a = Return normalized →
  shape2 normalized = Return (height, width) →
  UniformColorDetector._extract_representative_pixels cfg normalized = Return sampled →
  match sampled with
  | [] =>
      ∃ r, UniformColorDetector.detect cfg (ImgArray a) = Return r
        ∧ DetectionResult.is_problematic r = false
        ∧ DetectionResult.confidence r = 0%Q
        ∧ DetectionResult.issues r = []
  | _ =>
      UniformColorDetector.detect cfg (ImgArray a)
      = Return (_create_error_result "uniform_color"
                  (ValueError ("Unsupported color space: " +:+ color_space cfg))
                  "uniform_color_detection_error")
  end.
Proof.
  intros Hspace Hthr Hnorm Hshape Hsample.
  assert (image_utils.validate_image (ImgArray a) = Return true) as Hvalid.
  { revert Hnorm. unfold _ensure_3channel_bgr, image_utils.ensure_3channel_bgr,
      image_utils.ensure_uint8.
    destruct a as [xs|w rows|w c rows]; cbn [shape]; done. }
  unfold UniformColorDetector.detect, _validate_image. rewrite Hvalid.
  cbn [mbind res_bind negb].
  unfold UniformColorDetector.detect_body, UniformColorDetector.sample_image.
  cbn [as_array mbind res_bind]. rewrite Hnorm. cbn [mbind res_bind].
  rewrite Hshape. cbn [mbind res_bind]. rewrite Hsample. cbn [mbind res_bind].
  unfold UniformColorDetector._convert_to_target_color_space.
  destruct sampled as [|p sampled].
  - cbn [image_utils.convert_color_space mbind res_bind try_except].
    eexists. split; [reflexivity|].
    unfold UniformColorDetector.report.
    cbn [UniformColorDetector.color_space_pixels
         UniformColorDetector._calculate_color_uniformity_coverage].
    assert (Qle_bool (uniform_coverage_threshold cfg) 0 = false) as ->.
    { destruct (Qle_bool _ 0) eqn:Hle; [|done]. apply Qle_bool_iff in Hle. lra. }
    repeat split.
  - rewrite (convert_color_space_unsupported p sampled (color_space cfg) Hspace).
    reflexivity.
Qed.

(** X20. A three-dimensional array whose number of channels is neither 3
    nor 4 is not converted: the uniform-colour and the background detector
    return their error results, with the message [Unsupported image shape]
    and the shape. *)
Theorem unsupported_channel_count_is_reported
    (ucfg : UniformColorConfig) (gcfg : BackgroundDetectionConfig)
    (w c : nat) (rows : list (list (list Z))) :
  c ≠ 3%nat → c ≠ 4%nat →
  let e := ValueError ("Unsupported image shape: " +:+ str_shape [length rows; w; c]) in
  image_utils.ensure_3channel_bgr (Arr3 w c rows) = Raise e
  ∧ UniformColorDetector.detect ucfg (ImgArray (Arr3 w c rows))
    = Return (_create_error_result "uniform_color" e "uniform_color_detection_error")
  ∧ BackgroundDetector.detect gcfg (ImgArray (Arr3 w c rows))
    = Return (_create_error_result "background" e "background_detection_error").
Proof.
  intros H3 H4. cbv zeta.
  assert (image_utils.ensure_3channel_bgr (Arr3 w c rows)
          = Raise (ValueError ("Unsupported image shape: "
                               +:+ str_shape [length rows; w; c]))) as Hraise.
  { unfold image_utils.ensure_3channel_bgr, image_utils.ensure_uint8. cbn [shape].
    destruct (Nat.eqb_spec c 3); [done|]. destruct (Nat.eqb_spec c 4); [done|].
    reflexivity. }
  split; [exact Hraise|]. split.
  - unfold UniformColorDetector.detect, UniformColorDetector.detect_body,
      UniformColorDetector.sample_image, _ensure_3channel_bgr.
    cbn [_validate_image image_utils.validate_image hasattr_shape get_shape shape
         length Nat.ltb Nat.leb mbind res_bind negb as_array].
    rewrite Hraise. reflexivity.
  - unfold BackgroundDetector.detect, BackgroundDetector.detect_body,
      _ensure_3channel_bgr.
    cbn [_validate_image image_utils.validate_image hasattr_shape get_shape shape
         length Nat.ltb Nat.leb mbind res_bind negb as_array].
    rewrite Hraise. reflexivity.
Qed.

End ColorSpaces.

(** The colour space [XYZ] on the constant 100x100 image, sampled whole. *)
Lemma unsupported_color_space_xyz :
  (∀ code, (color_space (uniform_with "XYZ" 15 0.85 false), code) ∉ color_space_codes)
  ∧ UniformColorDetector.detect
      (py := Reference.builtins) (cv := Reference.opencv)
      (sk := Reference.sklearn) (rng := Reference.numpy_random)
      (uniform_with "XYZ" 15 0.85 false) (ImgArray small_gray_image)
    = Return (_create_error_result "uniform_color"
                (ValueError "Unsupported color space: XYZ")
                "uniform_color_detection_error").
Proof.
  assert (∀ code, (color_space (uniform_with "XYZ" 15 0.85 false), code)
                  ∉ color_space_codes) as Hspace.
  { intros code Hin. apply list_elem_of_In in Hin. cbn in Hin.
    destruct Hin as [[=]|[[=]|[[=]|[]]]]. }
  split; [exact Hspace|].
  exact (unsupported_color_space_needs_a_sampled_pixel
           (py := Reference.builtins) (cv := Reference.opencv)
           (sk := Reference.sklearn) (rng := Reference.numpy_random)
           (uniform_with "XYZ" 15 0.85 false) small_gray_image small_gray_image 10 10
           (replicate 100 (128, 128, 128)%Z)
           Hspace eq_refl eq_refl eq_refl eq_refl).
Defined.

(** An image with two channels. *)
Lemma two_channel_image_is_reported :
  2%nat ≠ 3%nat ∧ 2%nat ≠ 4%nat
  ∧ UniformColorDetector.detect
      (py := Reference.builtins) (cv := Reference.opencv)
      (sk := Reference.sklearn) (rng := Reference.numpy_random)
      UniformColorConfig_default (ImgArray two_channel_image)
    = Return (_create_error_result "uniform_color"
                (ValueError "Unsupported image shape: (10, 10, 2)")
                "uniform_color_detection_error").
Proof.
  split; [discriminate|]. split; [discriminate|].
  exact (proj1 (proj2 (unsupported_channel_count_is_reported
                         (py := Reference.builtins) (cv := Reference.opencv)
                         (sk := Reference.sklearn) (rng := Reference.numpy_random)
                         UniformColorConfig_default BackgroundDetectionConfig_default
                         10 2 (replicate 10 (replicate 10 [128; 128]%Z))
                         ltac:(discriminate) ltac:(discriminate)))).
Defined.

(** ** Background: samples, coverage, the fallback *)

(** X21. [calculate_pixel_coverage] of no pixel is [nan] (the NumPy
    division 0/0). Of at least one pixel it is the number of pixels that
    are within the tolerance of the target colour on every channel, divided
    by the number of pixels: a fraction between 0 and 1. *)
Theorem pixel_coverage_is_a_fraction (pixels : list pixel) (target : pixel)
    (color_tolerance : Z) :
  match pixels with
  | [] => image_utils.calculate_pixel_coverage pixels target color_tolerance = NNan
  | _ =>
      ∃ q,
        image_utils.calculate_pixel_coverage pixels target color_tolerance = NFin q
        ∧ q = (inject_Z (len (filter (matches_target color_tolerance target) pixels))
               / inject_Z (len pixels))%Q
        ∧ (0 <= q <= 1)%Q
  end.
Proof.
  destruct pixels as [|p pixels]; [reflexivity|].
  unfold image_utils.calculate_pixel_coverage. rewrite py_sum_indicator.
  unfold np_divide.
  assert (0 < len (p :: pixels))%Z as Hpos by (unfold len; cbn [length]; lia).
  destruct (Z.eqb_spec (len (p :: pixels)) 0) as [Hz|_]; [lia|].
  replace (filter (λ x, within_delta_int color_tolerance target x = true) (p :: pixels))
    with (filter (matches_target color_tolerance target) (p :: pixels)).
  - eexists. split; [reflexivity|]. split; [reflexivity|].
    apply fraction_bounds; [apply len_filter_le|exact Hpos].
  - apply list_filter_iff. intros x. unfold matches_target, within_delta_int.
    rewrite !andb_true_iff, !Z.leb_le. tauto.
Qed.

Lemma py_slice_all {A} (l : list A) : py_slice None None l = l.
Proof.
  unfold py_slice. rewrite Z.sub_0_r. unfold len. rewrite Nat2Z.id.
  cbn [Z.to_nat drop]. apply firstn_all.
Qed.

Lemma map_py_slice_all {A} (ls : list (list A)) : map (py_slice None None) ls = ls.
Proof. induction ls as [|l ls IH]; [done|]. cbn [map]. by rewrite py_slice_all, IH. Qed.

Lemma map_py_slice_from_minus_zero {A} (ls : list (list A)) :
  map (py_slice (Some (- 0)%Z) None) ls = ls.
Proof.
  induction ls as [|l ls IH]; [done|]. cbn [map].
  by rewrite py_slice_from_minus_zero, IH.
Qed.

Lemma concat_map_py_slice_to_zero {A} (ls : list (list A)) :
  concat (map (py_slice None (Some 0%Z)) ls) = [].
Proof.
  apply concat_nils, Forall_map, Forall_forall. intros l _. apply py_slice_to_zero.
Qed.

(** The slices of an array with no row or no column taken, and with every
    row and every column taken. *)
Lemma reshape_slice_no_rows (a : ndarray) (height width : Z) (c0 c1 : option Z) :
  shape2 a = Return (height, width) →
  slice2 a None (Some 0%Z) c0 c1 ≫= reshape_m1_3 = Return [].
Proof.
  destruct a as [xs|w rows|w c rows]; [discriminate| |]; intros _;
    cbn [slice2 mbind res_bind]; unfold reshape_m1_3; cbn [flat];
    by rewrite py_slice_to_zero.
Qed.

Lemma reshape_slice_no_columns (a : ndarray) (height width : Z) (r0 r1 : option Z) :
  shape2 a = Return (height, width) →
  slice2 a r0 r1 None (Some 0%Z) ≫= reshape_m1_3 = Return [].
Proof.
  destruct a as [xs|w rows|w c rows]; [discriminate| |]; intros _;
    cbn [slice2 mbind res_bind]; unfold reshape_m1_3; cbn [flat].
  - by rewrite concat_map_py_slice_to_zero.
  - rewrite (concat_nils (map _ _)); [done|].
    apply Forall_map, Forall_forall. intros l _. apply py_slice_to_zero.
Qed.

Lemma reshape_slice_everything (a : ndarray) (height width : Z) :
  shape2 a = Return (height, width) →
  slice2 a (Some (- 0)%Z) None (Some (- 0)%Z) None ≫= reshape_m1_3 = reshape_m1_3 a
  ∧ slice2 a (Some (- 0)%Z) None None None ≫= reshape_m1_3 = reshape_m1_3 a
  ∧ slice2 a None None (Some (- 0)%Z) None ≫= reshape_m1_3 = reshape_m1_3 a.
Proof.
  destruct a as [xs|w rows|w c rows]; [discriminate| |]; intros _;
    cbn [slice2 mbind res_bind]; unfold reshape_m1_3; cbn [flat];
    by rewrite ?py_slice_from_minus_zero, ?py_slice_all, ?map_py_slice_all,
         ?map_py_slice_from_minus_zero.
Qed.

(** X22. When the numbers of rows and of columns to sample at each side,
    [int(height * sample_percentage)] and [int(width * sample_percentage)],
    are both zero, the slices [image[:0]] are empty and the slices
    [image[-0:]] are the whole image: the edge samples are all the pixels
    of the image, twice (as the bottom edge and as the right edge), and the
    corner samples are all the pixels of the image, once (as the bottom
    right corner). *)
Theorem samples_of_a_small_image_are_the_whole_image
    (a : ndarray) (height width : Z) (sample_percentage : Q) (pixels : list pixel) :
  shape2 a = Return (height, width) →
  reshape_m1_3 a = Return pixels →
  sample_rows height sample_percentage = 0%Z →
  sample_columns width sample_percentage = 0%Z →
  image_utils.extract_edge_samples a height width sample_percentage
  = Return (pixels ++ pixels)
  ∧ image_utils.extract_corner_samples a height width sample_percentage
    = Return pixels.
Proof.
  unfold sample_rows, sample_columns. intros Hshape Hpixels Hrows Hcolumns.
  destruct (reshape_slice_everything a height width Hshape) as (Hall & Hbottom & Hright).
  unfold image_utils.extract_edge_samples, image_utils.extract_corner_samples.
  rewrite Hrows, Hcolumns. split.
  - rewrite (reshape_slice_no_rows a height width None None Hshape).
    cbn [mbind res_bind]. rewrite Hbottom, Hpixels. cbn [mbind res_bind].
    rewrite (reshape_slice_no_columns a height width None None Hshape).
    cbn [mbind res_bind]. rewrite Hright, Hpixels. cbn [mbind res_bind app].
    reflexivity.
  - rewrite (reshape_slice_no_rows a height width None (Some 0%Z) Hshape).
    cbn [mbind res_bind].
    rewrite (reshape_slice_no_rows a height width (Some (- 0)%Z) None Hshape).
    cbn [mbind res_bind].
    rewrite (reshape_slice_no_columns a height width (Some (- 0)%Z) None Hshape).
    cbn [mbind res_bind]. rewrite Hall, Hpixels. cbn [mbind res_bind app].
    reflexivity.
Qed.

(** The constant 10x10 image with the sample percentage 0.05. *)
Lemma samples_of_ten_by_ten_image :
  sample_rows 10 0.05 = 0%Z ∧ sample_columns 10 0.05 = 0%Z
  ∧ image_utils.extract_edge_samples small_gray_image 10 10 0.05
    = Return (replicate 100 (128, 128, 128)%Z ++ replicate 100 (128, 128, 128)%Z)
  ∧ image_utils.extract_corner_samples small_gray_image 10 10 0.05
    = Return (replicate 100 (128, 128, 128)%Z).
Proof.
  split; [reflexivity|]. split; [reflexivity|].
  apply (samples_of_a_small_image_are_the_whole_image small_gray_image 10 10 0.05
           (replicate 100 (128, 128, 128)%Z)); reflexivity.
Defined.

Section BackgroundFallback.
Context {py : PyBuiltins} {cv : OpenCV} {sk : SkLearn}.
Variable cfg : BackgroundDetectionConfig.

(** An analysis that records an error is the fallback: it has no dominant
    colour. *)
Lemma analysis_error_has_no_dominant_color (a : ndarray) :
  BackgroundDetector.analysis_error (BackgroundDetector._analyze_background_dominance cfg a)
  ≠ None →
  BackgroundDetector.dominant_color (BackgroundDetector._analyze_background_dominance cfg a)
  = None.
Proof.
  unfold BackgroundDetector._analyze_background_dominance,
    BackgroundDetector._analyze_background_from_edges,
    BackgroundDetector._analyze_background_from_corners,
    BackgroundDetector._analyze_background_from_histogram.
  destruct (String.eqb _ "edge_based"); [|destruct (String.eqb _ "corner_based")].
  - destruct (shape2 a) as [e|[height width]]; [done|]. cbn [mbind res_bind].
    by destruct (image_utils.extract_edge_samples _ _ _ _).
  - destruct (shape2 a) as [e|[height width]]; [done|]. cbn [mbind res_bind].
    by destruct (image_utils.extract_corner_samples _ _ _ _).
  - destruct (cvtColor_BGR2LAB _) as [e|lab]; cbn [mbind res_bind];
      [intros _; reflexivity|].
    destruct (reshape_m1_3 (image_utils.ensure_uint8 a)) as [e|all_pixels];
      cbn [mbind res_bind];
      [intros _; reflexivity|].
    destruct (reshape_m1_3 lab) as [e|lab_pixels]; cbn [mbind res_bind];
      [intros _; reflexivity|].
    destruct (BackgroundDetector._find_dominant_color_from_histogram lab_pixels)
      as [lab_color frequency].
    by destruct (BackgroundDetector._convert_lab_to_bgr lab_color).
Qed.

(** X23. When the analysis of the background fails inside (its result is
    the fallback, which records the error and holds no [dominant_color]),
    [detect] does not use the fallback: reading [dominant_color] raises
    [KeyError], and the result is the error result of type
    [background_detection_error] whose message is ['dominant_color'], not
    the message of the error that the fallback recorded. *)
Theorem background_fallback_ends_in_key_error (a normalized : ndarray) (error : string) :
  _ensure_3channel_bgr a = Return normalized →
  BackgroundDetector.analysis_error
    (BackgroundDetector._analyze_background_dominance cfg normalized) = Some error →
  BackgroundDetector.detect cfg (ImgArray a)
  = Return (_create_error_result "background" (KeyError "'dominant_color'")
              "background_detection_error")
  ∧ DetectionResult.details
      (_create_error_result "background" (KeyError "'dominant_color'")
         "background_detection_error") !! "error_message"
    = Some (VStr "'dominant_color'").
Proof.
  intros Hnorm Herror. split; [|reflexivity].
  assert (image_utils.validate_image (ImgArray a) = Return true) as Hvalid.
  { revert Hnorm. unfold _ensure_3channel_bgr, image_utils.ensure_3channel_bgr,
      image_utils.ensure_uint8.
    destruct a as [xs|w rows|w c rows]; cbn [shape]; done. }
  unfold BackgroundDetector.detect, _validate_image. rewrite Hvalid.
  cbn [mbind res_bind negb]. unfold BackgroundDetector.detect_body.
  cbn [as_array mbind res_bind]. rewrite Hnorm. cbn [mbind res_bind].
  rewrite analysis_error_has_no_dominant_color by (by rewrite Herror).
  reflexivity.
Qed.

End BackgroundFallback.

(** The analysis by histogram when the conversion to Lab raises. *)
Lemma background_histogram_without_lab :
  _ensure_3channel_bgr (cv := Reference.opencv) small_gray_image
  = Return small_gray_image
  ∧ BackgroundDetector.analysis_error
      (BackgroundDetector._analyze_background_dominance
         (cv := Reference.opencv) (sk := Reference.sklearn)
         histogram_config small_gray_image)
    = Some "conversion not available"
  ∧ BackgroundDetector.detect
      (py := Reference.builtins) (cv := Reference.opencv) (sk := Reference.sklearn)
      histogram_config (ImgArray small_gray_image)
    = Return (_create_error_result "background" (KeyError "'dominant_color'")
                "background_detection_error").
Proof.
  split; [reflexivity|]. split; [reflexivity|].
  exact (proj1 (background_fallback_ends_in_key_error
                  (py := Reference.builtins) (cv := Reference.opencv)
                  (sk := Reference.sklearn)
                  histogram_config small_gray_image small_gray_image
                  "conversion not available" eq_refl eq_refl)).
Defined.

(** ** The file finder and the loader *)

Section FileFinderProperties.
Context {pl : PathLib} {io : ImageIO}.

Lemma sum_of_counts_insert (stats : gmap string Z) (ext : string) (n : Z) :
  stats !! ext = None → sum_of_counts (<[ext := n]> stats) = (n + sum_of_counts stats)%Z.
Proof.
  intros Hnone. unfold sum_of_counts.
  apply (map_fold_insert_L (λ _ count total, (count + total)%Z)); [|exact Hnone].
  intros. lia.
Qed.

Lemma sum_of_counts_increment (stats : gmap string Z) (ext : string) :
  sum_of_counts (<[ext := (default 0%Z (stats !! ext) + 1)%Z]> stats)
  = (sum_of_counts stats + 1)%Z.
Proof.
  destruct (stats !! ext) as [n|] eqn:Hn; cbn [default].
  - rewrite <- (insert_delete_eq stats ext (n + 1)%Z).
    rewrite sum_of_counts_insert by apply lookup_delete_eq.
    rewrite <- (insert_delete_id stats ext n Hn) at 2.
    rewrite sum_of_counts_insert by apply lookup_delete_eq. lia.
  - rewrite sum_of_counts_insert by exact Hn. lia.
Qed.

Lemma files_with_extension_cons (ext file : string) (files : list string) :
  files_with_extension ext (file :: files)
  = ((if decide (extension file = ext) then 1 else 0)
     + files_with_extension ext files)%Z
  ∧ (0 <= files_with_extension ext files)%Z.
Proof.
  unfold files_with_extension, len. rewrite filter_cons.
  destruct (decide (extension file = ext)); cbn [length]; lia.
Qed.

Lemma statistics_fold (files : list string) (stats : gmap string Z) :
  let final :=
    fold_left (λ stats file,
                 let ext := py_lower (path_suffix file) in
                 <[ext := (default 0%Z (stats !! ext) + 1)%Z]> stats) files stats in
  sum_of_counts final = (sum_of_counts stats + len files)%Z
  ∧ ∀ ext,
      final !! ext
      = if (0 <? files_with_extension ext files)%Z
        then Some (default 0%Z (stats !! ext) + files_with_extension ext files)%Z
        else stats !! ext.
Proof.
  cbv zeta. revert stats. induction files as [|file files IH]; intros stats.
  - split; [unfold len; cbn; lia|]. intros ext. reflexivity.
  - cbn [fold_left]. fold (extension file).
    destruct (IH (<[extension file := (default 0%Z (stats !! extension file) + 1)%Z]>
                    stats)) as [Hsum Hlookup].
    split.
    + rewrite Hsum, sum_of_counts_increment. unfold len. cbn [length]. lia.
    + intros ext. rewrite Hlookup.
      destruct (files_with_extension_cons ext file files) as [-> Hcount].
      generalize dependent (files_with_extension ext files). intros c Hc.
      destruct (decide (extension file = ext)) as [<-|Hne].
      * rewrite lookup_insert_eq. unfold default at 1. cbn [from_option]. unfold id.
        destruct (Z.ltb_spec 0 c), (Z.ltb_spec 0 (1 + c)); try lia;
          apply (f_equal Some); lia.
      * rewrite lookup_insert_ne by done. by rewrite Z.add_0_l.
Qed.

(** X24. The statistics of a folder count, for every extension, the
    images found with that extension (the suffix in lower case): an
    extension has an entry exactly when an image has it, every entry is an
    accepted extension, and the counts add up to the number of images that
    [count_images] returns. When the listing of the folder raises, so do
    both. *)
Theorem extension_statistics_count_the_images
    (extensions : gset string) (folder_path : string) :
  match FileFinder.find_images extensions folder_path true with
  | Raise e =>
      FileFinder.get_extension_statistics extensions folder_path = Raise e
      ∧ FileFinder.count_images extensions folder_path true = Raise e
  | Return files =>
      ∃ stats,
        FileFinder.get_extension_statistics extensions folder_path = Return stats
        ∧ (∀ ext, stats !! ext
                  = if (0 <? files_with_extension ext files)%Z
                    then Some (files_with_extension ext files)
                    else None)
        ∧ (∀ ext, is_Some (stats !! ext) → ext ∈ extensions)
        ∧ FileFinder.count_images extensions folder_path true
          = Return (sum_of_counts stats)
  end.
Proof.
  unfold FileFinder.get_extension_statistics, FileFinder.count_images.
  destruct (FileFinder.find_images extensions folder_path true) as [e|files] eqn:Hfind;
    [by split|]. cbn [mbind res_bind].
  destruct (statistics_fold files ∅) as [Hsum Hlookup].
  eexists. split; [reflexivity|].
  assert (∀ ext,
            fold_left (λ (stats : gmap string Z) file,
                         let ext := py_lower (path_suffix file) in
                         <[ext := (default 0%Z (stats !! ext) + 1)%Z]> stats) files ∅
            !! ext
            = if (0 <? files_with_extension ext files)%Z
              then Some (files_with_extension ext files)
              else None) as Hstats.
  { intros ext. rewrite Hlookup, lookup_empty. cbn [default].
    by rewrite Z.add_0_l. }
  split; [exact Hstats|]. split.
  - intros ext [n Hn]. rewrite Hstats in Hn.
    destruct (Z.ltb_spec 0 (files_with_extension ext files)) as [Hpos|]; [|done].
    unfold files_with_extension in Hpos.
    destruct (filter (λ file, extension file = ext) files) as [|file rest] eqn:Hf;
      [unfold len in Hpos; cbn in Hpos; lia|].
    assert (file ∈ filter (λ file, extension file = ext) files) as Hin
      by (rewrite Hf; left).
    apply list_elem_of_filter in Hin as [<- Hin].
    unfold FileFinder.find_images in Hfind.
    destruct (path_rglob folder_path) as [e|entries]; [discriminate|].
    cbn [mbind res_bind] in Hfind. injection Hfind as <-.
    apply list_elem_of_filter in Hin as [[Hext _] _]. exact Hext.
  - cbv zeta in Hsum. rewrite Hsum. unfold sum_of_counts. rewrite map_fold_empty.
    apply (f_equal Return). lia.
Qed.

(** X25. The finder returns, in the order of the listing, the entries
    that are files and whose suffix in lower case is an accepted extension.
    With the default extensions these are the files of the listing that the
    loader supports: every image found [is_supported_format], and a file of
    the listing in a supported format is found. *)
Theorem default_finder_finds_the_supported_files
    (folder_path : string) (recursive : bool) :
  match (if recursive then path_rglob folder_path else path_glob folder_path) with
  | Raise e =>
      FileFinder.find_images (FileFinder.__init__ None) folder_path recursive = Raise e
  | Return entries =>
      ∃ files,
        FileFinder.find_images (FileFinder.__init__ None) folder_path recursive
        = Return files
        ∧ sublist files entries
        ∧ ∀ file, file ∈ files
                  ↔ file ∈ entries ∧ path_is_file file = true
                    ∧ ImageLoader.is_supported_format file = true
  end.
Proof.
  unfold FileFinder.find_images.
  destruct (if recursive then _ else _) as [e|entries]; [reflexivity|].
  cbn [mbind res_bind]. eexists. split; [reflexivity|].
  split; [apply sublist_filter|]. intros file.
  rewrite list_elem_of_filter. unfold ImageLoader.is_supported_format.
  rewrite bool_decide_eq_true. cbn [FileFinder.__init__].
  unfold FileFinder.DEFAULT_EXTENSIONS, ImageLoader.SUPPORTED_EXTENSIONS. tauto.
Qed.

End FileFinderProperties.

(** ** The server: modes and results *)



Lemma descriptions_fold (name : string) (issues : list string) (acc : list string) :
  fold_left (λ issue_descriptions issue, issue_descriptions ++ [name +:+ ": " +:+ issue])
    issues acc
  = acc ++ map (λ issue, name +:+ ": " +:+ issue) issues.
Proof.
  revert acc. induction issues as [|i issues IH]; intros acc.
  - by rewrite app_nil_r.
  - cbn [fold_left map]. rewrite IH, <- app_assoc. reflexivity.
Qed.

Lemma extract_detection_details_eq (analysis : ImageAnalysis) :
  Server._extract_detection_details analysis
  = detail_of (concat (map issue_descriptions_of
                         (ImageAnalysis.detection_results analysis))).
Proof.
  unfold Server._extract_detection_details, detail_of.
  assert (∀ results acc,
            fold_left
              (λ issue_descriptions detection_result,
                 if DetectionResult.is_problematic detection_result
                    && negb (bool_decide (DetectionResult.issues detection_result = []))
                 then
                   let detector_name := DetectionResult.detector_name detection_result in
                   fold_left (λ issue_descriptions issue,
                                issue_descriptions ++ [detector_name +:+ ": " +:+ issue])
                             (DetectionResult.issues detection_result) issue_descriptions
                 else issue_descriptions) results acc
            = acc ++ concat (map issue_descriptions_of results)) as Hfold.
  { induction results as [|r results IH]; intros acc.
    - cbn. by rewrite app_nil_r.
    - cbn [fold_left map concat]. rewrite IH. unfold issue_descriptions_of at 2.
      destruct (DetectionResult.is_problematic r); cbn [andb].
      + case_bool_decide as Hi; cbn [negb].
        * rewrite Hi. reflexivity.
        * cbv zeta. by rewrite descriptions_fold, <- app_assoc.
      + reflexivity. }
  rewrite Hfold. reflexivity.
Qed.

Lemma description_not_empty (name issue : string) : name +:+ ": " +:+ issue ≠ EmptyString.
Proof. destruct name; discriminate. Qed.

Lemma detail_of_not_empty (descriptions : list string) :
  Forall (λ d, d ≠ EmptyString) descriptions → detail_of descriptions ≠ EmptyString.
Proof.
  unfold detail_of, py_join. destruct descriptions as [|d rest]; [discriminate|].
  intros Hall. apply Forall_cons in Hall as [Hd _]. cbn [String.concat].
  destruct rest; [exact Hd|]. destruct d; [done|discriminate].
Qed.

(** X27. The result that [build_analysis_result] returns keeps the file
    name and the URL. Its state is [failed] exactly when the error given
    is true (an exception, or a text that is not empty) or the analysis is
    problematic, and [pass] otherwise: a failure reported with an empty
    text counts as no error. Its detail is empty exactly when the state is
    [pass]; for an error it is the text of the error after [internal error:
    ]; for a problematic analysis it is the issues of the problematic
    detection results, each after the name of its detector, joined with
    [; ], or [failed by detector(s)] when there is no such issue. *)
Theorem analysis_result_state_and_detail (file_name : string) (url : option string)
    (analysis : option ImageAnalysis) (error : Server.error_value) :
  let result := Server.build_analysis_result file_name url analysis error in
  let problematic :=
    match analysis with
    | Some a => ImageAnalysis.is_problematic a
    | None => false
    end in
  Server.file_name result = file_name
  ∧ Server.url result = url
  ∧ Server.state result
    = (if Server.error_is_true error || problematic then "failed" else "pass")
  ∧ (Server.detail result = EmptyString ↔ Server.state result = "pass")
  ∧ (Server.error_is_true error = true →
     Server.detail result = "internal error: " +:+ Server.str_error error)
  ∧ (Server.error_is_true error = false →
     ∀ a, analysis = Some a → ImageAnalysis.is_problematic a = true →
          Server.detail result
          = detail_of (concat (map issue_descriptions_of
                                 (ImageAnalysis.detection_results a)))).
Proof.
  cbv zeta. unfold Server.build_analysis_result.
  destruct (Server.error_is_true error) eqn:He; cbn [orb Server.file_name Server.url
                                                    Server.state Server.detail].
  - repeat split; try done.
  - destruct analysis as [a|]; [|repeat split; done].
    destruct (ImageAnalysis.is_problematic a) eqn:Ha.
    + rewrite extract_detection_details_eq.
      split; [done|]. split; [done|]. split; [done|]. split; [|split; [done|]].
      * split; [|done]. intros Hd. exfalso. revert Hd. apply detail_of_not_empty.
        apply Forall_concat, Forall_map, Forall_forall. intros r _.
        unfold issue_descriptions_of. destruct (DetectionResult.is_problematic r);
          [|constructor].
        apply Forall_map, Forall_forall. intros i _. apply description_not_empty.
      * by intros _ a' [= <-] _.
    + repeat split; try done. intros _ a' [= <-] Ha'. congruence.
Qed.

Section ServerHandlers.
Context {py : PyBuiltins} {cv : OpenCV} {sk : SkLearn} {rng : NumpyRandom}
        {fs : FileSystem}.
Variable env : gmap string string.

Lemma composite_detector_name (detectors : list Detector) (img : image)
    (r : DetectionResult) :
  CompositeDetector.detect detectors img = Return r →
  DetectionResult.detector_name r = "composite".
Proof.
  destruct detectors as [|d ds]; [by intros [= <-]|].
  destruct (composite_detect_nonempty d ds img) as [details ->]. by intros [= <-].
Qed.

(** X28. [analyze_image_file] raises only what creating [PixelGuard] for
    the mode raises (the configuration is built before the [try]). With the
    configuration built it returns: when the analysis raises, the state
    [failed] with the text of the exception after [internal error: ];
    otherwise the state is [failed] or [pass] as the result of the composite
    is problematic or not, and the detail of a failure lists the issues of
    the composite, each after the name [composite] (not the name of the
    detector that found it). *)
Theorem server_reports_the_composite_result
    (file_path file_name : string) (url : option string) (detection_mode : string) :
  match PixelGuard.__init__ env None (Some detection_mode) with
  | Raise e =>
      Server.analyze_image_file env file_path file_name url detection_mode = Raise e
  | Return config =>
      match ImageAnalyzer.analyze config file_path with
      | Raise e =>
          Server.analyze_image_file env file_path file_name url detection_mode
          = Return {| Server.file_name := file_name; Server.url := url;
                      Server.state := "failed";
                      Server.detail := "internal error: " +:+ str_exn e |}
      | Return analysis =>
          ∃ r,
            ImageAnalysis.detection_results analysis = [r]
            ∧ DetectionResult.detector_name r = "composite"
            ∧ Server.analyze_image_file env file_path file_name url detection_mode
              = Return {| Server.file_name := file_name; Server.url := url;
                          Server.state :=
                            if DetectionResult.is_problematic r then "failed" else "pass";
                          Server.detail :=
                            if DetectionResult.is_problematic r
                            then detail_of (map (λ issue, "composite: " +:+ issue)
                                              (DetectionResult.issues r))
                            else EmptyString |}
      end
  end.
Proof.
  unfold Server.analyze_image_file.
  destruct (PixelGuard.__init__ env None (Some detection_mode)) as [e|config];
    [reflexivity|]. cbn [mbind res_bind]. unfold PixelGuard.analyze_image.
  destruct (ImageAnalyzer.analyze config file_path) as [e|analysis] eqn:E;
    [reflexivity|].
  destruct (analyze_returns_inv config file_path analysis E)
    as (r & img & Hr & Hresults & Hflag).
  exists r. split; [exact Hresults|].
  pose proof (composite_detector_name _ _ _ Hr) as Hname.
  split; [exact Hname|].
  unfold Server.build_analysis_result. cbn [Server.error_is_true]. rewrite Hflag.
  rewrite extract_detection_details_eq, Hresults.
  cbn [map concat]. rewrite app_nil_r.
  unfold issue_descriptions_of. rewrite Hname.
  by destruct (DetectionResult.is_problematic r).
Qed.

End ServerHandlers.

(** ** The command line *)

Section CommandLine.
Context {py : PyBuiltins}.



Lemma ascii_upper_not_lower (a : Ascii.ascii) : is_lower (ascii_upper a) = false.
Proof. destruct a as [[] [] [] [] [] [] [] []]; reflexivity. Qed.

Lemma upper_text_is_no_mode_value (mode : string) :
  mode ≠ EmptyString →
  find (λ vm : string * DetectionMode, String.eqb vm.1 (py_upper mode))
    DetectionMode_values = None.
Proof.
  intros Hmode. destruct mode as [|a rest]; [done|]. cbn [py_upper].
  pose proof (ascii_upper_not_lower a) as Hupper.
  unfold DetectionMode_values. cbn [find fst String.eqb].
  repeat match goal with
    | |- context [Ascii.eqb ?c (ascii_upper a)] =>
        destruct (Ascii.eqb_spec c (ascii_upper a)) as [Heq|_];
        [rewrite <- Heq in Hupper; discriminate Hupper|]
    end.
  reflexivity.
Qed.

(** X30. The command [config] looks the mode up in upper case, while the
    values of [DetectionMode] are in lower case: for every mode given that
    is not empty, [strict] and the other five included, the lookup raises
    and the command writes [Invalid mode: ] and the mode; it never shows a
    configuration. *)
Theorem show_config_rejects_every_mode (env : gmap string string)
    (str_config : DetectionConfig → string) (mode : string) :
  mode ≠ EmptyString →
  Cli.show_config env str_config (Some mode) = ["Invalid mode: " +:+ mode].
Proof.
  intros Hmode. unfold Cli.show_config.
  destruct (String.eqb_spec mode EmptyString) as [?|_]; [done|].
  unfold DetectionMode_of_value. by rewrite upper_text_is_no_mode_value.
Qed.

End CommandLine.

(** The mode [strict]. *)
Lemma show_config_rejects_strict :
  "strict" ≠ EmptyString
  ∧ Cli.show_config (py := Reference.builtins) ∅ (λ _, "DetectionConfig(...)")
      (Some "strict")
    = ["Invalid mode: strict"].
Proof.
  split; [discriminate|].
  apply (show_config_rejects_every_mode (py := Reference.builtins) ∅
           (λ _, "DetectionConfig(...)") "strict").
  discriminate.
Defined.
